(** * try-coagent, examples/langchain-simple: the instrumented recipe pipeline

    A shallow embedding of [config.py] and [run_example.py].

    The script sends one structured generation request to a model endpoint,
    validates the reply against the [RecipeCollection] schema, and reports
    session telemetry to a collector.  The model endpoint, the collector, the
    clock, the file system and the JSON reader are outside the repository:
    they appear here as the fields of an environment record ([env]) and of a
    reporter oracle, and every theorem quantifies over them.

    Python objects that are mutated through shared references (the
    [MetadataExtractor] handed both to the LLM wrapper as a callback and to
    [generate_structured_recipes] as an argument) live in a heap addressed by
    locations, so the aliasing of the source is kept. *)

From Stdlib Require Import ZArith String Ascii List Floats Lia.
From stdpp Require Import base option list gmap strings pretty.

#[local] Set Warnings "-register-all,-inexact-float".
#[local] Open Scope string_scope.
#[local] Open Scope Z_scope.
#[local] Open Scope list_scope.

(* ===================================================================== *)
(** * Python values, exceptions *)
(* ===================================================================== *)

(** [Any]: what a [Dict[str, Any]] of the source can hold.  JSON replies are
    read into the same type. *)
Inductive value : Type :=
  | VNone
  | VBool (b : bool)
  | VInt (z : Z)
  | VFloat (f : float)
  | VStr (s : string)
  | VList (l : list value)
  | VDict (d : gmap string value).

(** The exceptions the script can meet; all are subclasses of [Exception],
    so every [except Exception] of the source catches each of them.  The last
    four are raised by the collaborators: langchain's output parser, the model
    endpoint client, the telemetry client and the file system. *)
Inductive exn : Type :=
  | KeyError (key : string)
  | TypeError (msg : string)
  | AttributeError (msg : string)
  | IndexError (msg : string)
  | ValueError (msg : string)
  | OverflowError (msg : string)
  | OutputParserException (msg : string)
  | EndpointError (msg : string)
  | TelemetryError (msg : string)
  | OSError (msg : string).

(** [str(e)].  A [KeyError] prints the repr of its key. *)
Definition exn_str (e : exn) : string :=
  match e with
  | KeyError k => "'" +:+ k +:+ "'"
  | TypeError m | AttributeError m | IndexError m | ValueError m
  | OverflowError m | OutputParserException m | EndpointError m
  | TelemetryError m | OSError m => m
  end.

Inductive result (A : Type) : Type :=
  | Ok (a : A)
  | Raise (e : exn).
Arguments Ok {A} a.
Arguments Raise {A} e.

(** [", ".join(items)] *)
Fixpoint join (sep : string) (items : list string) : string :=
  match items with
  | [] => EmptyString
  | [x] => x
  | x :: rest => x +:+ sep +:+ join sep rest
  end.

(** [int(x)] on a float: truncation toward zero; infinities and NaN raise. *)
Definition int_of_float (x : float) : result Z :=
  match Prim2SF x with
  | S754_zero _ => Ok 0
  | S754_finite s m e =>
      let mag := if (0 <=? e)%Z then Z.pos m * 2 ^ e
                 else Z.pos m / 2 ^ (- e) in
      Ok (if s then - mag else mag)
  | S754_infinity _ =>
      Raise (OverflowError "cannot convert float infinity to integer")
  | S754_nan => Raise (ValueError "cannot convert float NaN to integer")
  end.

(* ===================================================================== *)
(** * config.py *)
(* ===================================================================== *)

Module Config.

Record OllamaConfig : Type := {
  model_name : string;
  base_url : string;
  temperature : float;
  top_p : float;
  max_tokens : option Z
}.

Definition OllamaConfig_default : OllamaConfig := {|
  model_name := "qwen3:8b";
  base_url := "http://localhost:11434";
  temperature := 0.7%float;
  top_p := 0.9%float;
  max_tokens := None
|}.

Record RecipeConfig : Type := {
  default_ingredients : list string;
  max_recipes : Z
}.

(** [RecipeConfig()] followed by [__post_init__]. *)
Definition RecipeConfig_init (ingredients : option (list string))
    (max : Z) : RecipeConfig := {|
  default_ingredients :=
    match ingredients with
    | Some l => l
    | None => ["chicken"; "tomatoes"; "onions"; "garlic"; "rice";
               "olive oil"; "salt"; "pepper"]
    end;
  max_recipes := max
|}.

Record AppConfig : Type := {
  ollama : OllamaConfig;
  recipes : RecipeConfig
}.

Definition AppConfig_init (o : option OllamaConfig)
    (r : option RecipeConfig) : AppConfig := {|
  ollama := match o with Some c => c | None => OllamaConfig_default end;
  recipes := match r with Some c => c | None => RecipeConfig_init None 3 end
|}.

Definition default_config : AppConfig := AppConfig_init None None.

End Config.

(* ===================================================================== *)
(** * The output schema and its validator *)
(* ===================================================================== *)

(** The two pydantic classes of [run_example.py] and the validation that
    [PydanticOutputParser(pydantic_object=RecipeCollection)] derives from
    them.  Every field is declared with [Field(description=...)] and no
    default, so every field is required; the descriptions (among them
    "List of three recipes") are text for the model and carry no constraint.
    Keys that are not declared are ignored, as pydantic does by default. *)
Module Schema.

Record Recipe : Type := {
  name : string;
  ingredients : list string;
  instructions : list string;
  prep_time_minutes : Z;
  cook_time_minutes : Z;
  servings : Z
}.

Record RecipeCollection : Type := {
  recipes : list Recipe
}.

(** The library side of the parser: the JSON reader applied to the reply
    (langchain's [parse_json_markdown]), pydantic's lax coercion of a JSON
    value to [int] (integers, integral floats, numeric strings), and the
    text of [get_format_instructions()]. *)
Record parser_lib : Type := {
  parse_json : string -> option value;
  lax_int : value -> option Z;
  format_instructions : string
}.

Inductive violation : Type :=
  | Missing (field : string)
  | WrongType (field : string).

Inductive checked (A : Type) : Type :=
  | Valid (a : A)
  | Invalid (why : violation).
Arguments Valid {A} a.
Arguments Invalid {A} why.

Definition and_then {A B} (c : checked A) (k : A -> checked B) : checked B :=
  match c with
  | Valid a => k a
  | Invalid why => Invalid why
  end.

#[local] Notation "'check' x ':=' c 'in' k" := (and_then c (fun x => k))
  (at level 10, x name, c at level 100, k at level 200).

(** The two ways [parser.parse] fails.  Both surface in Python as an
    [OutputParserException]: [MalformedOutput] is the one raised when the
    reply is not JSON, [SchemaViolation] the one raised on a pydantic
    [ValidationError]. *)
Inductive parse_error : Type :=
  | MalformedOutput
  | SchemaViolation (why : violation).

Section Validator.
Variable L : parser_lib.

Definition validate_str (loc : string) (v : value) : checked string :=
  match v with
  | VStr s => Valid s
  | _ => Invalid (WrongType loc)
  end.

Definition validate_int (loc : string) (v : value) : checked Z :=
  match lax_int L v with
  | Some z => Valid z
  | None => Invalid (WrongType loc)
  end.

Fixpoint validate_all {A} (f : value -> checked A) (l : list value)
    : checked (list A) :=
  match l with
  | [] => Valid []
  | v :: rest =>
      check a := f v in
      check r := validate_all f rest in
      Valid (a :: r)
  end.

Definition validate_list {A} (loc : string) (f : value -> checked A)
    (v : value) : checked (list A) :=
  match v with
  | VList l => validate_all f l
  | _ => Invalid (WrongType loc)
  end.

Definition required {A} (d : gmap string value) (k : string)
    (f : string -> value -> checked A) : checked A :=
  match d !! k with
  | Some v => f k v
  | None => Invalid (Missing k)
  end.

Definition validate_Recipe (v : value) : checked Recipe :=
  match v with
  | VDict d =>
      check n := required d "name" validate_str in
      check ing := required d "ingredients"
               (fun k => validate_list k (validate_str k)) in
      check ins := required d "instructions"
               (fun k => validate_list k (validate_str k)) in
      check p := required d "prep_time_minutes" validate_int in
      check c := required d "cook_time_minutes" validate_int in
      check s := required d "servings" validate_int in
      Valid {| name := n; ingredients := ing; instructions := ins;
               prep_time_minutes := p; cook_time_minutes := c;
               servings := s |}
  | _ => Invalid (WrongType "Recipe")
  end.

Definition validate_RecipeCollection (v : value)
    : checked RecipeCollection :=
  match v with
  | VDict d =>
      check rs := required d "recipes"
              (fun k => validate_list k validate_Recipe) in
      Valid {| recipes := rs |}
  | _ => Invalid (WrongType "RecipeCollection")
  end.

(** [parser.parse(text)] *)
Definition parse (text : string) : RecipeCollection + parse_error :=
  match parse_json L text with
  | None => inr MalformedOutput
  | Some v =>
      match validate_RecipeCollection v with
      | Valid rc => inl rc
      | Invalid why => inr (SchemaViolation why)
      end
  end.

End Validator.

(** The fields a [Recipe] declares. *)
Definition Recipe_fields : list string :=
  ["name"; "ingredients"; "instructions"; "prep_time_minutes";
   "cook_time_minutes"; "servings"].

(** A reply record that conforms to [Recipe]: a JSON object holding every
    declared field with a value of the declared type. *)
Definition conforms_Recipe (v : value) : Prop :=
  exists (d : gmap string value) n ing ins p c s,
    v = VDict d /\
    d !! "name" = Some (VStr n) /\
    d !! "ingredients" = Some (VList (VStr <$> ing)) /\
    d !! "instructions" = Some (VList (VStr <$> ins)) /\
    d !! "prep_time_minutes" = Some (VInt p) /\
    d !! "cook_time_minutes" = Some (VInt c) /\
    d !! "servings" = Some (VInt s).

(** The number of records a collection is declared to hold: the "three
    recipes" of the descriptions of [RecipeCollection], which is
    [max_recipes] of the configuration. *)
Definition declared_arity : nat :=
  Z.to_nat (Config.max_recipes (Config.recipes Config.default_config)).

(** A reply that fully conforms to [RecipeCollection], with its records:
    an object whose [recipes] is a list of the declared number of
    conforming records. *)
Definition conforms_RecipeCollection (v : value) (rs : list value) : Prop :=
  exists d : gmap string value,
    v = VDict d /\ d !! "recipes" = Some (VList rs) /\
    length rs = declared_arity /\
    Forall conforms_Recipe rs.

(** A reply object in which a required field is absent: the collection has
    no [recipes], or one of its records lacks a declared field. *)
Definition misses_required (v : value) : Prop :=
  exists d : gmap string value,
    v = VDict d /\
    (d !! "recipes" = None \/
     exists rs, d !! "recipes" = Some (VList rs) /\
       Exists (fun r => exists (o : gmap string value) k,
                 r = VDict o /\ k ∈ Recipe_fields /\ o !! k = None) rs).

End Schema.

(* ===================================================================== *)
(** * The run-time model: state, events, effects *)
(* ===================================================================== *)

Import Schema.

(** One generation candidate of a model response and the response itself
    (langchain's [Generation] and [LLMResult]). *)
Record Generation : Type := {
  text : string;
  generation_info : option (gmap string value)
}.

Record LLMResult : Type := {
  generations : list (list Generation)
}.

(** The messages [ChatPromptTemplate] renders for the model. *)
Record RenderedPrompt : Type := {
  system_text : string;
  human_text : string
}.

(** A [MetadataExtractor] object: its two attributes. *)
Record MetadataExtractor : Type := {
  metadata : gmap string value;
  model : string
}.

#[global] Instance MetadataExtractor_inhabited : Inhabited MetadataExtractor :=
  populate {| metadata := ∅; model := EmptyString |}.

(** References to extractor objects. *)
Abbreviation loc := nat (only parsing).

(** The calls of [CoagentClient], with their keyword arguments.  The
    [response] of [log_llm_response] is the collection whose
    [model_dump_json()] is sent; [meta] is the dictionary under the key
    [context], when the argument is given. *)
Inductive telemetry : Type :=
  | log_session_start (session_id prompt : string)
      (prompt_number turn_number : Z)
  | log_llm_call_new (session_id prompt : string)
      (prompt_number turn_number : Z) (issuer system_prompt : string)
  | log_llm_response (session_id : string) (response : RecipeCollection)
      (prompt_number turn_number : Z)
      (input_tokens output_tokens total_tokens : value)
  | log_session_end (session_id response : string)
      (prompt_number turn_number : Z) (elapsed_time_ms : Z)
      (meta : option (gmap string value)).

(** What a run does to the outside: a telemetry call is recorded when it is
    attempted, whether or not it then raises; [FileWrite] is a completed
    [json.dump(payload.model_dump(), f, indent=indent)] into file [name]. *)
Inductive event : Type :=
  | Print (v : value)
  | Telemetry (c : telemetry)
  | ModelCall (p : RenderedPrompt)
  | FileWrite (name : string) (payload : RecipeCollection) (indent : Z).

(** The mutable state: the objects reachable through references (a
    reference in use is always one that [MetadataExtractor()] returned), the
    next free location, and the number of clock readings taken so far. *)
Record state : Type := {
  heap : gmap loc MetadataExtractor;
  next_loc : loc;
  ticks : nat
}.

Inductive endpoint_outcome : Type :=
  | Reply (r : LLMResult)
  | Failure (msg : string).

(** The collaborators of a run.  [clock n] is the [n]-th reading of
    [time.time()]; [uuid_hex] is [uuid.uuid4().hex[:8]]; [endpoint] is the
    model server behind [OllamaLLM]; [serialized] and [callback_kwargs] are
    what langchain hands to the callbacks; [write_file name] is [None] when
    opening and writing the file succeed and the message of the [OSError]
    otherwise. *)
Record env : Type := {
  lib : parser_lib;
  clock : nat -> float;
  uuid_hex : string;
  endpoint : RenderedPrompt -> endpoint_outcome;
  serialized : value;
  callback_kwargs : gmap string value;
  write_file : string -> option string
}.

(** The telemetry collector: [None] when the call returns, the message of
    the exception when it raises. *)
Definition reporter : Type := telemetry -> option string.

(** Computations: from a state to a result (a value or a raised exception),
    the state reached, and the events emitted on the way. *)
Definition M (A : Type) : Type := state -> result A * state * list event.

Definition ret {A} (a : A) : M A := fun s => (Ok a, s, []).

Definition raise {A} (e : exn) : M A := fun s => (Raise e, s, []).

Definition bind {A B} (m : M A) (k : A -> M B) : M B :=
  fun s =>
    match m s with
    | (Ok a, s1, t1) =>
        match k a s1 with
        | (r, s2, t2) => (r, s2, t1 ++ t2)
        end
    | (Raise e, s1, t1) => (Raise e, s1, t1)
    end.

(** [try: m  except Exception as e: h e] *)
Definition try_except {A} (m : M A) (h : exn -> M A) : M A :=
  fun s =>
    match m s with
    | (Ok a, s1, t1) => (Ok a, s1, t1)
    | (Raise e, s1, t1) =>
        match h e s1 with
        | (r, s2, t2) => (r, s2, t1 ++ t2)
        end
    end.

Definition lift {A} (r : result A) : M A := fun s => (r, s, []).

Definition emit (e : event) : M unit := fun s => (Ok tt, s, [e]).

Notation "x <- c1 ;; c2" := (bind c1 (fun x => c2))
  (at level 100, c1 at next level, right associativity).
Notation "c1 ;; c2" := (bind c1 (fun _ => c2))
  (at level 100, right associativity).

Definition value_of {A} (o : result A * state * list event) : result A :=
  fst (fst o).
Definition final {A} (o : result A * state * list event) : state :=
  snd (fst o).
Definition emitted {A} (o : result A * state * list event) : list event :=
  snd o.

Definition print (v : value) : M unit := emit (Print v).

Definition LF : string := String "010"%char EmptyString.

(** ["=" * 60] and the like *)
Fixpoint repeat_str (s : string) (n : nat) : string :=
  match n with
  | O => EmptyString
  | S n' => s +:+ repeat_str s n'
  end.

(** ** The heap of extractor objects *)

Definition set_metadata (o : MetadataExtractor) (md : gmap string value)
    : MetadataExtractor :=
  {| metadata := md; model := model o |}.

(** [self.metadata[k] = v] *)
Definition setitem (self : loc) (k : string) (v : value) : M unit :=
  fun s =>
    let o := heap s !!! self in
    (Ok tt,
     {| heap := <[self := set_metadata o (<[k := v]> (metadata o))]> (heap s);
        next_loc := next_loc s; ticks := ticks s |},
     []).

(** [self.metadata[k]] *)
Definition getitem (self : loc) (k : string) : M value :=
  fun s =>
    match metadata (heap s !!! self) !! k with
    | Some v => (Ok v, s, [])
    | None => (Raise (KeyError k), s, [])
    end.

(** [self.model] *)
Definition getattr_model (self : loc) : M string :=
  fun s => (Ok (model (heap s !!! self)), s, []).

(** [metadata_extractor.metadata], on a reference that may be [None] *)
Definition getattr_metadata (o : option loc) : M (gmap string value) :=
  fun s =>
    match o with
    | Some l => (Ok (metadata (heap s !!! l)), s, [])
    | None =>
        (Raise (AttributeError
                  "'NoneType' object has no attribute 'metadata'"), s, [])
    end.

(* ===================================================================== *)
(** * run_example.py *)
(* ===================================================================== *)

(** ** The prompt texts of [generate_structured_recipes] *)

Definition system_prompt : string :=
  "You are a professional chef and cooking assistant." +:+ LF +:+
  "        Create exactly three practical and delicious recipes using the provided ingredients." +:+ LF +:+
  "        Each recipe should be complete with ingredients, instructions, and timing information." +:+ LF +:+
  "        Be creative but ensure the recipes are realistic and achievable.".

Definition prompt_head : string :=
  "Create three recipes using these ingredients: ".

(** The text after the format instructions; the two prompts of the source
    differ only in the indentation of their continuation lines (twelve
    blanks in the template, eight in the logged f-string). *)
Definition prompt_tail (indent : string) : string :=
  LF +:+ LF +:+
  indent +:+ "Make sure each recipe:" +:+ LF +:+
  indent +:+ "- Uses the provided ingredients prominently" +:+ LF +:+
  indent +:+ "- Has realistic preparation and cooking times" +:+ LF +:+
  indent +:+ "- Includes clear step-by-step instructions" +:+ LF +:+
  indent +:+ "- Specifies exact quantities for ingredients" +:+ LF +:+
  indent.

Definition prompt_text (indent ingredients_str instructions : string)
    : string :=
  prompt_head +:+ ingredients_str +:+ (LF +:+ LF +:+ indent) +:+
  instructions +:+ prompt_tail indent.

(** The human message of [prompt_template], with [{ingredients}] and
    [{format_instructions}] filled in. *)
Definition human_message (ingredients_str instructions : string) : string :=
  prompt_text "            " ingredients_str instructions.

(** [full_prompt], the f-string sent to the collector. *)
Definition full_prompt (ingredients_str instructions : string) : string :=
  prompt_text "        " ingredients_str instructions.

Definition render (ingredients_str instructions : string) : RenderedPrompt :=
  {| system_text := system_prompt;
     human_text := human_message ingredients_str instructions |}.

(** The prompt as the single string langchain hands to [on_llm_start]. *)
Definition prompt_string (p : RenderedPrompt) : string :=
  "System: " +:+ system_text p +:+ LF +:+ "Human: " +:+ human_text p.

(** [StructuredRecipeGenerator]: the fields of its [OllamaLLM].  The parser
    and the client of the object are the [lib] of the environment and the
    reporter. *)
Record StructuredRecipeGenerator : Type := {
  llm_model : string;
  llm_base_url : string;
  llm_temperature : float;
  llm_top_p : float;
  llm_callbacks : list loc;
  llm_max_tokens : option Z
}.

(** [StructuredRecipeGenerator.__init__].  The constructors of the
    collaborators ([OllamaLLM], [PydanticOutputParser], [CoagentClient]) are
    taken to return. *)
Definition StructuredRecipeGenerator_init (model_name : option string)
    (metadata_extractor : option loc) : StructuredRecipeGenerator :=
  let cfg := Config.ollama Config.default_config in
  {| llm_model := match model_name with
                  | Some m => m
                  | None => Config.model_name cfg
                  end;
     llm_base_url := Config.base_url cfg;
     llm_temperature := Config.temperature cfg;
     llm_top_p := Config.top_p cfg;
     llm_callbacks := match metadata_extractor with
                      | Some l => [l]
                      | None => []
                      end;
     llm_max_tokens := Config.max_tokens cfg |}.

(** Truth value of an [Optional[Dict]]: [None] and the empty dictionary are
    false. *)
Definition truthy (d : option (gmap string value)) : bool :=
  match d with
  | None => false
  | Some d => negb (Nat.eqb (size d) 0)
  end.

(** [d[k]] on an [Optional[Dict]] *)
Definition subscript (d : option (gmap string value)) (k : string)
    : M value :=
  match d with
  | None => raise (TypeError "'NoneType' object is not subscriptable")
  | Some d =>
      match d !! k with
      | Some v => ret v
      | None => raise (KeyError k)
      end
  end.

(** [total += v] for an integer total.  Booleans count as the integers they
    are; a counter of any other type raises (a float counter, which Python
    would add, is treated the same: the endpoint reports integers). *)
Definition add_count (total : Z) (v : value) : M Z :=
  match v with
  | VInt z => ret (total + z)
  | VBool b => ret (total + Z.b2z b)
  | _ => raise (TypeError "unsupported operand type(s) for +=")
  end.

(** [a - b] on two clock readings; other operands raise. *)
Definition py_sub (a b : value) : M value :=
  match a, b with
  | VFloat x, VFloat y => ret (VFloat (x - y)%float)
  | _, _ => raise (TypeError "unsupported operand type(s) for -")
  end.

(** [gen[0]] *)
Definition item0 {A} (l : list A) : M A :=
  match l with
  | x :: _ => ret x
  | [] => raise (IndexError "list index out of range")
  end.

(** [d.get('usage', {}).get(k)] *)
Definition usage_entry (md : gmap string value) (k : string) : M value :=
  match default (VDict ∅) (md !! "usage") with
  | VDict u => ret (default VNone (u !! k))
  | _ => raise (AttributeError "object has no attribute 'get'")
  end.

Section Program.
Variable E : env.

(** [time.time()] *)
Definition time_time : M float :=
  fun s =>
    (Ok (clock E (ticks s)),
     {| heap := heap s; next_loc := next_loc s; ticks := S (ticks s) |},
     []).

(** [MetadataExtractor()] *)
Definition MetadataExtractor_init : M loc :=
  fun s =>
    let fresh := {| metadata := ∅;
                    model := Config.model_name
                               (Config.ollama Config.default_config) |} in
    (Ok (next_loc s),
     {| heap := <[next_loc s := fresh]> (heap s);
        next_loc := S (next_loc s); ticks := ticks s |},
     []).

(** [MetadataExtractor.on_llm_start] *)
Definition on_llm_start (self : loc) (serialized : value)
    (prompts : list string) (kwargs : gmap string value) : M unit :=
  print (VStr "LLM start") ;;
  print serialized ;;
  print (VList (VStr <$> prompts)) ;;
  print (VDict kwargs) ;;
  now <- time_time ;;
  setitem self "start_time" (VFloat now) ;;
  setitem self "model_info" serialized ;;
  setitem self "input_prompts" (VList (VStr <$> prompts)).

(** The body of [for gen_inner in gen], run on the candidates that remain,
    [gen] being the whole inner list. *)
Fixpoint for_gen_inner (gen : list Generation) (remaining : list Generation)
    (totals : Z * Z) : M (Z * Z) :=
  match remaining with
  | [] => ret totals
  | gen_inner :: rest =>
      totals' <-
        (if truthy (generation_info gen_inner) then
           first <- item0 gen ;;
           let generation_info := generation_info first in
           p <- subscript generation_info "prompt_eval_count" ;;
           total_input <- add_count (fst totals) p ;;
           e <- subscript generation_info "eval_count" ;;
           total_output <- add_count (snd totals) e ;;
           ret (total_input, total_output)
         else
           print (VStr "No generation info found for this generation.") ;;
           ret totals) ;;
      for_gen_inner gen rest totals'
  end.

(** [for gen in response.generations] *)
Fixpoint for_gen (gens : list (list Generation)) (totals : Z * Z)
    : M (Z * Z) :=
  match gens with
  | [] => ret totals
  | gen :: rest =>
      totals' <- for_gen_inner gen gen totals ;;
      for_gen rest totals'
  end.

(** [MetadataExtractor.on_llm_end] *)
Definition on_llm_end (self : loc) (response : LLMResult)
    (kwargs : gmap string value) : M unit :=
  print (VStr "LLM end") ;;
  totals <- for_gen (generations response) (0, 0) ;;
  let total_input := fst totals in
  let total_output := snd totals in
  let usage : gmap string value :=
    <["input_tokens" := VInt total_input]>
      (<["output_tokens" := VInt total_output]>
         (<["total_tokens" := VInt (total_input + total_output)]> ∅)) in
  m <- getattr_model self ;;
  setitem self "model" (VStr m) ;;
  now <- time_time ;;
  setitem self "end_time" (VFloat now) ;;
  end_time <- getitem self "end_time" ;;
  start_time <- getitem self "start_time" ;;
  duration <- py_sub end_time start_time ;;
  setitem self "duration" duration ;;
  setitem self "usage" (VDict usage).

(** [MetadataExtractor.on_llm_error] *)
Definition on_llm_error (self : loc) (error : exn)
    (kwargs : gmap string value) : M unit :=
  print (VStr "LLM error") ;;
  print (VStr (exn_str error)) ;;
  print (VDict kwargs) ;;
  setitem self "error" (VStr (exn_str error)).

(** ** The chain [prompt_template | self.llm | self.parser]

    The middle of the chain is langchain's, not the script's; what the
    script relies on is modelled: the callbacks run around the one request to
    the endpoint, an exception raised inside a callback is logged by
    langchain and not re-raised, a failed request reaches [on_llm_error] and
    then propagates, and the text handed to the parser is that of the first
    generation. *)

Fixpoint for_callbacks (callbacks : list loc) (hook : loc -> M unit)
    : M unit :=
  match callbacks with
  | [] => ret tt
  | cb :: rest =>
      try_except (hook cb) (fun _ => ret tt) ;;
      for_callbacks rest hook
  end.

(** [response.generations[0][0].text] *)
Definition first_text (response : LLMResult) : M string :=
  gen <- item0 (generations response) ;;
  g <- item0 gen ;;
  ret (text g).

Definition parser_message (err : parse_error) : string :=
  match err with
  | MalformedOutput => "Invalid json output"
  | SchemaViolation _ => "Failed to parse RecipeCollection from completion"
  end.

(** [self.parser.parse(text)] *)
Definition parser_parse (reply : string) : M RecipeCollection :=
  match parse (lib E) reply with
  | inl rc => ret rc
  | inr err => raise (OutputParserException (parser_message err))
  end.

(** [chain.invoke({...})] *)
Definition chain_invoke (self : StructuredRecipeGenerator)
    (ingredients_str instructions : string) : M RecipeCollection :=
  let p := render ingredients_str instructions in
  for_callbacks (llm_callbacks self)
    (fun cb => on_llm_start cb (serialized E) [prompt_string p]
                 (callback_kwargs E)) ;;
  emit (ModelCall p) ;;
  match endpoint E p with
  | Failure msg =>
      for_callbacks (llm_callbacks self)
        (fun cb => on_llm_error cb (EndpointError msg) (callback_kwargs E)) ;;
      raise (EndpointError msg)
  | Reply response =>
      for_callbacks (llm_callbacks self)
        (fun cb => on_llm_end cb response (callback_kwargs E)) ;;
      reply <- first_text response ;;
      parser_parse reply
  end.

Variable R : reporter.

(** A call of the telemetry client: the attempt is an event, and the call
    raises when the collector says so. *)
Definition client_call (c : telemetry) : M unit :=
  emit (Telemetry c) ;;
  match R c with
  | None => ret tt
  | Some msg => raise (TelemetryError msg)
  end.

(** The [try] block that logs the call and the response. *)
Definition log_llm_exchange (run_id prompt : string)
    (result : RecipeCollection) (metadata_extractor : option loc) : M unit :=
  try_except
    (client_call
       (log_llm_call_new run_id prompt 1 1 "langchain"
          "You are a professional chef and cooking assistant.") ;;
     md <- getattr_metadata metadata_extractor ;;
     input_tokens <- usage_entry md "input_tokens" ;;
     md <- getattr_metadata metadata_extractor ;;
     output_tokens <- usage_entry md "output_tokens" ;;
     md <- getattr_metadata metadata_extractor ;;
     total_tokens <- usage_entry md "total_tokens" ;;
     client_call
       (log_llm_response run_id result 1 1
          input_tokens output_tokens total_tokens))
    (fun e =>
       print (VStr ("Warning: Failed to log LLM call: " +:+ exn_str e))).

(** [StructuredRecipeGenerator.generate_structured_recipes] *)
Definition generate_structured_recipes (self : StructuredRecipeGenerator)
    (run_id : string) (ingredients : list string)
    (metadata_extractor : option loc) : M RecipeCollection :=
  let instructions := format_instructions (lib E) in
  let ingredients_str := join ", " ingredients in
  let full_prompt := full_prompt ingredients_str instructions in
  start_time <- time_time ;;
  result <- chain_invoke self ingredients_str instructions ;;
  end_time <- time_time ;;
  log_llm_exchange run_id full_prompt result metadata_extractor ;;
  ret result.

(** ** [main] *)

(** The listing of one recipe's ingredients and instructions.  The
    pictographs and the bullet that open the printed lines of the source are
    left out of the texts. *)
Fixpoint print_instructions (j : nat) (l : list string) : M unit :=
  match l with
  | [] => ret tt
  | instruction :: rest =>
      print (VStr ("   " +:+ pretty j +:+ ". " +:+ instruction)) ;;
      print_instructions (S j) rest
  end.

Fixpoint print_ingredients (l : list string) : M unit :=
  match l with
  | [] => ret tt
  | ingredient :: rest =>
      print (VStr ("   " +:+ ingredient)) ;;
      print_ingredients rest
  end.

Fixpoint print_recipes (i : nat) (l : list Recipe) : M unit :=
  match l with
  | [] => ret tt
  | recipe :: rest =>
      print (VStr (LF +:+ "Recipe " +:+ pretty i +:+ ": " +:+ name recipe)) ;;
      print (VStr ("Prep: " +:+ pretty (prep_time_minutes recipe) +:+
                   " min | Cook: " +:+ pretty (cook_time_minutes recipe) +:+
                   " min | Serves: " +:+ pretty (servings recipe))) ;;
      print (VStr (LF +:+ "Ingredients:")) ;;
      print_ingredients (ingredients recipe) ;;
      print (VStr (LF +:+ "Instructions:")) ;;
      print_instructions 1 (instructions recipe) ;;
      print (VStr (repeat_str "-" 40)) ;;
      print_recipes (S i) rest
  end.

(** [with open(output_file, 'w') as f: json.dump(..., f, indent=2)] *)
Definition dump_to_file (output_file : string) (payload : RecipeCollection)
    (indent : Z) : M unit :=
  match write_file E output_file with
  | None => emit (FileWrite output_file payload indent)
  | Some msg => raise (OSError msg)
  end.

(** The body of the outer [try] of [main]. *)
Definition main_try (run_id : string) : M unit :=
  try_except
    (client_call
       (log_session_start run_id
          "Generate structured recipes using LangChain with Ollama" 1 0))
    (fun e =>
       print (VStr ("Warning: Failed to log session start: " +:+
                    exn_str e))) ;;
  metadata_extractor <- MetadataExtractor_init ;;
  let generator :=
    StructuredRecipeGenerator_init None (Some metadata_extractor) in
  let ingredients :=
    Config.default_ingredients (Config.recipes Config.default_config) in
  print (VStr ("Generating structured recipes with: " +:+
               join ", " ingredients)) ;;
  print (VStr ("Using model: " +:+
               Config.model_name (Config.ollama Config.default_config))) ;;
  print (VStr ("Max recipes: " +:+
               pretty (Config.max_recipes
                         (Config.recipes Config.default_config)))) ;;
  print (VStr (LF +:+ "Generating recipes... (this may take a moment)")) ;;
  print (VStr (repeat_str "-" 60)) ;;
  start_time <- time_time ;;
  recipe_collection <-
    generate_structured_recipes generator run_id ingredients
      (Some metadata_extractor) ;;
  end_time <- time_time ;;
  elapsed_time <- lift (int_of_float ((end_time - start_time) * 1000)%float) ;;
  print (VStr (LF +:+ "Structured Recipe Collection:")) ;;
  print (VStr (repeat_str "=" 60)) ;;
  print_recipes 1 (recipes recipe_collection) ;;
  let output_file := "generated_recipes.json" in
  dump_to_file output_file recipe_collection 2 ;;
  print (VStr (LF +:+ "Recipes saved to: " +:+ output_file)) ;;
  try_except
    (md <- getattr_metadata (Some metadata_extractor) ;;
     client_call
       (log_session_end run_id
          ("Generated " +:+ pretty (length (recipes recipe_collection)) +:+
           " recipes successfully")
          1 0 elapsed_time (Some {[ "context" := VDict md ]})))
    (fun e =>
       print (VStr ("Warning: Failed to log session end: " +:+ exn_str e))).

(** The handler of the outer [try] of [main]. *)
Definition main_except (run_id : string) (e : exn) : M unit :=
  print (VStr ("Error: " +:+ exn_str e)) ;;
  print (VStr (LF +:+ "Troubleshooting:")) ;;
  print (VStr "   1. Ensure Ollama is installed and running") ;;
  print (VStr "   2. Check that the model is available: ollama list") ;;
  print (VStr "   3. Try pulling the model: ollama pull llama2") ;;
  try_except
    (client_call
       (log_session_end run_id ("Error: " +:+ exn_str e) 1 0 0 None))
    (fun log_error =>
       print (VStr ("Warning: Failed to log error: " +:+
                    exn_str log_error))).

Definition main : M unit :=
  print (VStr "Advanced LangChain Recipe Generator (Structured Output)") ;;
  print (VStr (repeat_str "=" 60)) ;;
  let run_id := "recipe-gen-" +:+ uuid_hex E in
  try_except (main_try run_id) (main_except run_id).

End Program.

(* ===================================================================== *)
(** * What the statements are about *)
(* ===================================================================== *)

(** ** Readings of a trace *)

Definition is_print (e : event) : bool :=
  match e with
  | Print _ => true
  | _ => false
  end.

(** The events of a run other than what it prints. *)
Definition key (t : list event) : list event :=
  List.filter (fun e => negb (is_print e)) t.

(** The telemetry calls attempted, in order. *)
Definition attempts (t : list event) : list telemetry :=
  omap (fun e => match e with Telemetry c => Some c | _ => None end) t.

(** The requests sent to the model, in order. *)
Definition model_calls (t : list event) : list RenderedPrompt :=
  omap (fun e => match e with ModelCall p => Some p | _ => None end) t.

(** The files written, in order. *)
Definition file_writes (t : list event)
    : list (string * RecipeCollection * Z) :=
  omap (fun e => match e with
                 | FileWrite n p i => Some (n, p, i)
                 | _ => None
                 end) t.

Definition is_session_end (c : telemetry) : bool :=
  match c with
  | log_session_end _ _ _ _ _ _ => true
  | _ => false
  end.

(** The four telemetry events and the model request, without payload. *)
Inductive kind : Type :=
  | SessionStart
  | ModelInvoked
  | PromptLogged
  | ResponseLogged
  | SessionEnd.

Definition kind_of (e : event) : option kind :=
  match e with
  | Telemetry (log_session_start _ _ _ _) => Some SessionStart
  | Telemetry (log_llm_call_new _ _ _ _ _ _) => Some PromptLogged
  | Telemetry (log_llm_response _ _ _ _ _ _ _) => Some ResponseLogged
  | Telemetry (log_session_end _ _ _ _ _ _) => Some SessionEnd
  | ModelCall _ => Some ModelInvoked
  | Print _ | FileWrite _ _ _ => None
  end.

Definition kinds (t : list event) : list kind := omap kind_of t.

(** A printed line that reports a swallowed exception. *)
Definition is_warning (e : event) : bool :=
  match e with
  | Print (VStr s) => String.prefix "Warning: " s
  | _ => false
  end.

Definition is_telemetry (e : event) : bool :=
  match e with
  | Telemetry _ => true
  | _ => false
  end.

(** A trace without its telemetry attempts and the warnings about them. *)
Definition core (t : list event) : list event :=
  List.filter (fun e => negb (is_telemetry e || is_warning e)) t.

(** What a run shows apart from telemetry: its result, the state it
    reaches, and the core of its trace. *)
Definition observe {A} (o : result A * state * list event)
    : result A * state * list event :=
  (value_of o, final o, core (emitted o)).

(** Two computations that show the same apart from telemetry, from every
    state. *)
Definition same_obs {A} (m1 m2 : M A) : Prop :=
  forall s, observe (m1 s) = observe (m2 s).

(** ** Usage counters *)

(** The [usage] dictionary [on_llm_end] stores. *)
Definition usage_dict (input output total : Z) : gmap string value :=
  <["input_tokens" := VInt input]>
    (<["output_tokens" := VInt output]>
       (<["total_tokens" := VInt total]> ∅)).

(** The two counters a generation record carries, if it carries them. *)
Definition counters (g : Generation) : option (Z * Z) :=
  match generation_info g with
  | Some d =>
      match d !! "prompt_eval_count", d !! "eval_count" with
      | Some (VInt p), Some (VInt e) => Some (p, e)
      | _, _ => None
      end
  | None => None
  end.

(** The totals in the words of the specification: over all generation
    records of the response, the sum of each record's own counters, a
    record without counters adding nothing. *)
Definition add_own (acc : Z * Z) (g : Generation) : Z * Z :=
  match counters g with
  | Some (p, e) => (fst acc + p, snd acc + e)
  | None => acc
  end.

Definition own_totals (response : LLMResult) : Z * Z :=
  foldl add_own (0, 0) (concat (generations response)).

(** A response with one candidate per prompt, each candidate without usage
    information or with both counters as integers. *)
Definition single_candidates (response : LLMResult) : Prop :=
  Forall (fun gen => exists g,
            gen = [g] /\
            (truthy (generation_info g) = true -> is_Some (counters g)))
         (generations response).

(** [usage] is absent or a dictionary: what [d.get('usage', {}).get(k)]
    needs in order not to raise. *)
Definition usage_wf (o : MetadataExtractor) : Prop :=
  match metadata o !! "usage" with
  | None | Some (VDict _) => True
  | Some _ => False
  end.

(** [md.get('usage', {}).get(k)], when [usage] is well formed. *)
Definition usage_of (md : gmap string value) (k : string) : value :=
  match md !! "usage" with
  | Some (VDict u) => default VNone (u !! k)
  | _ => VNone
  end.

(** The two calls of the logging block of [generate_structured_recipes]. *)
Definition prompt_logged (run_id prompt : string) : telemetry :=
  log_llm_call_new run_id prompt 1 1 "langchain"
    "You are a professional chef and cooking assistant.".

Definition response_logged (run_id : string) (rc : RecipeCollection)
    (md : gmap string value) : telemetry :=
  log_llm_response run_id rc 1 1 (usage_of md "input_tokens")
    (usage_of md "output_tokens") (usage_of md "total_tokens").

(** The calls of [main]. *)
Definition session_started (run_id : string) : telemetry :=
  log_session_start run_id
    "Generate structured recipes using LangChain with Ollama" 1 0.

Definition session_succeeded (run_id : string) (rc : RecipeCollection)
    (elapsed : Z) (md : gmap string value) : telemetry :=
  log_session_end run_id
    ("Generated " +:+ pretty (length (recipes rc)) +:+
     " recipes successfully")
    1 0 elapsed (Some {[ "context" := VDict md ]}).

Definition session_failed (run_id : string) (e : exn) : telemetry :=
  log_session_end run_id ("Error: " +:+ exn_str e) 1 0 0 None.

(** The line printed when the logging block fails on a [None] extractor. *)
Definition none_extractor_warning : event :=
  Print (VStr ("Warning: Failed to log LLM call: " +:+
               "'NoneType' object has no attribute 'metadata'")).

(** ** The chain, as a function of the environment *)

(** What the parser makes of a response: the text is that of the first
    candidate of the first prompt. *)
Definition reply_outcome (E : env) (response : LLMResult)
    : result RecipeCollection :=
  match generations response with
  | (g :: _) :: _ =>
      match parse (lib E) (text g) with
      | inl rc => Ok rc
      | inr err => Raise (OutputParserException (parser_message err))
      end
  | _ => Raise (IndexError "list index out of range")
  end.

(** The outcome of [chain.invoke]: the endpoint's failure, or what the
    parser makes of the response. *)
Definition chain_outcome (E : env) (ingredients_str : string)
    : result RecipeCollection :=
  match endpoint E (render ingredients_str (format_instructions (lib E))) with
  | Failure msg => Raise (EndpointError msg)
  | Reply response => reply_outcome E response
  end.

(** What [main] works with: its run id, the items of the configuration,
    the prompt and the outcome of the chain for them. *)
Definition run_id_of (E : env) : string := "recipe-gen-" +:+ uuid_hex E.

Definition main_items : string :=
  join ", " (Config.default_ingredients
               (Config.recipes Config.default_config)).

Definition main_prompt (E : env) : RenderedPrompt :=
  render main_items (format_instructions (lib E)).

Definition main_outcome (E : env) : result RecipeCollection :=
  chain_outcome E main_items.

Definition main_prompt_logged (E : env) : telemetry :=
  prompt_logged (run_id_of E)
    (full_prompt main_items (format_instructions (lib E))).

(** The telemetry of the logging block in a run of [main] whose chain
    succeeded with [rc], the extractor holding [md]. *)
Definition main_logged (E : env) (R : reporter) (rc : RecipeCollection)
    (md : gmap string value) : list event :=
  Telemetry (main_prompt_logged E) ::
  match R (main_prompt_logged E) with
  | None => [Telemetry (response_logged (run_id_of E) rc md)]
  | Some _ => []
  end.

(** ** Text *)

Definition substring_of (x s : string) : Prop :=
  exists a b, s = a +:+ x +:+ b.

(** The number of positions of [s] at which [x] starts. *)
Fixpoint occurrences (x s : string) : nat :=
  ((if String.prefix x s then 1 else 0) +
   match s with
   | EmptyString => 0
   | String _ s' => occurrences x s'
   end)%nat.

(** ** Invariants of computations *)

(** [keeps P Q m]: [m] relates the state it starts in to the state it ends
    in by [P], and emits events that satisfy [Q]. *)
Definition keeps (P : state -> state -> Prop) (Q : list event -> Prop)
    {A} (m : M A) : Prop :=
  forall s, P s (final (m s)) /\ Q (emitted (m s)).

Definition no_key (t : list event) : Prop := key t = [].

(** [quiet m]: [m] leaves the state as it is and only prints. *)
Abbreviation quiet := (keeps eq no_key).

(** What a callback may do to the heap: every object whose [usage] is well
    formed keeps it so. *)
Definition usage_kept (s s' : state) : Prop :=
  forall l, usage_wf (heap s !!! l) -> usage_wf (heap s' !!! l).

Abbreviation harmless := (keeps usage_kept no_key).

(** ** Concrete collaborators, for the examples *)

Module Sample.

Definition recipe (n : string) : value :=
  VDict (<["name" := VStr n]>
        (<["ingredients" := VList [VStr "rice"; VStr "chicken"]]>
        (<["instructions" := VList [VStr "boil"; VStr "serve"]]>
        (<["prep_time_minutes" := VInt 5]>
        (<["cook_time_minutes" := VInt 20]>
        (<["servings" := VInt 2]> ∅)))))).

Definition reply (rs : list value) : value :=
  VDict (<["recipes" := VList rs]> ∅).

(** A recipe object without its [servings]. *)
Definition recipe_without_servings : value :=
  VDict (<["name" := VStr "pilaf"]>
        (<["ingredients" := VList [VStr "rice"]]>
        (<["instructions" := VList [VStr "boil"]]>
        (<["prep_time_minutes" := VInt 5]>
        (<["cook_time_minutes" := VInt 20]> ∅))))).

Definition strict_int (v : value) : option Z :=
  match v with
  | VInt z => Some z
  | _ => None
  end.

(** A JSON reader that knows three replies by name. *)
Definition reader (reply_text : string) : option value :=
  if String.eqb reply_text "three recipes" then
    Some (reply [recipe "pilaf"; recipe "risotto"; recipe "paella"])
  else if String.eqb reply_text "one recipe" then
    Some (reply [recipe "pilaf"])
  else if String.eqb reply_text "no servings" then
    Some (reply [recipe "pilaf"; recipe_without_servings])
  else None.

Definition the_lib : parser_lib := {|
  parse_json := reader;
  lax_int := strict_int;
  format_instructions := "Return a JSON object with the key recipes."
|}.

Definition candidate (reply_text : string) (p e : Z) : Generation := {|
  text := reply_text;
  generation_info :=
    Some (<["prompt_eval_count" := VInt p]> (<["eval_count" := VInt e]> ∅))
|}.

Definition bare_candidate (reply_text : string) : Generation :=
  {| text := reply_text; generation_info := None |}.

(** A model that answers every prompt with the given response. *)
Definition answering (uuid : string) (response : LLMResult) : env := {|
  lib := the_lib;
  clock := fun n => match n with
                    | O => 10.5%float
                    | S O => 10.75%float
                    | _ => 12.75%float
                    end;
  uuid_hex := uuid;
  endpoint := fun _ => Reply response;
  serialized := VNone;
  callback_kwargs := ∅;
  write_file := fun _ => None
|}.

(** A model endpoint that cannot be reached. *)
Definition unreachable : env := {|
  lib := the_lib;
  clock := fun _ => 10.5%float;
  uuid_hex := "0a1b2c3d";
  endpoint := fun _ => Failure "connection refused";
  serialized := VNone;
  callback_kwargs := ∅;
  write_file := fun _ => None
|}.

Definition three_recipes : env :=
  answering "0a1b2c3d"
    {| generations := [[candidate "three recipes" 120 340]] |}.

Definition one_recipe : env :=
  answering "0a1b2c3d" {| generations := [[candidate "one recipe" 120 340]] |}.

Definition malformed : env :=
  answering "0a1b2c3d" {| generations := [[candidate "not json" 120 340]] |}.

(** One prompt, two candidates, each with its own counters. *)
Definition two_candidates : LLMResult :=
  {| generations := [[candidate "three recipes" 1 2;
                      candidate "three recipes" 10 20]] |}.

(** One prompt, two candidates, the first without counters. *)
Definition first_without_counters : LLMResult :=
  {| generations := [[bare_candidate "three recipes";
                      candidate "three recipes" 10 20]] |}.

Definition start : state := {| heap := ∅; next_loc := 0; ticks := 0 |}.

Definition collector_up : reporter := fun _ => None.

Definition collector_down : reporter := fun _ => Some "connection refused".

End Sample.

(* ===================================================================== *)
(** * Further readings of the program *)
(* ===================================================================== *)

(** The number of candidates of a prompt that carry usage information: the
    records for which the guard of the inner loop of [on_llm_end] holds. *)
Definition informed (gen : list Generation) : Z :=
  Z.of_nat (length (List.filter (fun g => truthy (generation_info g)) gen)).

(** What the loops of [on_llm_end] add for one prompt: the counters of the
    first candidate, once for every candidate that carries information. *)
Definition first_candidate_share (gen : list Generation) : Z * Z :=
  match gen with
  | [] => (0, 0)
  | g0 :: _ =>
      match counters g0 with
      | Some (p, e) => (informed gen * p, informed gen * e)
      | None => (0, 0)
      end
  end.

(** A prompt whose candidates the loops get through: none of them carries
    information, or the first one carries both counters as integers. *)
Definition countable (gen : list Generation) : Prop :=
  informed gen = 0 \/
  exists g0 rest, gen = g0 :: rest /\ is_Some (counters g0).

(** The session a telemetry call belongs to. *)
Definition session_of (c : telemetry) : string :=
  match c with
  | log_session_start id _ _ _ => id
  | log_llm_call_new id _ _ _ _ _ => id
  | log_llm_response id _ _ _ _ _ _ => id
  | log_session_end id _ _ _ _ _ => id
  end.

(** [recipe.model_dump()] and [recipe_collection.model_dump()]: the
    dictionaries of the fields. *)
Definition Recipe_model_dump (r : Recipe) : value :=
  VDict (<["name" := VStr (name r)]>
        (<["ingredients" := VList (VStr <$> ingredients r)]>
        (<["instructions" := VList (VStr <$> instructions r)]>
        (<["prep_time_minutes" := VInt (prep_time_minutes r)]>
        (<["cook_time_minutes" := VInt (cook_time_minutes r)]>
        (<["servings" := VInt (servings r)]> ∅)))))).

Definition model_dump (rc : RecipeCollection) : value :=
  VDict (<["recipes" := VList (Recipe_model_dump <$> recipes rc)]> ∅).

(** A clock whose readings are finite, so that the elapsed milliseconds of
    [main] can be converted to an integer. *)
Definition finite_clock (E : env) : Prop :=
  forall n m, exists z,
    int_of_float ((clock E n - clock E m) * 1000)%float = Ok z.

(** The totals after one more prompt. *)
Definition add_share (acc : Z * Z) (gen : list Generation) : Z * Z :=
  (fst acc + fst (first_candidate_share gen),
   snd acc + snd (first_candidate_share gen)).


(** The state after one reading of the clock. *)
Definition tick (s : state) : state :=
  {| heap := heap s; next_loc := next_loc s; ticks := S (ticks s) |}.

(** [only_touches ls s s']: from [s] to [s'] no object is created, the
    clock does not go back, and every object outside [ls] is as it was. *)
Definition only_touches (ls : list loc) (s s' : state) : Prop :=
  next_loc s' = next_loc s /\ (ticks s <= ticks s')%nat /\
  forall l, l ∉ ls -> heap s' !! l = heap s !! l.

Abbreviation framed ls := (keeps (only_touches ls) (fun _ => True)).

(** The call of [generate_structured_recipes] that [main] makes from the
    state [s]: the extractor is the object created at the next free
    location, and one clock reading has been taken. *)
Definition main_generate (E : env) (R : reporter) (s : state)
    : result RecipeCollection * state * list event :=
  generate_structured_recipes E R
    (StructuredRecipeGenerator_init None (Some (next_loc s))) (run_id_of E)
    (Config.default_ingredients (Config.recipes Config.default_config))
    (Some (next_loc s)) (tick (final (MetadataExtractor_init s))).

(** An environment whose files cannot be written. *)
Definition read_only (E : env) (msg : string) : env :=
  {| lib := lib E; clock := clock E; uuid_hex := uuid_hex E;
     endpoint := endpoint E; serialized := serialized E;
     callback_kwargs := callback_kwargs E;
     write_file := fun _ => Some msg |}.

(** A JSON value from which the validator reads the record [r]: an object
    that holds the three text fields of [r] as they are and, under the three
    integer fields, values that coerce to the integers of [r]. *)
Definition read_as (L : parser_lib) (v : value) (r : Recipe) : Prop :=
  exists (o : gmap string value) vp vc vs,
    v = VDict o /\
    o !! "name" = Some (VStr (name r)) /\
    o !! "ingredients" = Some (VList (VStr <$> ingredients r)) /\
    o !! "instructions" = Some (VList (VStr <$> instructions r)) /\
    o !! "prep_time_minutes" = Some vp /\
    lax_int L vp = Some (prep_time_minutes r) /\
    o !! "cook_time_minutes" = Some vc /\
    lax_int L vc = Some (cook_time_minutes r) /\
    o !! "servings" = Some vs /\
    lax_int L vs = Some (servings r).
(* ===================================================================== *)
(** * Reasoning about computations *)
(* ===================================================================== *)

Lemma run_eta {A} (o : result A * state * list event) :
  o = (value_of o, final o, emitted o).
Proof. by destruct o as [[r s] t]. Qed.

Lemma bind_ok {A B} (m : M A) (k : A -> M B) s a s1 t1 :
  m s = (Ok a, s1, t1) ->
  bind m k s = (value_of (k a s1), final (k a s1), t1 ++ emitted (k a s1)).
Proof.
  intros H. unfold bind. rewrite H. by destruct (k a s1) as [[r s2] t2].
Qed.

Lemma bind_raise {A B} (m : M A) (k : A -> M B) s e s1 t1 :
  m s = (Raise e, s1, t1) -> bind m k s = (Raise e, s1, t1).
Proof. intros H. unfold bind. by rewrite H. Qed.

Lemma bind_Ok_inv {A B} (m : M A) (k : A -> M B) s b s' t :
  bind m k s = (Ok b, s', t) ->
  exists a s1 t1 t2,
    m s = (Ok a, s1, t1) /\ k a s1 = (Ok b, s', t2) /\ t = t1 ++ t2.
Proof.
  unfold bind. destruct (m s) as [[[a|e] s1] t1]; [|discriminate].
  destruct (k a s1) as [[r s2] t2] eqn:Hk. intros [= -> -> <-].
  by exists a, s1, t1, t2.
Qed.

Lemma bind_step {A B} (m : M A) (k : A -> M B) s a s1 t1 r s' t :
  m s = (Ok a, s1, t1) -> bind m k s = (r, s', t) ->
  exists t2, k a s1 = (r, s', t2) /\ t = t1 ++ t2.
Proof.
  intros Hm. unfold bind. rewrite Hm.
  destruct (k a s1) as [[r2 s2] t2]. intros [= -> -> <-]. by exists t2.
Qed.

Lemma bind_stop {A B} (m : M A) (k : A -> M B) s e s1 t1 r s' t :
  m s = (Raise e, s1, t1) -> bind m k s = (r, s', t) ->
  r = Raise e /\ s' = s1 /\ t = t1.
Proof. intros Hm. unfold bind. rewrite Hm. by intros [= <- <- <-]. Qed.

Lemma try_ok {A} (m : M A) (h : exn -> M A) s a s1 t1 :
  m s = (Ok a, s1, t1) -> try_except m h s = (Ok a, s1, t1).
Proof. intros H. unfold try_except. by rewrite H. Qed.

Lemma try_raise {A} (m : M A) (h : exn -> M A) s e s1 t1 :
  m s = (Raise e, s1, t1) ->
  try_except m h s =
    (value_of (h e s1), final (h e s1), t1 ++ emitted (h e s1)).
Proof.
  intros H. unfold try_except. rewrite H. by destruct (h e s1) as [[r s2] t2].
Qed.

Lemma key_app t1 t2 : key (t1 ++ t2) = key t1 ++ key t2.
Proof. apply List.filter_app. Qed.

Lemma core_app t1 t2 : core (t1 ++ t2) = core t1 ++ core t2.
Proof. apply List.filter_app. Qed.

(** The state after a step, simplified. *)
Ltac heap_simpl :=
  cbn [heap next_loc ticks metadata model set_metadata value_of final emitted
       fst snd];
  rewrite ?lookup_total_insert_eq, ?insert_insert_eq;
  cbn [heap next_loc ticks metadata model set_metadata].

Ltac heap_simpl_in H :=
  cbn [heap next_loc ticks metadata model set_metadata value_of final emitted
       fst snd] in H;
  rewrite ?lookup_total_insert_eq, ?insert_insert_eq in H;
  cbn [heap next_loc ticks metadata model set_metadata] in H.

(** A step whose outcome is known by computation. *)
Ltac run_step := erewrite bind_ok by reflexivity.

(** The steps of a computation that is known to have completed. *)
Ltac bind_inv H :=
  let a := fresh "a" in
  let s1 := fresh "s" in
  let t1 := fresh "t" in
  let t2 := fresh "t" in
  let Hm := fresh "Hm" in
  apply bind_Ok_inv in H as (a & s1 & t1 & t2 & Hm & H & ->).

(** One step of a run whose first computation is known, by computation or
    by a lemma. *)
Ltac step_in H :=
  let t2 := fresh "t" in
  eapply bind_step in H; [|reflexivity]; destruct H as (t2 & H & ->).

Ltac step_by H L :=
  let t2 := fresh "t" in
  apply (bind_step _ _ _ _ _ _ _ _ _ L) in H; destruct H as (t2 & H & ->).

Ltac leaf H :=
  unfold setitem, getitem, time_time, getattr_model, print, emit, ret in H;
  repeat heap_simpl_in H.

(** A computation keeps what its parts keep. *)
Section Invariant.
Variable P : state -> state -> Prop.
Variable Q : list event -> Prop.
Hypothesis P_refl : forall s, P s s.
Hypothesis P_trans : forall s1 s2 s3, P s1 s2 -> P s2 s3 -> P s1 s3.
Hypothesis Q_nil : Q [].
Hypothesis Q_app : forall t1 t2, Q t1 -> Q t2 -> Q (t1 ++ t2).

Lemma keeps_ret {A} (a : A) : keeps P Q (ret a).
Proof. intros s. split; [apply P_refl | apply Q_nil]. Qed.

Lemma keeps_raise {A} (e : exn) : keeps P Q (@raise A e).
Proof. intros s. split; [apply P_refl | apply Q_nil]. Qed.

Lemma keeps_lift {A} (r : result A) : keeps P Q (lift r).
Proof. intros s. split; [apply P_refl | apply Q_nil]. Qed.

Lemma keeps_bind {A B} (m : M A) (k : A -> M B) :
  keeps P Q m -> (forall a, keeps P Q (k a)) -> keeps P Q (bind m k).
Proof.
  intros Hm Hk s. destruct (Hm s) as [HP HQ].
  destruct (m s) as [[[a|e] s1] t1] eqn:Hms.
  - rewrite (bind_ok _ _ _ _ _ _ Hms). destruct (Hk a s1) as [HP' HQ'].
    split; [eapply P_trans; eauto | apply Q_app; auto].
  - by rewrite (bind_raise _ _ _ _ _ _ Hms).
Qed.

Lemma keeps_try_except {A} (m : M A) (h : exn -> M A) :
  keeps P Q m -> (forall e, keeps P Q (h e)) -> keeps P Q (try_except m h).
Proof.
  intros Hm Hh s. destruct (Hm s) as [HP HQ].
  destruct (m s) as [[[a|e] s1] t1] eqn:Hms.
  - by rewrite (try_ok _ _ _ _ _ _ Hms).
  - rewrite (try_raise _ _ _ _ _ _ Hms). destruct (Hh e s1) as [HP' HQ'].
    split; [eapply P_trans; eauto | apply Q_app; auto].
Qed.

End Invariant.

Lemma keeps_weaken (P P' : state -> state -> Prop) Q {A} (m : M A) :
  (forall s s', P s s' -> P' s s') -> keeps P Q m -> keeps P' Q m.
Proof. intros HPP' Hm s. destruct (Hm s). auto. Qed.

Lemma no_key_app t1 t2 : no_key t1 -> no_key t2 -> no_key (t1 ++ t2).
Proof. unfold no_key. intros H1 H2. by rewrite key_app, H1, H2. Qed.

Lemma eq_state_trans (s1 s2 s3 : state) : s1 = s2 -> s2 = s3 -> s1 = s3.
Proof. congruence. Qed.

Lemma usage_kept_trans s1 s2 s3 :
  usage_kept s1 s2 -> usage_kept s2 s3 -> usage_kept s1 s3.
Proof. unfold usage_kept. auto. Qed.

Lemma quiet_harmless {A} (m : M A) : quiet m -> harmless m.
Proof. apply keeps_weaken. by intros s s' <- l. Qed.

(** ** Computations that only print *)

Lemma quiet_ret {A} (a : A) : quiet (ret a).
Proof. by apply keeps_ret. Qed.

Lemma quiet_raise {A} (e : exn) : quiet (@raise A e).
Proof. by apply keeps_raise. Qed.

Lemma quiet_bind {A B} (m : M A) (k : A -> M B) :
  quiet m -> (forall a, quiet (k a)) -> quiet (bind m k).
Proof. apply keeps_bind; [apply eq_state_trans | apply no_key_app]. Qed.

Lemma quiet_print v : quiet (print v).
Proof. by intros s. Qed.

Lemma quiet_subscript d k : quiet (subscript d k).
Proof.
  unfold subscript. destruct d as [d|]; [|apply quiet_raise].
  destruct (d !! k); [apply quiet_ret | apply quiet_raise].
Qed.

Lemma quiet_add_count total v : quiet (add_count total v).
Proof. destruct v; first [apply quiet_ret | apply quiet_raise]. Qed.

Lemma quiet_item0 {A} (l : list A) : quiet (item0 l).
Proof. destruct l; [apply quiet_raise | apply quiet_ret]. Qed.

Create HintDb quiet.
#[local] Hint Resolve quiet_ret quiet_raise quiet_print quiet_subscript
  quiet_add_count quiet_item0 : quiet.
#[local] Hint Extern 2 (keeps eq no_key (bind _ _)) =>
  apply quiet_bind; [|intros ?] : quiet.

Lemma quiet_for_gen_inner gen rest totals :
  quiet (for_gen_inner gen rest totals).
Proof.
  revert totals. induction rest as [|g rest IH]; intros totals; cbn.
  - auto with quiet.
  - apply quiet_bind; [|auto].
    destruct (truthy (generation_info g)); auto 20 with quiet.
Qed.

Lemma quiet_for_gen gens totals : quiet (for_gen gens totals).
Proof.
  revert totals. induction gens as [|gen gens IH]; intros totals; cbn.
  - auto with quiet.
  - apply quiet_bind; [apply quiet_for_gen_inner | auto].
Qed.

(* ===================================================================== *)
(** * The lifecycle instrumentor *)
(* ===================================================================== *)

(** [on_llm_start] always completes; it records the clock reading under
    [start_time]. *)
Lemma on_llm_start_run E self ser prompts kwargs s :
  exists t,
    on_llm_start E self ser prompts kwargs s =
      (Ok tt,
       {| heap :=
            <[self := set_metadata (heap s !!! self)
                        (<["input_prompts" := VList (VStr <$> prompts)]>
                           (<["model_info" := ser]>
                              (<["start_time" := VFloat (clock E (ticks s))]>
                                 (metadata (heap s !!! self)))))]> (heap s);
          next_loc := next_loc s; ticks := S (ticks s) |}, t)
    /\ no_key t.
Proof.
  eexists. split; [|shelve].
  unfold on_llm_start. repeat run_step.
  unfold setitem. repeat heap_simpl. reflexivity.
  Unshelve. done.
Qed.

Lemma on_llm_start_start_time E self ser prompts kwargs s :
  metadata (heap (final (on_llm_start E self ser prompts kwargs s)) !!! self)
    !! "start_time" = Some (VFloat (clock E (ticks s))).
Proof.
  destruct (on_llm_start_run E self ser prompts kwargs s) as (t & -> & _).
  heap_simpl. rewrite !lookup_insert_ne by done. apply lookup_insert_eq.
Qed.

(** What a completed [on_llm_end] has done to its object. *)
Lemma on_llm_end_completed E self response kwargs s s' t :
  on_llm_end E self response kwargs s = (Ok tt, s', t) ->
  exists input output start,
    metadata (heap s !!! self) !! "start_time" = Some (VFloat start) /\
    next_loc s' = next_loc s /\
    ticks s' = S (ticks s) /\
    heap s' =
      <[self := set_metadata (heap s !!! self)
         (<["usage" := VDict (usage_dict input output (input + output))]>
           (<["duration" := VFloat (clock E (ticks s) - start)]>
             (<["end_time" := VFloat (clock E (ticks s))]>
               (<["model" := VStr (model (heap s !!! self))]>
                 (metadata (heap s !!! self))))))]> (heap s).
Proof.
  unfold on_llm_end. intros H.
  bind_inv H. injection Hm as <- <- <-.
  bind_inv H. destruct a as [ti to].
  pose proof (quiet_for_gen (generations response) (0, 0) s) as [Hs _].
  rewrite Hm in Hs. cbn in Hs. subst s0. clear Hm.
  bind_inv H. leaf Hm. injection Hm as <- <- <-.
  bind_inv H. leaf Hm. injection Hm as <- <- <-.
  bind_inv H. leaf Hm. injection Hm as <- <- <-.
  bind_inv H. leaf Hm. injection Hm as <- <- <-.
  bind_inv H. leaf Hm. rewrite lookup_insert_eq in Hm. injection Hm as <- <- <-.
  bind_inv H. leaf Hm. rewrite !lookup_insert_ne in Hm by done.
  destruct (metadata (heap s !!! self) !! "start_time") as [st|] eqn:Hst;
    [|discriminate].
  injection Hm as <- <- <-.
  bind_inv H. destruct st; try discriminate. injection Hm as <- <- <-.
  bind_inv H. leaf Hm. injection Hm as <- <- <-.
  leaf H. injection H as <- <-.
  exists ti, to, f. done.
Qed.

(** C6.  After a completed [on_llm_end], the stored usage has
    [total_tokens = input_tokens + output_tokens], and the stored duration
    is the end reading minus the start reading, the start reading being the
    one [on_llm_start] recorded (the entry [start_time] is still the one
    [on_llm_start] wrote when [on_llm_end] begins). *)
Theorem on_llm_end_usage_and_duration E self ser prompts kwargs0 s0
    response kwargs s1 s2 t :
  metadata (heap s1 !!! self) !! "start_time" =
    metadata (heap (final (on_llm_start E self ser prompts kwargs0 s0))
                !!! self) !! "start_time" ->
  on_llm_end E self response kwargs s1 = (Ok tt, s2, t) ->
  exists (u : gmap string value) input output,
    let md := metadata (heap s2 !!! self) in
    md !! "usage" = Some (VDict u) /\
    u !! "input_tokens" = Some (VInt input) /\
    u !! "output_tokens" = Some (VInt output) /\
    u !! "total_tokens" = Some (VInt (input + output)) /\
    md !! "start_time" = Some (VFloat (clock E (ticks s0))) /\
    md !! "end_time" = Some (VFloat (clock E (ticks s1))) /\
    md !! "duration" =
      Some (VFloat (clock E (ticks s1) - clock E (ticks s0))).
Proof.
  rewrite on_llm_start_start_time. intros Hstart Hend.
  apply on_llm_end_completed in Hend
    as (input & output & start & Hst & _ & _ & Hheap).
  rewrite Hstart in Hst. injection Hst as <-.
  exists (usage_dict input output (input + output)), input, output.
  rewrite Hheap. heap_simpl. unfold usage_dict.
  repeat split;
    repeat first [ rewrite lookup_insert_eq | rewrite lookup_insert_ne by done ];
    done.
Qed.

(** C6 at a concrete run: one candidate with usage 120 and 340. *)
Lemma on_llm_end_usage_and_duration_witness :
  let E := Sample.three_recipes in
  let s1 := final (on_llm_start E 0%nat VNone [] ∅ Sample.start) in
  let response := {| generations := [[Sample.candidate "three recipes" 120 340]] |} in
  exists (u : gmap string value) input output,
    let md := metadata (heap (final (on_llm_end E 0%nat response ∅ s1)) !!! 0%nat) in
    md !! "usage" = Some (VDict u) /\
    u !! "input_tokens" = Some (VInt input) /\
    u !! "output_tokens" = Some (VInt output) /\
    u !! "total_tokens" = Some (VInt (input + output)) /\
    md !! "start_time" = Some (VFloat (clock E (ticks Sample.start))) /\
    md !! "end_time" = Some (VFloat (clock E (ticks s1))) /\
    md !! "duration" =
      Some (VFloat (clock E (ticks s1) - clock E (ticks Sample.start))).
Proof.
  intros E s1 response.
  apply (on_llm_end_usage_and_duration E 0%nat VNone [] ∅ Sample.start
           response ∅ s1 _ (emitted (on_llm_end E 0%nat response ∅ s1))).
  - reflexivity.
  - vm_compute. reflexivity.
Defined.

(** C1, at the input that separates the code from the claim.  The inner
    loop tests [gen_inner.generation_info] and then reads
    [gen[0].generation_info]: with two candidates carrying (1, 2) and
    (10, 20) the stored totals are (2, 4), twice the first candidate's
    counters, where the sum of each record's own counters is (11, 22); and
    when the first candidate has no counters and the second has, the
    subscript of [None] raises instead of the record being skipped. *)
Theorem on_llm_end_counts_first_candidate_again :
  forall s,
    value_of (for_gen (generations Sample.two_candidates) (0, 0) s)
      = Ok (2, 4) /\
    own_totals Sample.two_candidates = (11, 22) /\
    value_of (for_gen (generations Sample.first_without_counters) (0, 0) s)
      = Raise (TypeError "'NoneType' object is not subscriptable") /\
    own_totals Sample.first_without_counters = (10, 20).
Proof. intros s. repeat split; vm_compute; reflexivity. Qed.

(** Where the code and the claim of C1 agree: with a single candidate per
    prompt, [gen[0]] is the candidate at hand, and the loop computes the sum
    of the records' own counters. *)
Lemma for_gen_inner_single g totals s :
  (truthy (generation_info g) = true -> is_Some (counters g)) ->
  exists t, for_gen_inner [g] [g] totals s = (Ok (add_own totals g), s, t).
Proof.
  intros Hg. cbn [for_gen_inner]. unfold add_own, counters in *.
  destruct (generation_info g) as [d|] eqn:Hinfo; cbn [truthy] in *.
  - destruct (size d =? 0)%nat eqn:Hsize; cbn [negb] in *.
    + apply Nat.eqb_eq, map_size_empty_iff in Hsize. subst d.
      rewrite !lookup_empty. eexists; reflexivity.
    + destruct (Hg eq_refl) as [[p e] Hpe].
      destruct (d !! "prompt_eval_count") as [[]|] eqn:Hp;
        try discriminate.
      destruct (d !! "eval_count") as [[]|] eqn:He; try discriminate.
      injection Hpe as <- <-. eexists.
      unfold bind, item0, ret, subscript.
      repeat (cbn; rewrite ?Hinfo, ?Hp, ?He). reflexivity.
  - eexists; reflexivity.
Qed.

Lemma for_gen_single_candidates gens totals s :
  Forall (fun gen => exists g,
            gen = [g] /\
            (truthy (generation_info g) = true -> is_Some (counters g)))
         gens ->
  value_of (for_gen gens totals s) = Ok (foldl add_own totals (concat gens)).
Proof.
  intros Hall. revert totals.
  induction Hall as [|gen gens (g & -> & Hg) _ IH]; intros totals; [done|].
  cbn [for_gen concat foldl app].
  destruct (for_gen_inner_single g totals s Hg) as [t Hrun].
  rewrite (bind_ok _ _ _ _ _ _ Hrun). apply IH.
Qed.

Lemma on_llm_end_sums_single_candidates response s :
  single_candidates response ->
  value_of (for_gen (generations response) (0, 0) s)
    = Ok (own_totals response).
Proof. apply for_gen_single_candidates. Qed.

(* ===================================================================== *)
(** * The schema validator *)
(* ===================================================================== *)

Section ValidatorFacts.
Variable L : parser_lib.

Lemma validate_all_strs loc (l : list string) :
  validate_all (validate_str loc) (VStr <$> l) = Valid l.
Proof. induction l as [|x l IH]; [done|]. cbn. by rewrite IH. Qed.

Lemma validate_all_Valid {A} (f : value -> checked A) (l : list value) :
  Forall (fun v => exists a, f v = Valid a) l ->
  exists rs, validate_all f l = Valid rs /\ length rs = length l.
Proof.
  induction 1 as [|v l [a Ha] _ (rs & IH & Hlen)].
  - by exists [].
  - exists (a :: rs). cbn. rewrite Ha, IH. cbn. by rewrite Hlen.
Qed.

Lemma validate_all_Invalid {A} (f : value -> checked A) (l : list value) :
  Exists (fun v => exists why, f v = Invalid why) l ->
  exists why, validate_all f l = Invalid why.
Proof.
  induction 1 as [v l [why Hv]|v l _ [why IH]]; cbn.
  - rewrite Hv. by exists why.
  - destruct (f v) as [a|why']; cbn; [|by eexists].
    rewrite IH. by exists why.
Qed.

Lemma validate_Recipe_conforms v :
  (forall z, lax_int L (VInt z) = Some z) ->
  conforms_Recipe v -> exists r, validate_Recipe L v = Valid r.
Proof.
  intros Hint (d & n & ing & ins & p & c & s & -> & Hn & Hing & Hins
               & Hp & Hc & Hs).
  unfold validate_Recipe, required, validate_int.
  rewrite Hn, Hing, Hins, Hp, Hc, Hs. cbn.
  rewrite !validate_all_strs, !Hint. cbn. by eexists.
Qed.

Lemma validate_Recipe_missing (o : gmap string value) k :
  k ∈ Recipe_fields -> o !! k = None ->
  exists why, validate_Recipe L (VDict o) = Invalid why.
Proof.
  intros Hk Hnone. unfold validate_Recipe.
  repeat match goal with
         | |- context [required o ?f ?g] =>
             destruct (required o f g) eqn:?; cbn [and_then];
             [|by eexists]
         end.
  exfalso. unfold required in *.
  unfold Recipe_fields in Hk.
  repeat (apply elem_of_cons in Hk as [->|Hk]; [by rewrite Hnone in *|]).
  by apply elem_of_nil in Hk.
Qed.

End ValidatorFacts.

(** C3.  A reply that fully conforms to the schema (an object whose
    [recipes] holds the declared number of conforming records, three) is
    accepted, and the result has the records of the reply, three of them; a
    reply object that lacks a required field is a [SchemaViolation]; a reply
    the JSON reader rejects is a [MalformedOutput]. *)
Theorem parse_conforming_reply (L : parser_lib) (reply_text : string) :
  (forall v rs,
      (forall z, lax_int L (VInt z) = Some z) ->
      parse_json L reply_text = Some v ->
      conforms_RecipeCollection v rs ->
      exists rc, parse L reply_text = inl rc /\
                 length (recipes rc) = length rs /\
                 length (recipes rc) = 3%nat) /\
  (forall v,
      parse_json L reply_text = Some v ->
      misses_required v ->
      exists why, parse L reply_text = inr (SchemaViolation why)) /\
  (parse_json L reply_text = None ->
   parse L reply_text = inr MalformedOutput).
Proof.
  unfold parse. repeat split.
  - intros v rs Hint -> (d & -> & Hrs & Harity & Hall).
    unfold validate_RecipeCollection, required. rewrite Hrs. cbn.
    destruct (validate_all_Valid (validate_Recipe L) rs) as (l & -> & Hlen).
    + eapply Forall_impl; [exact Hall|].
      intros r Hr. by apply validate_Recipe_conforms.
    + cbn. exists {| recipes := l |}. split; [done|]. split; [done|].
      cbn [recipes]. by rewrite Hlen, Harity.
  - intros v -> (d & -> & [Hnone|(rs & Hrs & Hex)]);
      unfold validate_RecipeCollection, required.
    + rewrite Hnone. cbn. by eexists.
    + rewrite Hrs. cbn.
      destruct (validate_all_Invalid (validate_Recipe L) rs) as [why ->].
      * eapply Exists_impl; [exact Hex|].
        intros r (o & k & -> & Hk & Hnone).
        by eapply validate_Recipe_missing.
      * cbn. by eexists.
  - by intros ->.
Qed.

Lemma sample_recipe_conforms n : conforms_Recipe (Sample.recipe n).
Proof.
  eexists _, n, ["rice"; "chicken"], ["boil"; "serve"], 5, 20, 2.
  repeat split.
Qed.

(** C3 on three replies: three conforming records, a record without
    [servings], and a text that is not JSON. *)
Lemma parse_conforming_reply_witness :
  (exists rc, parse Sample.the_lib "three recipes" = inl rc /\
              length (recipes rc) = 3%nat) /\
  (exists why,
      parse Sample.the_lib "no servings" = inr (SchemaViolation why)) /\
  parse Sample.the_lib "not json" = inr MalformedOutput.
Proof.
  split; [|split].
  - destruct (parse_conforming_reply Sample.the_lib "three recipes")
      as (Hok & _ & _).
    destruct (Hok (Sample.reply [Sample.recipe "pilaf";
                                 Sample.recipe "risotto";
                                 Sample.recipe "paella"])
                  [Sample.recipe "pilaf"; Sample.recipe "risotto";
                   Sample.recipe "paella"]) as (rc & Hparse & _ & Hlen).
    + reflexivity.
    + reflexivity.
    + eexists. split; [reflexivity|]. split; [reflexivity|].
      split; [reflexivity|].
      repeat (apply List.Forall_cons; [apply sample_recipe_conforms|]).
      apply List.Forall_nil.
    + exists rc. split; [exact Hparse | exact Hlen].
  - destruct (parse_conforming_reply Sample.the_lib "no servings")
      as (_ & Hmiss & _).
    apply (Hmiss (Sample.reply [Sample.recipe "pilaf";
                                Sample.recipe_without_servings]) eq_refl).
    eexists. split; [reflexivity|]. right. eexists. split; [reflexivity|].
    apply List.Exists_cons_tl, List.Exists_cons_hd.
    eexists _, "servings". split; [reflexivity|]. split; [|reflexivity].
    unfold Recipe_fields. do 5 apply list_elem_of_further.
    apply list_elem_of_here.
  - destruct (parse_conforming_reply Sample.the_lib "not json")
      as (_ & _ & Hbad).
    apply Hbad. reflexivity.
Defined.

(* ===================================================================== *)
(** * The prompt composer *)
(* ===================================================================== *)

Lemma append_assoc (a b c : string) : (a +:+ b) +:+ c = a +:+ b +:+ c.
Proof.
  induction a as [|x a IH]; [done|].
  change (String x ((a +:+ b) +:+ c) = String x (a +:+ b +:+ c)).
  by rewrite IH.
Qed.

Lemma prefix_append (x s : string) : String.prefix x (x +:+ s) = true.
Proof.
  induction x as [|c x IH]; [by destruct s|].
  change (String c x +:+ s) with (String c (x +:+ s)). cbn [String.prefix].
  destruct (ascii_dec c c); [exact IH | done].
Qed.

Lemma substring_of_refl_append (a x b : string) :
  substring_of x (a +:+ x +:+ b).
Proof. by exists a, b. Qed.

Lemma substring_of_append_l (a x s : string) :
  substring_of x s -> substring_of x (a +:+ s).
Proof.
  intros (p & q & ->). exists (a +:+ p), q. by rewrite append_assoc.
Qed.

Lemma substring_of_append_r (x s b : string) :
  substring_of x s -> substring_of x (s +:+ b).
Proof.
  intros (p & q & ->). exists p, (q +:+ b). by rewrite !append_assoc.
Qed.

Lemma append_empty_r (s : string) : s +:+ EmptyString = s.
Proof.
  induction s as [|c s IH]; [done|].
  change (String c (s +:+ EmptyString) = String c s). by rewrite IH.
Qed.

Lemma substring_of_self (x : string) : substring_of x x.
Proof. exists EmptyString, EmptyString. cbn. by rewrite append_empty_r. Qed.

(** Every item is part of the joined list. *)
Lemma join_contains sep (items : list string) item :
  item ∈ items -> substring_of item (join sep items).
Proof.
  induction items as [|x items IH]; [by intros ?%elem_of_nil|].
  intros [->|Hin]%elem_of_cons.
  - destruct items as [|y items]; cbn [join].
    + apply substring_of_self.
    + exists EmptyString, (sep +:+ join sep (y :: items)). done.
  - destruct items as [|y items]; [by apply elem_of_nil in Hin|].
    change (join sep (x :: y :: items))
      with (x +:+ sep +:+ join sep (y :: items)).
    by apply substring_of_append_l, substring_of_append_l, IH.
Qed.

Lemma occurrences_append_l (x a s : string) :
  (occurrences x s <= occurrences x (a +:+ s))%nat.
Proof.
  induction a as [|c a IH]; [done|].
  change (String c a +:+ s) with (String c (a +:+ s)).
  cbn [occurrences]. lia.
Qed.

Lemma occurrences_at_start (x s : string) :
  (1 <= occurrences x (x +:+ s))%nat.
Proof.
  destruct (x +:+ s) eqn:Hxs; cbn [occurrences];
    rewrite <- Hxs, prefix_append; lia.
Qed.

(** A text that holds [x] at two places that do not overlap. *)
Lemma occurrences_twice (x a b c : string) :
  x <> EmptyString ->
  (2 <= occurrences x (a +:+ x +:+ b +:+ x +:+ c))%nat.
Proof.
  intros Hx.
  etransitivity; [|apply occurrences_append_l].
  destruct x as [|ch x]; [done|].
  change (String ch x +:+ b +:+ String ch x +:+ c)
    with (String ch (x +:+ b +:+ String ch x +:+ c)).
  cbn [occurrences].
  change (String ch (x +:+ b +:+ String ch x +:+ c))
    with (String ch x +:+ b +:+ String ch x +:+ c).
  rewrite prefix_append.
  pose proof (occurrences_append_l (String ch x) x
                (b +:+ String ch x +:+ c)).
  pose proof (occurrences_append_l (String ch x) b (String ch x +:+ c)).
  pose proof (occurrences_at_start (String ch x) c).
  lia.
Qed.

Lemma prompt_text_contains indent (items : list string) instructions :
  (forall item, item ∈ items ->
     substring_of item
       (prompt_text indent (join ", " items) instructions)) /\
  substring_of instructions
    (prompt_text indent (join ", " items) instructions) /\
  (1 <= occurrences instructions
          (prompt_text indent (join ", " items) instructions))%nat.
Proof.
  unfold prompt_text. repeat split.
  - intros item Hin.
    by apply substring_of_append_l, substring_of_append_r, join_contains.
  - apply substring_of_append_l, substring_of_append_l,
      substring_of_append_l.
    exists EmptyString, (prompt_tail indent). done.
  - etransitivity; [|apply occurrences_append_l].
    etransitivity; [|apply occurrences_append_l].
    etransitivity; [|apply occurrences_append_l].
    apply occurrences_at_start.
Qed.

(** When the instruction text is itself handed in as an item, the prompt
    holds it twice. *)
Lemma instructions_as_item_occur_twice indent instructions :
  instructions <> EmptyString ->
  (2 <= occurrences instructions
          (prompt_text indent (join ", " [instructions]) instructions))%nat.
Proof.
  intros Hne. unfold prompt_text. cbn [join].
  by apply (occurrences_twice instructions prompt_head
              (LF +:+ LF +:+ indent) (prompt_tail indent)).
Qed.

(** C7, as the code has it.  For every non-empty list of items, both
    prompts (the human message sent to the model and the prompt logged to
    the collector) contain every item verbatim and contain the instruction
    text: it stands at the one place where the template inserts it, between
    the joined items and the closing text, and so occurs at least once. *)
Theorem prompt_contains_items_and_instructions (items : list string)
    (instructions : string) :
  items <> [] ->
  let s := join ", " items in
  (forall item, item ∈ items ->
     substring_of item (human_message s instructions) /\
     substring_of item (full_prompt s instructions)) /\
  (1 <= occurrences instructions (human_message s instructions))%nat /\
  (1 <= occurrences instructions (full_prompt s instructions))%nat /\
  human_message s instructions =
    prompt_head +:+ s +:+ (LF +:+ LF +:+ "            ") +:+
    instructions +:+ prompt_tail "            " /\
  full_prompt s instructions =
    prompt_head +:+ s +:+ (LF +:+ LF +:+ "        ") +:+
    instructions +:+ prompt_tail "        ".
Proof.
  intros _ s. unfold human_message, full_prompt.
  destruct (prompt_text_contains "            " items instructions)
    as (Hh & _ & Hh1).
  destruct (prompt_text_contains "        " items instructions)
    as (Hf & _ & Hf1).
  repeat split; auto.
Qed.

(** C7 on the two items of the end-to-end scenario. *)
Lemma prompt_contains_items_and_instructions_witness :
  let instructions := format_instructions Sample.the_lib in
  let s := join ", " ["chicken"; "rice"] in
  (forall item, item ∈ ["chicken"; "rice"] ->
     substring_of item (human_message s instructions) /\
     substring_of item (full_prompt s instructions)) /\
  (1 <= occurrences instructions (human_message s instructions))%nat /\
  (1 <= occurrences instructions (full_prompt s instructions))%nat /\
  human_message s instructions =
    prompt_head +:+ s +:+ (LF +:+ LF +:+ "            ") +:+
    instructions +:+ prompt_tail "            " /\
  full_prompt s instructions =
    prompt_head +:+ s +:+ (LF +:+ LF +:+ "        ") +:+
    instructions +:+ prompt_tail "        ".
Proof.
  apply (prompt_contains_items_and_instructions ["chicken"; "rice"]
           (format_instructions Sample.the_lib)).
  discriminate.
Defined.

(** C7, where the claim fails: with the instruction text as the only item,
    the logged prompt holds that text more than once. *)
Lemma instructions_not_exactly_once :
  ~ (forall (items : list string) (instructions : string),
        items <> [] ->
        (forall item, item ∈ items ->
           substring_of item
             (full_prompt (join ", " items) instructions)) /\
        occurrences instructions
          (full_prompt (join ", " items) instructions) = 1%nat).
Proof.
  intros H.
  destruct (H [format_instructions Sample.the_lib]
              (format_instructions Sample.the_lib)) as [_ Hone];
    [discriminate|].
  pose proof (instructions_as_item_occur_twice "        "
                (format_instructions Sample.the_lib)) as Htwo.
  unfold full_prompt in Hone. rewrite Hone in Htwo.
  assert (2 <= 1)%nat by (apply Htwo; discriminate). lia.
Qed.

(* ===================================================================== *)
(** * The chain and its callbacks *)
(* ===================================================================== *)

Lemma usage_kept_refl s : usage_kept s s.
Proof. by intros l. Qed.

Lemma harmless_ret {A} (a : A) : harmless (ret a).
Proof. apply keeps_ret; [apply usage_kept_refl | done]. Qed.

Lemma harmless_bind {A B} (m : M A) (k : A -> M B) :
  harmless m -> (forall a, harmless (k a)) -> harmless (bind m k).
Proof. apply keeps_bind; [apply usage_kept_trans | apply no_key_app]. Qed.

Lemma harmless_try_except {A} (m : M A) (h : exn -> M A) :
  harmless m -> (forall e, harmless (h e)) -> harmless (try_except m h).
Proof.
  apply keeps_try_except; [apply usage_kept_trans | apply no_key_app].
Qed.

Lemma harmless_print v : harmless (print v).
Proof. apply quiet_harmless, quiet_print. Qed.

Lemma harmless_time_time E : harmless (time_time E).
Proof. intros s. split; [by intros l | done]. Qed.

Lemma harmless_getitem self k : harmless (getitem self k).
Proof.
  intros s. unfold getitem.
  destruct (metadata (heap s !!! self) !! k); (split; [by intros l | done]).
Qed.

Lemma harmless_getattr_model self : harmless (getattr_model self).
Proof. intros s. split; [by intros l | done]. Qed.

Lemma harmless_py_sub a b : harmless (py_sub a b).
Proof.
  apply quiet_harmless.
  destruct a, b; first [apply quiet_ret | apply quiet_raise].
Qed.

(** Storing under a key other than [usage], or storing a dictionary under
    [usage], keeps every [usage] well formed. *)
Lemma harmless_setitem self k v :
  k <> "usage" \/ (exists u, v = VDict u) -> harmless (setitem self k v).
Proof.
  intros Hkv s. split; [|done].
  intros l Hl. cbn [final setitem heap fst snd].
  destruct (decide (l = self)) as [->|Hne].
  - rewrite lookup_total_insert_eq. unfold usage_wf in *.
    cbn [metadata set_metadata].
    destruct (decide (k = "usage")) as [->|Hk].
    + destruct Hkv as [?|[u ->]]; [done | by rewrite lookup_insert_eq].
    + by rewrite lookup_insert_ne.
  - by rewrite lookup_total_insert_ne.
Qed.

Create HintDb harmless.
#[local] Hint Resolve harmless_ret harmless_print harmless_time_time
  harmless_getitem harmless_getattr_model harmless_py_sub : harmless.
#[local] Hint Extern 2 (keeps usage_kept no_key (bind _ _)) =>
  apply harmless_bind; [|intros ?] : harmless.
#[local] Hint Extern 2 (keeps usage_kept no_key (setitem _ _ _)) =>
  apply harmless_setitem; first [by left | right; by eexists] : harmless.

Lemma harmless_on_llm_start E self ser prompts kwargs :
  harmless (on_llm_start E self ser prompts kwargs).
Proof. unfold on_llm_start. auto 20 with harmless. Qed.

Lemma harmless_on_llm_end E self response kwargs :
  harmless (on_llm_end E self response kwargs).
Proof.
  unfold on_llm_end.
  apply harmless_bind; [auto with harmless | intros _].
  apply harmless_bind; [apply quiet_harmless, quiet_for_gen | intros totals].
  auto 30 with harmless.
Qed.

Lemma harmless_on_llm_error self error kwargs :
  harmless (on_llm_error self error kwargs).
Proof. unfold on_llm_error. auto 20 with harmless. Qed.

(** The callbacks never stop the chain: whatever a hook raises is
    swallowed. *)
Lemma for_callbacks_run callbacks (hook : loc -> M unit) s :
  (forall cb, harmless (hook cb)) ->
  exists s' t,
    for_callbacks callbacks hook s = (Ok tt, s', t) /\
    usage_kept s s' /\ no_key t.
Proof.
  intros Hhook. revert s.
  induction callbacks as [|cb callbacks IH]; intros s; cbn [for_callbacks].
  - exists s, []. repeat split. apply usage_kept_refl.
  - destruct (Hhook cb s) as [Hk Hq].
    assert (exists s1 t1,
               try_except (hook cb) (fun _ => ret tt) s = (Ok tt, s1, t1) /\
               usage_kept s s1 /\ no_key t1) as (s1 & t1 & Hrun & Hk1 & Hq1).
    { unfold try_except.
      destruct (hook cb s) as [[[[]|e] s1] t1]; cbn in *.
      - by exists s1, t1.
      - exists s1, (t1 ++ []). by rewrite app_nil_r. }
    destruct (IH s1) as (s2 & t2 & Hrest & Hk2 & Hq2).
    exists s2, (t1 ++ t2). rewrite (bind_ok _ _ _ _ _ _ Hrun), Hrest. cbn.
    repeat split; [by eapply usage_kept_trans | by apply no_key_app].
Qed.

Lemma parse_reply_run E response s :
  (reply <- first_text response ;; parser_parse E reply) s =
    (reply_outcome E response, s, []).
Proof.
  unfold first_text, parser_parse, reply_outcome.
  destruct (generations response) as [|[|g gen] gens]; cbn;
    [reflexivity | reflexivity |].
  destruct (parse (lib E) (text g)); reflexivity.
Qed.

(** The chain: its outcome is a function of the environment, whatever the
    callbacks do, and the model is asked exactly once. *)
Lemma chain_invoke_run E self ingredients_str s :
  exists s' t,
    chain_invoke E self ingredients_str (format_instructions (lib E)) s =
      (chain_outcome E ingredients_str, s', t) /\
    usage_kept s s' /\
    key t = [ModelCall (render ingredients_str
                          (format_instructions (lib E)))].
Proof.
  unfold chain_invoke, chain_outcome.
  set (p := render ingredients_str (format_instructions (lib E))).
  destruct (for_callbacks_run (llm_callbacks self)
              (fun cb => on_llm_start E cb (serialized E) [prompt_string p]
                           (callback_kwargs E)) s)
    as (s1 & t1 & Hstart & Hk1 & Hq1);
    [intros cb; apply harmless_on_llm_start|].
  rewrite (bind_ok _ _ _ _ _ _ Hstart). run_step.
  destruct (endpoint E p) as [response|msg].
  - destruct (for_callbacks_run (llm_callbacks self)
                (fun cb => on_llm_end E cb response (callback_kwargs E)) s1)
      as (s2 & t2 & Hend & Hk2 & Hq2);
      [intros cb; apply harmless_on_llm_end|].
    rewrite (bind_ok _ _ _ _ _ _ Hend), parse_reply_run.
    eexists _, _. split; [reflexivity|].
    split; [by eapply usage_kept_trans|].
    cbn [emitted snd]. by rewrite !key_app, Hq1, Hq2.
  - destruct (for_callbacks_run (llm_callbacks self)
                (fun cb => on_llm_error cb (EndpointError msg)
                             (callback_kwargs E)) s1)
      as (s2 & t2 & Herr & Hk2 & Hq2);
      [intros cb; apply harmless_on_llm_error|].
    rewrite (bind_ok _ _ _ _ _ _ Herr).
    eexists _, _. split; [reflexivity|].
    split; [by eapply usage_kept_trans|].
    cbn [emitted snd]. by rewrite !key_app, Hq1, Hq2.
Qed.

(* ===================================================================== *)
(** * [generate_structured_recipes] *)
(* ===================================================================== *)

Lemma model_calls_key t : model_calls t = model_calls (key t).
Proof.
  unfold model_calls, key.
  induction t as [|e t IH]; [done|].
  destruct e as [v|c|p|n p i]; try destruct c; cbn; by rewrite IH.
Qed.

Lemma attempts_key t : attempts t = attempts (key t).
Proof.
  unfold attempts, key.
  induction t as [|e t IH]; [done|].
  destruct e as [v|c|p|n p i]; try destruct c; cbn; by rewrite IH.
Qed.

Lemma file_writes_key t : file_writes t = file_writes (key t).
Proof.
  unfold file_writes, key.
  induction t as [|e t IH]; [done|].
  destruct e as [v|c|p|n p i]; try destruct c; cbn; by rewrite IH.
Qed.

Lemma kinds_key t : kinds t = kinds (key t).
Proof.
  unfold kinds, key.
  induction t as [|e t IH]; [done|].
  destruct e as [v|c|p|n p i]; try destruct c; cbn; by rewrite IH.
Qed.

Ltac run_unfold :=
  unfold try_except, bind, client_call, emit, print, ret, raise, lift,
    getattr_metadata, usage_entry.

(** The logging block never raises and leaves the state alone; it attempts
    the prompt call, and the response call when the prompt call returned
    and the usage could be read. *)
Lemma log_llm_exchange_run R run_id prompt rc me s :
  exists t,
    log_llm_exchange R run_id prompt rc me s = (Ok tt, s, t) /\
    core t = [] /\
    (forall l, me = Some l -> usage_wf (heap s !!! l) ->
       key t = Telemetry (prompt_logged run_id prompt) ::
               match R (prompt_logged run_id prompt) with
               | None => [Telemetry (response_logged run_id rc
                                       (metadata (heap s !!! l)))]
               | Some _ => []
               end) /\
    (me = None ->
       key t = [Telemetry (prompt_logged run_id prompt)] /\
       (R (prompt_logged run_id prompt) = None ->
        none_extractor_warning ∈ t)) /\
    model_calls t = [] /\ file_writes t = [] /\
    prompt_logged run_id prompt ∈ attempts t.
Proof.
  unfold log_llm_exchange. fold (prompt_logged run_id prompt).
  run_unfold.
  destruct (R (prompt_logged run_id prompt)) as [msg|] eqn:HR1.
  { eexists. split; [reflexivity|]. repeat split;
      [discriminate | apply list_elem_of_here]. }
  destruct me as [l|].
  2:{ eexists. split; [reflexivity|]. repeat split;
        [discriminate | | apply list_elem_of_here].
      intros _. apply list_elem_of_further, list_elem_of_here. }
  unfold usage_wf, response_logged, usage_of.
  destruct (metadata (heap s !!! l) !! "usage") as [v|] eqn:Hu.
  1: destruct v as [| | | | | |u].
  all: repeat (cbn; rewrite ?Hu).
  all: try destruct (R (log_llm_response _ _ _ _ _ _ _)).
  all: eexists; split; [reflexivity|]; split; [reflexivity|].
  all: split; [intros l' [= <-]; rewrite Hu; by intros ?|].
  all: split; [by intros [=]|].
  all: repeat split; apply list_elem_of_here.
Qed.

(** One call of [generate_structured_recipes]: it returns what the chain
    returns, asks the model once, writes no file, and logs after the chain
    has succeeded. *)
Lemma generate_run E R self run_id ingredients me s :
  let i := join ", " ingredients in
  let p := render i (format_instructions (lib E)) in
  let c := prompt_logged run_id (full_prompt i (format_instructions (lib E))) in
  exists s' t,
    generate_structured_recipes E R self run_id ingredients me s =
      (chain_outcome E i, s', t) /\
    usage_kept s s' /\
    model_calls t = [p] /\
    file_writes t = [] /\
    match chain_outcome E i with
    | Raise _ => key t = [ModelCall p]
    | Ok rc =>
        c ∈ attempts t /\
        (forall l, me = Some l -> usage_wf (heap s' !!! l) ->
           key t = ModelCall p :: Telemetry c ::
                   match R c with
                   | None => [Telemetry (response_logged run_id rc
                                           (metadata (heap s' !!! l)))]
                   | Some _ => []
                   end) /\
        (me = None ->
           key t = [ModelCall p; Telemetry c] /\
           (R c = None -> none_extractor_warning ∈ t))
    end.
Proof.
  intros i p c. unfold generate_structured_recipes. cbv zeta. fold i.
  run_step.
  match goal with
  | |- context [bind (chain_invoke E self i _) _ ?s1] =>
      destruct (chain_invoke_run E self i s1) as (s2 & t2 & Hch & Hk & Hkey)
  end.
  fold p in Hkey.
  assert (model_calls t2 = [p]) as Hmc by (by rewrite model_calls_key, Hkey).
  assert (file_writes t2 = []) as Hfw by (by rewrite file_writes_key, Hkey).
  destruct (chain_outcome E i) as [rc|e] eqn:Hout.
  - rewrite (bind_ok _ _ _ _ _ _ Hch). run_step.
    match goal with
    | |- context [bind (log_llm_exchange R run_id ?q rc me) _ ?s3] =>
        destruct (log_llm_exchange_run R run_id q rc me s3)
          as (t3 & Hex & Hcore & Hsome & Hnone & Hmc3 & Hfw3 & Hin)
    end.
    rewrite (bind_ok _ _ _ _ _ _ Hex). cbn [ret value_of final emitted fst snd].
    eexists _, _. split; [reflexivity|].
    split; [intros l0 Hl0; exact (Hk l0 Hl0)|]. fold c in Hsome, Hnone.
    unfold model_calls, file_writes in *.
    cbn [app]. rewrite !omap_app, Hmc, Hfw, Hmc3, Hfw3.
    split; [done|]. split; [done|]. split; [|split].
    + unfold attempts in *. rewrite !omap_app, !elem_of_app. tauto.
    + intros l Hl Hwf. rewrite !key_app, Hkey, (Hsome l Hl Hwf).
      change (key []) with (@nil event). by rewrite app_nil_r.
    + intros Hme. destruct (Hnone Hme) as [Hk3 Hw].
      rewrite !key_app, Hkey, Hk3. split; [done|].
      intros HR. specialize (Hw HR). rewrite !elem_of_app. tauto.
  - rewrite (bind_raise _ _ _ _ _ _ Hch).
    eexists _, _. split; [reflexivity|]. split; [intros l0 Hl0; exact (Hk l0 Hl0)|].
    cbn [app emitted value_of final fst snd]. by rewrite Hmc, Hfw, Hkey.
Qed.

(** C10.  When the model call and the parsing succeed,
    [generate_structured_recipes] returns the parsed collection whatever
    the extractor argument is ([None], an object without [usage], an object
    whose [usage] cannot be read) and whatever the collector does.  With a
    [None] extractor the prompt call is attempted, the attribute error of
    [metadata_extractor.metadata] is caught by the [except] of the logging
    block and printed as a warning; with an extractor that has no [usage]
    the response is logged with [None] for the three token counts. *)
Theorem generate_returns_despite_logging_errors E R self run_id ingredients
    me s rc :
  chain_outcome E (join ", " ingredients) = Ok rc ->
  let o := generate_structured_recipes E R self run_id ingredients me s in
  let c := prompt_logged run_id
             (full_prompt (join ", " ingredients)
                (format_instructions (lib E))) in
  value_of o = Ok rc /\
  (me = None -> R c = None ->
     attempts (emitted o) = [c] /\ none_extractor_warning ∈ emitted o) /\
  (forall l, me = Some l -> R c = None ->
     metadata (heap (final o) !!! l) !! "usage" = None ->
     attempts (emitted o) =
       [c; log_llm_response run_id rc 1 1 VNone VNone VNone]).
Proof.
  intros Hout o c.
  destruct (generate_run E R self run_id ingredients me s)
    as (s' & t & Hrun & _ & _ & _ & Hkey).
  rewrite Hout in Hrun, Hkey. destruct Hkey as (_ & Hsome & Hnone).
  subst o. rewrite Hrun. cbn [value_of final emitted fst snd].
  split; [done|]. split.
  - intros Hme HR. destruct (Hnone Hme) as [Hk Hw].
    rewrite attempts_key, Hk. split; [done | by apply Hw].
  - intros l Hme HR Hu. rewrite attempts_key, (Hsome l Hme).
    + fold c. rewrite HR. unfold response_logged, usage_of.
      by rewrite Hu.
    + unfold usage_wf. by rewrite Hu.
Qed.

(** C10 at a concrete call: three recipes come back, the extractor argument
    is [None], the collector is up. *)
Lemma generate_returns_despite_logging_errors_witness :
  let E := Sample.three_recipes in
  let o := generate_structured_recipes E Sample.collector_up
             (StructuredRecipeGenerator_init None None) "recipe-gen-0a1b2c3d"
             ["chicken"; "rice"] None Sample.start in
  let c := prompt_logged "recipe-gen-0a1b2c3d"
             (full_prompt (join ", " ["chicken"; "rice"])
                (format_instructions (lib E))) in
  exists rc,
    length (recipes rc) = 3%nat /\
    value_of o = Ok rc /\
    attempts (emitted o) = [c] /\
    none_extractor_warning ∈ emitted o.
Proof.
  intros E o c.
  destruct (chain_outcome E (join ", " ["chicken"; "rice"]))
    as [rc|e] eqn:Hout; [|discriminate Hout].
  exists rc. split; [by injection Hout as <-|].
  destruct (generate_returns_despite_logging_errors E Sample.collector_up
              (StructuredRecipeGenerator_init None None)
              "recipe-gen-0a1b2c3d" ["chicken"; "rice"] None Sample.start
              rc Hout) as (Hval & Hnone & _).
  destruct (Hnone eq_refl eq_refl) as [Hattempts Hwarning].
  split; [exact Hval|]. split; [exact Hattempts | exact Hwarning].
Defined.

(** C4, as the code has it.  No list of items is rejected: for every list,
    the empty one included, the items are joined (the empty list to the
    empty string), the model is asked once with the prompt rendered from
    them, the outcome is the chain's, and the prompt is logged when the
    chain succeeded. *)
Theorem no_item_list_is_rejected E R self run_id ingredients me s :
  let o := generate_structured_recipes E R self run_id ingredients me s in
  let i := join ", " ingredients in
  join ", " [] = EmptyString /\
  model_calls (emitted o) = [render i (format_instructions (lib E))] /\
  value_of o = chain_outcome E i /\
  (forall rc, chain_outcome E i = Ok rc ->
     prompt_logged run_id (full_prompt i (format_instructions (lib E)))
       ∈ attempts (emitted o)).
Proof.
  intros o i.
  destruct (generate_run E R self run_id ingredients me s)
    as (s' & t & Hrun & _ & Hmc & _ & Hkey).
  subst o. rewrite Hrun. cbn [value_of final emitted fst snd].
  repeat split; [exact Hmc|].
  intros rc Hout. fold i in Hkey. rewrite Hout in Hkey. by destruct Hkey.
Qed.

(** C4 at a concrete call with no items: the model answers, so the call
    returns its three recipes, and the prompt is logged. *)
Lemma no_item_list_is_rejected_witness :
  let E := Sample.three_recipes in
  let o := generate_structured_recipes E Sample.collector_up
             (StructuredRecipeGenerator_init None None) "recipe-gen-0a1b2c3d"
             [] None Sample.start in
  exists rc,
    chain_outcome E EmptyString = Ok rc /\
    value_of o = Ok rc /\
    model_calls (emitted o) =
      [render EmptyString (format_instructions (lib E))] /\
    prompt_logged "recipe-gen-0a1b2c3d"
      (full_prompt EmptyString (format_instructions (lib E)))
      ∈ attempts (emitted o).
Proof.
  intros E o.
  destruct (no_item_list_is_rejected E Sample.collector_up
              (StructuredRecipeGenerator_init None None)
              "recipe-gen-0a1b2c3d" [] None Sample.start)
    as (_ & Hmc & Hval & Hlog).
  destruct (chain_outcome E EmptyString) as [rc|e] eqn:Hout;
    [|discriminate Hout].
  exists rc. split; [reflexivity|]. split; [exact (eq_trans Hval Hout)|].
  split; [exact Hmc|]. exact (Hlog rc Hout).
Defined.

(** C4, where the claim fails: a call with no items does not fail, asks
    the model, and attempts telemetry. *)
Lemma empty_item_list_reaches_the_model :
  ~ (forall E R self run_id me s,
        let o := generate_structured_recipes E R self run_id [] me s in
        (exists e, value_of o = Raise e) /\
        model_calls (emitted o) = [] /\
        attempts (emitted o) = []).
Proof.
  intros H.
  destruct (H Sample.three_recipes Sample.collector_up
              (StructuredRecipeGenerator_init None None)
              "recipe-gen-0a1b2c3d" None Sample.start) as ([e He] & _).
  vm_compute in He. discriminate He.
Qed.

(* ===================================================================== *)
(** * Telemetry does not interfere *)
(* ===================================================================== *)

Lemma same_obs_refl {A} (m : M A) : same_obs m m.
Proof. by intros s. Qed.

Lemma same_obs_bind {A B} (m1 m2 : M A) (k1 k2 : A -> M B) :
  same_obs m1 m2 -> (forall a, same_obs (k1 a) (k2 a)) ->
  same_obs (bind m1 k1) (bind m2 k2).
Proof.
  intros Hm Hk s. specialize (Hm s). unfold observe, bind in *.
  destruct (m1 s) as [[r1 s1] t1], (m2 s) as [[r2 s2] t2].
  cbn [value_of final emitted fst snd] in Hm. injection Hm as -> -> Hc.
  destruct r2 as [a|e]; cbn [value_of final emitted fst snd].
  - specialize (Hk a s2). unfold observe in Hk.
    destruct (k1 a s2) as [[r3 s3] t3], (k2 a s2) as [[r4 s4] t4].
    cbn [value_of final emitted fst snd] in *. injection Hk as -> -> Hc'. by rewrite !core_app, Hc, Hc'.
  - by rewrite Hc.
Qed.

Lemma same_obs_try_except {A} (m1 m2 : M A) (h1 h2 : exn -> M A) :
  same_obs m1 m2 -> (forall e, same_obs (h1 e) (h2 e)) ->
  same_obs (try_except m1 h1) (try_except m2 h2).
Proof.
  intros Hm Hh s. specialize (Hm s). unfold observe, try_except in *.
  destruct (m1 s) as [[r1 s1] t1], (m2 s) as [[r2 s2] t2].
  cbn [value_of final emitted fst snd] in Hm. injection Hm as -> -> Hc.
  destruct r2 as [a|e]; cbn [value_of final emitted fst snd].
  - by rewrite Hc.
  - specialize (Hh e s2). unfold observe in Hh.
    destruct (h1 e s2) as [[r3 s3] t3], (h2 e s2) as [[r4 s4] t4].
    cbn [value_of final emitted fst snd] in *. injection Hh as -> -> Hc'. by rewrite !core_app, Hc, Hc'.
Qed.

(** A guarded telemetry call shows nothing: the attempt and the warning
    are all it leaves. *)
Lemma session_start_absorbed R run_id s :
  observe
    (try_except
       (client_call R
          (log_session_start run_id
             "Generate structured recipes using LangChain with Ollama" 1 0))
       (fun e =>
          print (VStr ("Warning: Failed to log session start: " +:+
                       exn_str e))) s)
  = (Ok tt, s, []).
Proof. run_unfold. by destruct (R _). Qed.

Lemma session_end_absorbed R run_id response elapsed me s :
  observe
    (try_except
       (md <- getattr_metadata (Some me) ;;
        client_call R
          (log_session_end run_id response 1 0 elapsed
             (Some {[ "context" := VDict md ]})))
       (fun e =>
          print (VStr ("Warning: Failed to log session end: " +:+
                       exn_str e))) s)
  = (Ok tt, s, []).
Proof. run_unfold. by destruct (R _). Qed.

Lemma session_error_absorbed R run_id response s :
  observe
    (try_except
       (client_call R (log_session_end run_id response 1 0 0 None))
       (fun log_error =>
          print (VStr ("Warning: Failed to log error: " +:+
                       exn_str log_error))) s)
  = (Ok tt, s, []).
Proof. run_unfold. by destruct (R _). Qed.

Lemma log_llm_exchange_absorbed R run_id prompt rc me s :
  observe (log_llm_exchange R run_id prompt rc me s) = (Ok tt, s, []).
Proof.
  destruct (log_llm_exchange_run R run_id prompt rc me s)
    as (t & -> & Hcore & _).
  unfold observe. cbn [value_of final emitted fst snd]. by rewrite Hcore.
Qed.

Lemma omap_filter {A B} (f : A -> option B) (P : A -> bool) (t : list A) :
  (forall e, P e = false -> f e = None) ->
  omap f (List.filter P t) = omap f t.
Proof.
  intros H. induction t as [|e t IH]; [done|].
  simpl List.filter. destruct (P e) eqn:HP; csimpl; rewrite IH; [done|].
  by rewrite (H e HP).
Qed.

Lemma file_writes_core t : file_writes t = file_writes (core t).
Proof.
  unfold file_writes, core. symmetry. apply omap_filter.
  by intros [].
Qed.

Lemma same_obs_by_value {A} (m1 m2 : M A) o :
  (forall s, observe (m1 s) = o s) -> (forall s, observe (m2 s) = o s) ->
  same_obs m1 m2.
Proof. intros H1 H2 s. by rewrite H1, H2. Qed.

(** Decomposition of two runs that differ in the collector only. *)
Ltac same_obs_steps :=
  repeat first
    [ apply same_obs_refl
    | eapply same_obs_by_value;
        [ intros ?; first [ apply session_start_absorbed
                          | apply session_end_absorbed
                          | apply session_error_absorbed
                          | apply log_llm_exchange_absorbed ]
        | intros ?; first [ apply session_start_absorbed
                          | apply session_end_absorbed
                          | apply session_error_absorbed
                          | apply log_llm_exchange_absorbed ] ]
    | apply same_obs_bind; [|intros ?]
    | apply same_obs_try_except; [|intros ?] ].

Lemma generate_same_obs E R1 R2 self run_id ingredients me :
  same_obs (generate_structured_recipes E R1 self run_id ingredients me)
           (generate_structured_recipes E R2 self run_id ingredients me).
Proof. unfold generate_structured_recipes. cbv zeta. same_obs_steps. Qed.

Lemma main_same_obs E R1 R2 : same_obs (main E R1) (main E R2).
Proof.
  unfold main, main_try, main_except. cbv zeta.
  same_obs_steps; apply generate_same_obs.
Qed.

(** C2.  The collector decides nothing: under any two collectors (in
    particular one whose every call returns and one whose every call
    raises) [generate_structured_recipes] returns the same result, which is
    the outcome of the chain, reaches the same state, and leaves the same
    trace once the telemetry attempts and the warnings about them are set
    aside; and the same holds of [main], which writes the same file. *)
Theorem telemetry_never_changes_the_result E R1 R2 :
  (forall self run_id ingredients me s,
     let o1 := generate_structured_recipes E R1 self run_id
                 ingredients me s in
     let o2 := generate_structured_recipes E R2 self run_id
                 ingredients me s in
     value_of o1 = chain_outcome E (join ", " ingredients) /\
     value_of o2 = chain_outcome E (join ", " ingredients) /\
     final o1 = final o2 /\
     core (emitted o1) = core (emitted o2)) /\
  (forall s,
     value_of (main E R1 s) = value_of (main E R2 s) /\
     final (main E R1 s) = final (main E R2 s) /\
     core (emitted (main E R1 s)) = core (emitted (main E R2 s)) /\
     file_writes (emitted (main E R1 s)) =
       file_writes (emitted (main E R2 s))).
Proof.
  split.
  - intros self run_id ingredients me s o1 o2.
    pose proof (generate_same_obs E R1 R2 self run_id ingredients me s)
      as Hobs.
    destruct (generate_run E R1 self run_id ingredients me s)
      as (s1 & t1 & H1 & _).
    destruct (generate_run E R2 self run_id ingredients me s)
      as (s2 & t2 & H2 & _).
    subst o1 o2. unfold observe in Hobs. rewrite H1, H2 in *.
    cbn [value_of final emitted fst snd] in *.
    by injection Hobs as -> ->.
  - intros s. pose proof (main_same_obs E R1 R2 s) as Hobs.
    unfold observe in Hobs. injection Hobs as Hv Hf Hc.
    repeat split; try done.
    by rewrite (file_writes_core (emitted (main E R1 s))),
         (file_writes_core (emitted (main E R2 s))), Hc.
Qed.

(* ===================================================================== *)
(** * [main] *)
(* ===================================================================== *)

Lemma session_start_run R run_id s :
  exists t,
    try_except
      (client_call R
         (log_session_start run_id
            "Generate structured recipes using LangChain with Ollama" 1 0))
      (fun e =>
         print (VStr ("Warning: Failed to log session start: " +:+
                      exn_str e))) s
    = (Ok tt, s, t) /\
    key t = [Telemetry (session_started run_id)].
Proof. run_unfold. destruct (R _); by eexists. Qed.

Lemma session_end_run R run_id response elapsed me s :
  exists t,
    try_except
      (md <- getattr_metadata (Some me) ;;
       client_call R
         (log_session_end run_id response 1 0 elapsed
            (Some {[ "context" := VDict md ]})))
      (fun e =>
         print (VStr ("Warning: Failed to log session end: " +:+
                      exn_str e))) s
    = (Ok tt, s, t) /\
    key t = [Telemetry
               (log_session_end run_id response 1 0 elapsed
                  (Some {[ "context" := VDict (metadata (heap s !!! me)) ]}))].
Proof. run_unfold. destruct (R _); by eexists. Qed.

Lemma main_except_run R run_id e s :
  exists t,
    main_except R run_id e s = (Ok tt, s, t) /\
    key t = [Telemetry (session_failed run_id e)] /\
    Print (VStr ("Error: " +:+ exn_str e)) ∈ t.
Proof.
  unfold main_except. fold (session_failed run_id e). run_unfold.
  destruct (R _); eexists; (split; [reflexivity|]);
    (split; [reflexivity | apply list_elem_of_here]).
Qed.

Lemma quiet_print_instructions j l : quiet (print_instructions j l).
Proof.
  revert j. induction l as [|x l IH]; intros j; cbn; auto with quiet.
Qed.

Lemma quiet_print_ingredients l : quiet (print_ingredients l).
Proof. induction l as [|x l IH]; cbn; auto with quiet. Qed.

Lemma quiet_print_recipes i l : quiet (print_recipes i l).
Proof.
  revert i. induction l as [|r l IH]; intros i; cbn [print_recipes].
  - auto with quiet.
  - repeat (apply quiet_bind; [|intros _]);
      auto using quiet_print, quiet_print_ingredients,
        quiet_print_instructions.
Qed.

Lemma print_instructions_ok j l s :
  value_of (print_instructions j l s) = Ok tt.
Proof.
  revert j s. induction l as [|x l IH]; intros j s; [done|].
  cbn [print_instructions]. run_step. apply IH.
Qed.

Lemma print_ingredients_ok l s : value_of (print_ingredients l s) = Ok tt.
Proof.
  revert s. induction l as [|x l IH]; intros s; [done|].
  cbn [print_ingredients]. run_step. apply IH.
Qed.

Lemma print_recipes_run i l s :
  exists t, print_recipes i l s = (Ok tt, s, t) /\ no_key t.
Proof.
  destruct (quiet_print_recipes i l s) as [Hs Hq].
  exists (emitted (print_recipes i l s)). split; [|exact Hq].
  rewrite (run_eta (print_recipes i l s)), <- Hs. f_equal. f_equal.
  clear Hs Hq. revert i s.
  induction l as [|r l IH]; intros i s; [done|].
  cbn [print_recipes]. do 3 run_step.
  destruct (quiet_print_ingredients (ingredients r) s) as [Hs1 _].
  pose proof (print_ingredients_ok (ingredients r) s) as Hv1.
  rewrite (bind_ok _ _ s tt s (emitted (print_ingredients (ingredients r) s)));
    [|by rewrite (run_eta (print_ingredients _ _)), Hv1, <- Hs1].
  run_step.
  destruct (quiet_print_instructions 1 (instructions r) s) as [Hs2 _].
  pose proof (print_instructions_ok 1 (instructions r) s) as Hv2.
  rewrite (bind_ok _ _ s tt s
             (emitted (print_instructions 1 (instructions r) s)));
    [|by rewrite (run_eta (print_instructions _ _ _)), Hv2, <- Hs2].
  run_step. apply IH.
Qed.

(** The body of the outer [try] of [main]: what it returns and the events
    it leaves, by the outcome of the chain. *)
Lemma main_try_run E R s :
  let run_id := run_id_of E in
  exists r s' t,
    main_try E R run_id s = (r, s', t) /\
    match main_outcome E with
    | Raise e =>
        r = Raise e /\
        key t = [Telemetry (session_started run_id); ModelCall (main_prompt E)]
    | Ok rc =>
        exists md,
          (exists e,
              r = Raise e /\
              key t = [Telemetry (session_started run_id);
                       ModelCall (main_prompt E)] ++ main_logged E R rc md) \/
          (exists elapsed md',
              r = Ok tt /\
              write_file E "generated_recipes.json" = None /\
              key t = [Telemetry (session_started run_id);
                       ModelCall (main_prompt E)] ++ main_logged E R rc md ++
                      [FileWrite "generated_recipes.json" rc 2;
                       Telemetry (session_succeeded run_id rc elapsed md')])
    end.
Proof.
  intros run_id.
  destruct (main_try E R run_id s) as [[r s'] t] eqn:Hrun.
  exists r, s', t. split; [done|].
  unfold main_try in Hrun. cbv zeta in Hrun.
  destruct (session_start_run R run_id s) as (t0 & Hstart & Hk0).
  step_by Hrun Hstart.
  do 7 step_in Hrun.
  cbn [heap next_loc ticks] in Hrun.
  rewrite !key_app, Hk0. cbn [key List.filter is_print negb app].
  match type of Hrun with
  | bind (generate_structured_recipes E R ?g run_id ?ings (Some ?l)) _ ?s1 = _ =>
      destruct (generate_run E R g run_id ings (Some l) s1)
        as (s2 & t2 & Hgen & Hkept & _ & _ & Hkey);
      assert (usage_wf (heap s2 !!! l)) as Hwf
        by (apply Hkept; cbn [heap]; by rewrite lookup_total_insert_eq)
  end.
  fold main_items in Hgen, Hkey. fold (main_outcome E) in Hgen, Hkey.
  fold (main_prompt E) in Hkey. fold (main_prompt_logged E) in Hkey.
  destruct (main_outcome E) as [rc|e].
  2:{ destruct (bind_stop _ _ _ _ _ _ _ _ _ Hgen Hrun) as (-> & -> & ->).
      split; [done|]. by rewrite Hkey. }
  destruct Hkey as (_ & Hkey & _). specialize (Hkey _ eq_refl Hwf).
  step_by Hrun Hgen. step_in Hrun.
  exists (metadata (heap s2 !!! next_loc s)).
  rewrite !key_app, Hkey. fold (main_logged E R rc (metadata (heap s2 !!! next_loc s))).
  cbn [heap next_loc ticks] in Hrun.
  match type of Hrun with
  | context [int_of_float ?x] => destruct (int_of_float x) as [elapsed|e]
  end.
  2:{ apply (bind_stop _ _ _ _ _ _ _ _ _ eq_refl) in Hrun
        as (-> & -> & ->).
      left. exists e. split; [done|]. cbn [key List.filter app].
      by rewrite !app_nil_r. }
  do 3 step_in Hrun.
  destruct (print_recipes_run 1 (recipes rc)
              {| heap := heap s2; next_loc := next_loc s2;
                 ticks := S (ticks s2) |}) as (t5 & Hpr & Hq5).
  step_by Hrun Hpr.
  unfold dump_to_file in Hrun.
  destruct (write_file E "generated_recipes.json") as [msg|] eqn:Hfs.
  { apply (bind_stop _ _ _ _ _ _ _ _ _ eq_refl) in Hrun
      as (-> & -> & ->).
    left. exists (OSError msg). split; [done|].
    rewrite !key_app, Hq5. cbn [key List.filter is_print negb app].
    by rewrite !app_nil_r. }
  do 2 step_in Hrun.
  match type of Hrun with
  | try_except _ _ ?s3 = _ =>
      destruct (session_end_run R run_id
                  ("Generated " +:+ pretty (length (recipes rc)) +:+
                   " recipes successfully") elapsed (next_loc s) s3)
        as (t6 & Hend & Hk6)
  end.
  rewrite Hend in Hrun. injection Hrun as <- <- <-.
  right. eexists elapsed, _. split; [done|]. split; [done|].
  rewrite !key_app, Hq5, Hk6. cbn [key List.filter is_print negb app].
  rewrite ?app_nil_r. reflexivity.
Qed.
(** [main] never raises; its events are those of the [try] body, followed
    by the error report when the body raised. *)
Lemma main_run E R s :
  let run_id := run_id_of E in
  exists s' t,
    main E R s = (Ok tt, s', t) /\
    match main_outcome E with
    | Raise e =>
        value_of (main_try E R run_id s) = Raise e /\
        Print (VStr ("Error: " +:+ exn_str e)) ∈ t /\
        key t = [Telemetry (session_started run_id);
                 ModelCall (main_prompt E);
                 Telemetry (session_failed run_id e)]
    | Ok rc =>
        exists md,
          (exists e,
              value_of (main_try E R run_id s) = Raise e /\
              key t = [Telemetry (session_started run_id);
                       ModelCall (main_prompt E)] ++ main_logged E R rc md ++
                      [Telemetry (session_failed run_id e)]) \/
          (exists elapsed md',
              value_of (main_try E R run_id s) = Ok tt /\
              write_file E "generated_recipes.json" = None /\
              key t = [Telemetry (session_started run_id);
                       ModelCall (main_prompt E)] ++ main_logged E R rc md ++
                      [FileWrite "generated_recipes.json" rc 2;
                       Telemetry (session_succeeded run_id rc elapsed md')])
    end.
Proof.
  intros run_id.
  destruct (main E R s) as [[r s'] t] eqn:Hmain.
  unfold main in Hmain. cbv zeta in Hmain. do 2 step_in Hmain.
  fold (run_id_of E) in Hmain. fold run_id in Hmain.
  destruct (main_try_run E R s) as (r1 & s1 & t1 & Hrun & Hshape).
  fold run_id in Hrun, Hshape. rewrite Hrun.
  cbn [value_of fst]. cbn [app].
  destruct r1 as [[]|e1].
  - rewrite (try_ok _ _ _ _ _ _ Hrun) in Hmain. injection Hmain as <- <- <-.
    exists s1. eexists. split; [reflexivity|].
    destruct (main_outcome E) as [rc|e].
    + destruct Hshape as (md & [(e' & [=] & _)|(el & md' & _ & Hfs & Hk)]).
      exists md. right. exists el, md'. by repeat split.
    + by destruct Hshape as [[=] _].
  - destruct (main_except_run R run_id e1 s1) as (t2 & Hex & Hk2 & Hpr).
    rewrite (try_raise _ _ _ _ _ _ Hrun), Hex in Hmain.
    cbn [value_of final emitted fst snd] in Hmain.
    injection Hmain as <- <- <-.
    exists s1. eexists. split; [reflexivity|].
    change (key (?a :: ?b :: ?l)) with (key l).
    rewrite key_app, Hk2.
    destruct (main_outcome E) as [rc|e].
    + destruct Hshape as (md & [(e' & [= <-] & Hk)|(el & md' & [=] & _)]).
      exists md. left. exists e1. split; [done|].
      by rewrite Hk, <- !app_assoc.
    + destruct Hshape as [[= <-] Hk]. split; [done|]. split.
      * do 2 apply list_elem_of_further. apply elem_of_app. by right.
      * by rewrite Hk.
Qed.

Lemma kinds_main_logged E R rc md :
  kinds (main_logged E R rc md) =
    PromptLogged :: match R (main_prompt_logged E) with
                    | None => [ResponseLogged]
                    | Some _ => []
                    end.
Proof. unfold main_logged. by destruct (R _). Qed.

Lemma attempts_main_logged E R rc md :
  List.filter is_session_end (attempts (main_logged E R rc md)) = [].
Proof. unfold main_logged. by destruct (R _). Qed.

Lemma file_writes_main_logged E R rc md :
  file_writes (main_logged E R rc md) = [].
Proof. unfold main_logged. by destruct (R _). Qed.

(** C8, as the code has it.  In every run of [main] the telemetry events
    come in the order session-start, prompt-logged, response-logged,
    session-end: the session-start attempt is the first event and precedes
    the request to the model, the session-end attempt is the last.  Not
    every run attempts all four: the prompt event is attempted exactly when
    the chain succeeded, and the response event exactly when, in addition,
    the call that logs the prompt returned. *)
Theorem telemetry_events_in_order E R s :
  kinds (emitted (main E R s)) =
    [SessionStart; ModelInvoked] ++
    match main_outcome E with
    | Raise _ => []
    | Ok _ =>
        PromptLogged ::
        match R (main_prompt_logged E) with
        | None => [ResponseLogged]
        | Some _ => []
        end
    end ++ [SessionEnd].
Proof.
  destruct (main_run E R s) as (s' & t & -> & Hshape).
  cbn [emitted snd]. rewrite kinds_key.
  destruct (main_outcome E) as [rc|e].
  - destruct Hshape
      as (md & [(e & _ & ->)|(elapsed & md' & _ & _ & ->)]);
      unfold kinds; rewrite !omap_app;
      fold (kinds (main_logged E R rc md)); rewrite kinds_main_logged;
      destruct (R (main_prompt_logged E)); reflexivity.
  - by destruct Hshape as (_ & _ & ->).
Qed.

(** C8 on the end-to-end scenario: three recipes, usage 120 and 340, the
    collector up. *)
Lemma telemetry_events_in_order_witness :
  kinds (emitted (main Sample.three_recipes Sample.collector_up
                    Sample.start)) =
    [SessionStart; ModelInvoked; PromptLogged; ResponseLogged; SessionEnd].
Proof.
  rewrite (telemetry_events_in_order Sample.three_recipes
             Sample.collector_up Sample.start).
  destruct (main_outcome Sample.three_recipes) as [rc|e] eqn:Hout;
    [reflexivity | discriminate Hout].
Defined.

(** C8, where the claim fails: with three recipes generated and the
    collector down, the call that logs the prompt raises inside the one
    [try] of the logging block, so the response is never logged, and the
    session has three telemetry events, not four. *)
Lemma four_events_not_in_every_session :
  ~ (forall E R s,
        let k := kinds (emitted (main E R s)) in
        SessionStart ∈ k /\ PromptLogged ∈ k /\ ResponseLogged ∈ k /\
        SessionEnd ∈ k).
Proof.
  intros H.
  destruct (H Sample.three_recipes Sample.collector_down Sample.start)
    as (_ & _ & Hresponse & _).
  assert (kinds (emitted (main Sample.three_recipes Sample.collector_down
                            Sample.start)) =
            [SessionStart; ModelInvoked; PromptLogged; SessionEnd]) as Hk
    by (vm_compute; reflexivity).
  rewrite Hk in Hresponse.
  repeat (apply elem_of_cons in Hresponse as [Hresponse|Hresponse];
          [discriminate Hresponse|]).
  by apply elem_of_nil in Hresponse.
Qed.

(** C5, as the code has it.  When the model call or the validation fails,
    [main] attempts exactly one session end, the last telemetry call of the
    run, carrying the summary ["Error: " + str(e)] with elapsed time 0 and
    no metadata; the error itself is printed and [main] returns normally:
    nothing is propagated to the caller. *)
Theorem errored_run_reports_and_returns E R s e :
  main_outcome E = Raise e ->
  let o := main E R s in
  value_of o = Ok tt /\
  Print (VStr ("Error: " +:+ exn_str e)) ∈ emitted o /\
  attempts (emitted o) =
    [session_started (run_id_of E); session_failed (run_id_of E) e] /\
  List.filter is_session_end (attempts (emitted o)) =
    [log_session_end (run_id_of E) ("Error: " +:+ exn_str e) 1 0 0 None].
Proof.
  intros Hout o.
  destruct (main_run E R s) as (s' & t & Hmain & Hshape).
  rewrite Hout in Hshape. destruct Hshape as (_ & Hpr & Hk).
  subst o. rewrite Hmain. cbn [value_of emitted fst snd].
  split; [done|]. split; [done|].
  by rewrite attempts_key, Hk.
Qed.

(** C5 on the end-to-end scenario: the model returns text that is not
    JSON. *)
Lemma errored_run_reports_and_returns_witness :
  let o := main Sample.malformed Sample.collector_up Sample.start in
  let e := OutputParserException "Invalid json output" in
  value_of o = Ok tt /\
  Print (VStr ("Error: " +:+ exn_str e)) ∈ emitted o /\
  attempts (emitted o) =
    [session_started (run_id_of Sample.malformed);
     session_failed (run_id_of Sample.malformed) e] /\
  List.filter is_session_end (attempts (emitted o)) =
    [log_session_end (run_id_of Sample.malformed)
       ("Error: " +:+ exn_str e) 1 0 0 None].
Proof.
  apply (errored_run_reports_and_returns Sample.malformed
           Sample.collector_up Sample.start
           (OutputParserException "Invalid json output")).
  reflexivity.
Defined.

(** C5, where the claim fails: the run in which the model returns
    malformed text is errored, and [main] returns without an error. *)
Lemma errored_run_is_not_propagated :
  ~ (forall E R s e,
        main_outcome E = Raise e ->
        exists e', value_of (main E R s) = Raise e').
Proof.
  intros H.
  destruct (H Sample.malformed Sample.collector_up Sample.start
              (OutputParserException "Invalid json output") eq_refl)
    as [e' He'].
  vm_compute in He'. discriminate He'.
Qed.

(** C9, as the code has it.  A run whose [try] body completes has written
    exactly one file, named [generated_recipes.json] whatever the run id,
    holding the validated collection dumped with indent 2; a run whose
    body raised has written none. *)
Theorem successful_run_writes_one_file E R s :
  (value_of (main_try E R (run_id_of E) s) = Ok tt ->
   exists rc,
     main_outcome E = Ok rc /\
     file_writes (emitted (main E R s)) =
       [("generated_recipes.json", rc, 2)]) /\
  (forall e,
     value_of (main_try E R (run_id_of E) s) = Raise e ->
     file_writes (emitted (main E R s)) = []).
Proof.
  destruct (main_run E R s) as (s' & t & -> & Hshape).
  cbn [emitted snd]. rewrite file_writes_key.
  destruct (main_outcome E) as [rc|e0].
  - destruct Hshape as (md & [(e & He & ->)|(el & md' & Hok & _ & ->)]);
      unfold file_writes; rewrite !omap_app;
      fold (file_writes (main_logged E R rc md));
      rewrite file_writes_main_logged.
    + split; [by rewrite He | done].
    + split; [intros _; by exists rc | intros e; by rewrite Hok].
  - destruct Hshape as (He & _ & ->). split; [by rewrite He | done].
Qed.

(** C9 on the end-to-end scenario. *)
Lemma successful_run_writes_one_file_witness :
  exists rc,
    main_outcome Sample.three_recipes = Ok rc /\
    length (recipes rc) = 3%nat /\
    file_writes (emitted (main Sample.three_recipes Sample.collector_up
                            Sample.start)) =
      [("generated_recipes.json", rc, 2)].
Proof.
  destruct (successful_run_writes_one_file Sample.three_recipes
              Sample.collector_up Sample.start) as [Hok _].
  destruct Hok as (rc & Hout & Hfw); [vm_compute; reflexivity|].
  exists rc. split; [exact Hout|]. split; [|exact Hfw].
  vm_compute in Hout. by injection Hout as <-.
Defined.

(** C9, where the claim fails: two runs with different run ids write a
    file of the same name. *)
Lemma file_name_is_not_of_the_run :
  ~ (forall E1 E2 R s n1 p1 i1 n2 p2 i2,
        run_id_of E1 <> run_id_of E2 ->
        file_writes (emitted (main E1 R s)) = [(n1, p1, i1)] ->
        file_writes (emitted (main E2 R s)) = [(n2, p2, i2)] ->
        n1 <> n2).
Proof.
  intros H.
  set (response :=
         {| generations := [[Sample.candidate "three recipes" 120 340]] |}).
  assert (exists rc,
             file_writes (emitted (main (Sample.answering "0a1b2c3d" response)
                                     Sample.collector_up Sample.start)) =
               [("generated_recipes.json", rc, 2)] /\
             file_writes (emitted (main (Sample.answering "ffffffff" response)
                                     Sample.collector_up Sample.start)) =
               [("generated_recipes.json", rc, 2)])
    as (rc & H1 & H2) by (eexists; split; vm_compute; reflexivity).
  assert (run_id_of (Sample.answering "0a1b2c3d" response) <>
          run_id_of (Sample.answering "ffffffff" response)) as Hne
    by (vm_compute; discriminate).
  by apply (H _ _ _ _ _ _ _ _ _ _ Hne H1 H2).
Qed.

(** The end-to-end scenario of the specification: three records come back
    with usage 120 and 340; the extractor given to the LLM wrapper and the
    one read by the logging block are the same object, so the response is
    logged with the totals [on_llm_end] stored, 460 in all. *)
Example end_to_end_three_recipes :
  let o := main Sample.three_recipes Sample.collector_up Sample.start in
  value_of o = Ok tt /\
  (exists rc,
      main_outcome Sample.three_recipes = Ok rc /\
      length (recipes rc) = 3%nat /\
      response_logged (run_id_of Sample.three_recipes) rc
        (<["usage" := VDict (usage_dict 120 340 460)]> ∅)
        ∈ attempts (emitted o)).
Proof.
  split; [vm_compute; reflexivity|].
  eexists. split; [vm_compute; reflexivity|]. split; [reflexivity|].
  vm_compute. do 2 apply list_elem_of_further. apply list_elem_of_here.
Qed.

(* ===================================================================== *)
(** * More on the lifecycle instrumentor *)
(* ===================================================================== *)

Lemma getitem_run self k s v :
  metadata (heap s !!! self) !! k = Some v ->
  getitem self k s = (Ok v, s, []).
Proof. intros H. unfold getitem. by rewrite H. Qed.

Lemma getitem_missing self k s :
  metadata (heap s !!! self) !! k = None ->
  getitem self k s = (Raise (KeyError k), s, []).
Proof. intros H. unfold getitem. by rewrite H. Qed.

(** The counting loops read the response only. *)
Lemma for_gen_run gens totals s :
  for_gen gens totals s =
    (value_of (for_gen gens totals s), s, emitted (for_gen gens totals s)).
Proof.
  destruct (quiet_for_gen gens totals s) as [Hs _].
  rewrite (run_eta (for_gen gens totals s)) at 1. by rewrite <- Hs.
Qed.

Lemma for_gen_inner_run gen rest totals s :
  for_gen_inner gen rest totals s =
    (value_of (for_gen_inner gen rest totals s), s,
     emitted (for_gen_inner gen rest totals s)).
Proof.
  destruct (quiet_for_gen_inner gen rest totals s) as [Hs _].
  rewrite (run_eta (for_gen_inner gen rest totals s)) at 1. by rewrite <- Hs.
Qed.

Lemma counters_Some g p e :
  counters g = Some (p, e) ->
  exists d, generation_info g = Some d /\
            d !! "prompt_eval_count" = Some (VInt p) /\
            d !! "eval_count" = Some (VInt e).
Proof.
  unfold counters. destruct (generation_info g) as [d|]; [|done].
  destruct (d !! "prompt_eval_count") as [[]|] eqn:Hp; try done.
  destruct (d !! "eval_count") as [[]|] eqn:He; try done.
  intros [= <- <-]. by exists d.
Qed.

(** One pass of the inner loop over [rest], the first candidate of the
    prompt carrying the counters [p] and [e]. *)
Lemma for_gen_inner_counts g0 tl p e rest totals s :
  counters g0 = Some (p, e) ->
  value_of (for_gen_inner (g0 :: tl) rest totals s) =
    Ok (fst totals + informed rest * p, snd totals + informed rest * e).
Proof.
  intros (d & Hd & Hp & He)%counters_Some. revert totals.
  induction rest as [|g rest IH]; intros totals.
  - change (informed []) with 0. destruct totals as [a b].
    cbn [for_gen_inner ret value_of fst snd]. f_equal. f_equal; lia.
  - cbn [for_gen_inner]. unfold informed. cbn [List.filter].
    destruct (truthy (generation_info g)) eqn:Hg.
    + erewrite bind_ok; cycle 1.
      { unfold bind, item0, ret, subscript, add_count.
        repeat (cbn; rewrite ?Hd, ?Hp, ?He). reflexivity. }
      cbn [value_of fst]. rewrite IH. unfold informed. cbn [fst snd length].
      f_equal. f_equal; lia.
    + erewrite bind_ok by reflexivity. cbn [value_of fst]. by rewrite IH.
Qed.

(** One pass of the inner loop over candidates without information. *)
Lemma for_gen_inner_uninformed gen rest totals s :
  informed rest = 0 ->
  value_of (for_gen_inner gen rest totals s) = Ok totals.
Proof.
  revert totals. induction rest as [|g rest IH]; intros totals; [done|].
  unfold informed. cbn [for_gen_inner List.filter].
  destruct (truthy (generation_info g)); cbn [length]; [lia|].
  intros H. erewrite bind_ok by reflexivity. by apply IH.
Qed.

Lemma for_gen_inner_share gen totals s :
  countable gen ->
  value_of (for_gen_inner gen gen totals s) = Ok (add_share totals gen).
Proof.
  intros [Hnone|(g0 & rest & -> & [[p e] Hc])].
  - rewrite for_gen_inner_uninformed by done.
    unfold add_share, first_candidate_share. rewrite Hnone.
    destruct gen as [|g0 rest]; [|destruct (counters g0) as [[p e]|]];
      destruct totals; cbn; f_equal; f_equal; lia.
  - rewrite (for_gen_inner_counts g0 rest p e) by done.
    unfold add_share, first_candidate_share. by rewrite Hc.
Qed.

(** What the counting loops compute: for every prompt, the first
    candidate's counters multiplied by the number of candidates that carry
    information, summed over the prompts. *)
Lemma for_gen_shares gens totals s :
  Forall countable gens ->
  value_of (for_gen gens totals s) = Ok (foldl add_share totals gens).
Proof.
  intros Hall. revert totals.
  induction Hall as [|gen gens Hgen _ IH]; intros totals; [done|].
  cbn [for_gen foldl].
  pose proof (for_gen_inner_run gen gen totals s) as Hrun.
  rewrite for_gen_inner_share in Hrun by done.
  rewrite (bind_ok _ _ _ _ _ _ Hrun). cbn [value_of fst]. apply IH.
Qed.

(** When the counting loops raise, [on_llm_end] raises the same exception
    before it has stored anything or read the clock. *)
Lemma on_llm_end_loop_raises E self response kwargs s e :
  value_of (for_gen (generations response) (0, 0) s) = Raise e ->
  exists t, on_llm_end E self response kwargs s = (Raise e, s, t).
Proof.
  intros Hv. unfold on_llm_end. run_step.
  pose proof (for_gen_run (generations response) (0, 0) s) as Hrun.
  rewrite Hv in Hrun. rewrite (bind_raise _ _ _ _ _ _ Hrun).
  by eexists.
Qed.

(** When the counting loops return, [on_llm_end] goes on to store the model
    and the end time, and then reads [start_time]. *)
Lemma on_llm_end_after_loop E self response kwargs s totals :
  value_of (for_gen (generations response) (0, 0) s) = Ok totals ->
  let o := heap s !!! self in
  let md1 := <["end_time" := VFloat (clock E (ticks s))]>
               (<["model" := VStr (model o)]> (metadata o)) in
  let s1 := {| heap := <[self := set_metadata o md1]> (heap s);
               next_loc := next_loc s; ticks := S (ticks s) |} in
  match metadata o !! "start_time" with
  | Some (VFloat st) =>
      exists t,
        on_llm_end E self response kwargs s =
          (Ok tt,
           {| heap :=
                <[self := set_metadata o
                   (<["usage" := VDict (usage_dict (fst totals) (snd totals)
                                          (fst totals + snd totals))]>
                      (<["duration" := VFloat (clock E (ticks s) - st)]>
                         md1))]> (heap s);
              next_loc := next_loc s; ticks := S (ticks s) |}, t)
  | Some _ =>
      exists t,
        on_llm_end E self response kwargs s =
          (Raise (TypeError "unsupported operand type(s) for -"), s1, t)
  | None =>
      exists t,
        on_llm_end E self response kwargs s =
          (Raise (KeyError "start_time"), s1, t)
  end.
Proof.
  intros Hv o md1 s1.
  pose proof (for_gen_run (generations response) (0, 0) s) as Hloop.
  rewrite Hv in Hloop.
  destruct (on_llm_end E self response kwargs s) as [[r s'] t] eqn:Hrun.
  unfold on_llm_end in Hrun. step_in Hrun. step_by Hrun Hloop.
  do 4 step_in Hrun. repeat heap_simpl_in Hrun.
  match type of Hrun with
  | bind (getitem self "end_time") _ ?s2 = _ =>
      assert (getitem self "end_time" s2 =
                (Ok (VFloat (clock E (ticks s))), s2, [])) as Hend
        by (apply getitem_run; heap_simpl; apply lookup_insert_eq)
  end.
  step_by Hrun Hend.
  match type of Hrun with
  | bind (getitem self "start_time") _ ?s2 = _ =>
      assert (metadata (heap s2 !!! self) !! "start_time" =
                metadata o !! "start_time") as Hst
        by (heap_simpl; by rewrite !lookup_insert_ne)
  end.
  fold o in Hrun. fold md1 in Hrun. fold s1 in Hrun, Hst.
  destruct (metadata o !! "start_time") as [v|].
  - step_by Hrun (getitem_run _ _ _ _ Hst).
    destruct v as [| | |st| | |];
      try (apply (bind_stop _ _ _ _ _ _ _ _ _ eq_refl) in Hrun
             as (-> & -> & ->); by eexists).
    do 2 step_in Hrun. unfold setitem in Hrun. subst s1.
    repeat heap_simpl_in Hrun. injection Hrun as <- <- <-.
    by eexists.
  - apply (bind_stop _ _ _ _ _ _ _ _ _ (getitem_missing _ _ _ Hst)) in Hrun
      as (-> & -> & ->).
    by eexists.
Qed.

(** [on_llm_start] and then [on_llm_end], as the chain calls them around a
    request that is answered. *)
Lemma on_llm_start_then_end E self ser prompts kwargs0 response kwargs s :
  Forall countable (generations response) ->
  let totals := foldl add_share (0, 0) (generations response) in
  let s1 := final (on_llm_start E self ser prompts kwargs0 s) in
  let o := on_llm_end E self response kwargs s1 in
  let md := metadata (heap (final o) !!! self) in
  value_of o = Ok tt /\
  ticks (final o) = S (S (ticks s)) /\
  md !! "usage" = Some (VDict (usage_dict (fst totals) (snd totals)
                                 (fst totals + snd totals))) /\
  md !! "model" = Some (VStr (model (heap s !!! self))).
Proof.
  intros Hall totals s1 o md. subst md o s1.
  pose proof (on_llm_end_after_loop E self response kwargs
                (final (on_llm_start E self ser prompts kwargs0 s)) totals
                (for_gen_shares _ _ _ Hall)) as Hrun.
  cbv zeta in Hrun.
  rewrite (on_llm_start_start_time E self ser prompts kwargs0 s) in Hrun.
  destruct Hrun as [t Hrun]. rewrite Hrun. clear Hrun.
  destruct (on_llm_start_run E self ser prompts kwargs0 s) as (t1 & -> & _).
  repeat heap_simpl.
  repeat split;
    repeat first [ rewrite lookup_insert_eq | rewrite lookup_insert_ne by done ];
    done.
Qed.

Lemma foldl_add_share_uninformed gens totals :
  Forall (fun gen => informed gen = 0) gens ->
  foldl add_share totals gens = totals.
Proof.
  intros Hall. revert totals.
  induction Hall as [|gen gens Hgen _ IH]; intros totals; [done|].
  cbn [foldl]. rewrite IH. unfold add_share, first_candidate_share.
  rewrite Hgen.
  destruct gen as [|g0 rest]; [|destruct (counters g0) as [[p e]|]];
    destruct totals; cbn; f_equal; lia.
Qed.

(** X1.  When [on_llm_end] completes, and what it stores.  On an extractor
    whose [start_time] is a clock reading, and for a response each of whose
    prompts has no candidate with usage information or a first candidate
    with both counters, [on_llm_end] returns; it has taken one clock
    reading and stored as usage, for every prompt, the first candidate's
    counters multiplied by the number of candidates that carry information,
    with their sum, the duration since the start, and the model name of the
    extractor. *)
Theorem on_llm_end_completes E self response kwargs s st :
  metadata (heap s !!! self) !! "start_time" = Some (VFloat st) ->
  Forall countable (generations response) ->
  let totals := foldl add_share (0, 0) (generations response) in
  let o := on_llm_end E self response kwargs s in
  let md := metadata (heap (final o) !!! self) in
  value_of o = Ok tt /\
  ticks (final o) = S (ticks s) /\
  md !! "usage" = Some (VDict (usage_dict (fst totals) (snd totals)
                                 (fst totals + snd totals))) /\
  md !! "end_time" = Some (VFloat (clock E (ticks s))) /\
  md !! "duration" = Some (VFloat (clock E (ticks s) - st)) /\
  md !! "model" = Some (VStr (model (heap s !!! self))).
Proof.
  intros Hst Hall totals o md.
  pose proof (on_llm_end_after_loop E self response kwargs s totals
                (for_gen_shares _ _ _ Hall)) as Hrun.
  cbv zeta in Hrun. rewrite Hst in Hrun. destruct Hrun as [t Hrun].
  subst md o. rewrite Hrun. heap_simpl.
  repeat split;
    repeat first [ rewrite lookup_insert_eq | rewrite lookup_insert_ne by done ];
    done.
Qed.

(** X1 on a response with two candidates, after [on_llm_start]. *)
Lemma on_llm_end_completes_witness :
  let E := Sample.three_recipes in
  let s := final (on_llm_start E 0%nat VNone [] ∅ Sample.start) in
  let o := on_llm_end E 0%nat Sample.two_candidates ∅ s in
  let md := metadata (heap (final o) !!! 0%nat) in
  value_of o = Ok tt /\
  ticks (final o) = 2%nat /\
  md !! "usage" = Some (VDict (usage_dict 2 4 6)) /\
  md !! "end_time" = Some (VFloat 10.75%float) /\
  md !! "duration" = Some (VFloat (10.75 - 10.5)%float) /\
  md !! "model" = Some (VStr EmptyString).
Proof.
  apply (on_llm_end_completes Sample.three_recipes 0%nat
           Sample.two_candidates ∅
           (final (on_llm_start Sample.three_recipes 0%nat VNone [] ∅
                     Sample.start)) 10.5%float).
  - reflexivity.
  - apply List.Forall_cons; [|apply List.Forall_nil].
    right. eexists _, _. split; [reflexivity|]. by eexists.
Defined.

(** X2.  A response without usage information.  When no candidate of the
    response carries usage information (in particular when the response has
    no generation at all), [on_llm_end] stores a usage of zero tokens. *)
Theorem on_llm_end_without_usage_information E self response kwargs s st :
  metadata (heap s !!! self) !! "start_time" = Some (VFloat st) ->
  Forall (fun gen => informed gen = 0) (generations response) ->
  let o := on_llm_end E self response kwargs s in
  value_of o = Ok tt /\
  metadata (heap (final o) !!! self) !! "usage"
    = Some (VDict (usage_dict 0 0 0)).
Proof.
  intros Hst Hall o.
  assert (Forall countable (generations response)) as Hc
    by (eapply Forall_impl; [exact Hall | by left]).
  pose proof (on_llm_end_after_loop E self response kwargs s
                (foldl add_share (0, 0) (generations response))
                (for_gen_shares _ _ _ Hc)) as Hrun.
  cbv zeta in Hrun. rewrite Hst in Hrun. destruct Hrun as [t Hrun].
  rewrite foldl_add_share_uninformed in Hrun by done.
  subst o. rewrite Hrun. heap_simpl. split; [done|].
  by rewrite lookup_insert_eq.
Qed.

(** X2 on a response with no generation and on one whose only candidate has
    no information. *)
Lemma on_llm_end_without_usage_information_witness :
  let E := Sample.three_recipes in
  let s := final (on_llm_start E 0%nat VNone [] ∅ Sample.start) in
  (value_of (on_llm_end E 0%nat {| generations := [] |} ∅ s) = Ok tt /\
   metadata (heap (final (on_llm_end E 0%nat {| generations := [] |} ∅ s))
               !!! 0%nat) !! "usage" = Some (VDict (usage_dict 0 0 0))) /\
  (let r := {| generations := [[Sample.bare_candidate "one recipe"]] |} in
   value_of (on_llm_end E 0%nat r ∅ s) = Ok tt /\
   metadata (heap (final (on_llm_end E 0%nat r ∅ s)) !!! 0%nat) !! "usage"
     = Some (VDict (usage_dict 0 0 0))).
Proof.
  split.
  - apply (on_llm_end_without_usage_information Sample.three_recipes 0%nat
             {| generations := [] |} ∅ _ 10.5%float);
      [reflexivity | apply List.Forall_nil].
  - apply (on_llm_end_without_usage_information Sample.three_recipes 0%nat
             {| generations := [[Sample.bare_candidate "one recipe"]] |}
             ∅ _ 10.5%float);
      [reflexivity|].
    apply List.Forall_cons; [reflexivity | apply List.Forall_nil].
Defined.

(** X3.  [on_llm_end] without [on_llm_start].  On an extractor that has no
    [start_time], and for a response the counting loops get through (each
    of its prompts has no candidate with usage information, or a first
    candidate with both counters as integers), [on_llm_end] raises
    [KeyError('start_time')]; by then it has read the clock and stored
    [model] and [end_time], and it stores neither [usage] nor [duration].
    For other responses the loops raise first, see X4 and X5. *)
Theorem on_llm_end_without_on_llm_start E self response kwargs s :
  metadata (heap s !!! self) !! "start_time" = None ->
  Forall countable (generations response) ->
  let o := on_llm_end E self response kwargs s in
  let md := metadata (heap s !!! self) in
  let md' := metadata (heap (final o) !!! self) in
  value_of o = Raise (KeyError "start_time") /\
  ticks (final o) = S (ticks s) /\
  md' !! "model" = Some (VStr (model (heap s !!! self))) /\
  md' !! "end_time" = Some (VFloat (clock E (ticks s))) /\
  md' !! "usage" = md !! "usage" /\
  md' !! "duration" = md !! "duration".
Proof.
  intros Hst Hall o md md'.
  pose proof (on_llm_end_after_loop E self response kwargs s
                (foldl add_share (0, 0) (generations response))
                (for_gen_shares _ _ _ Hall)) as Hrun.
  cbv zeta in Hrun. rewrite Hst in Hrun. destruct Hrun as [t Hrun].
  subst md' md o. rewrite Hrun. heap_simpl.
  repeat split;
    repeat first [ rewrite lookup_insert_eq | rewrite lookup_insert_ne by done ];
    done.
Qed.

(** X3 on a newly created extractor, and on two candidates with
    counters. *)
Lemma on_llm_end_without_on_llm_start_witness :
  let E := Sample.three_recipes in
  let s := final (MetadataExtractor_init Sample.start) in
  let o := on_llm_end E 0%nat Sample.two_candidates ∅ s in
  let md' := metadata (heap (final o) !!! 0%nat) in
  value_of o = Raise (KeyError "start_time") /\
  ticks (final o) = 1%nat /\
  md' !! "model" = Some (VStr "qwen3:8b") /\
  md' !! "end_time" = Some (VFloat 10.5%float) /\
  md' !! "usage" = None /\
  md' !! "duration" = None.
Proof.
  apply (on_llm_end_without_on_llm_start Sample.three_recipes 0%nat
           Sample.two_candidates ∅
           (final (MetadataExtractor_init Sample.start))).
  - reflexivity.
  - apply List.Forall_cons; [|apply List.Forall_nil].
    right. eexists _, _. split; [reflexivity|]. by eexists.
Defined.

Lemma for_gen_inner_first_without_info g0 tl rest totals s :
  generation_info g0 = None -> informed rest <> 0 ->
  value_of (for_gen_inner (g0 :: tl) rest totals s) =
    Raise (TypeError "'NoneType' object is not subscriptable").
Proof.
  intros Hg0. revert totals.
  induction rest as [|g rest IH]; intros totals; [done|].
  unfold informed. cbn [for_gen_inner List.filter].
  destruct (truthy (generation_info g)); intros Hn.
  - erewrite bind_raise; [done|].
    unfold bind, item0, ret, subscript. cbn. rewrite Hg0. reflexivity.
  - erewrite bind_ok by reflexivity. by apply IH.
Qed.

Lemma for_gen_first_without_info g0 tl gens s :
  generation_info g0 = None -> informed tl <> 0 ->
  value_of (for_gen ((g0 :: tl) :: gens) (0, 0) s) =
    Raise (TypeError "'NoneType' object is not subscriptable").
Proof.
  intros Hg0 Htl. cbn [for_gen].
  pose proof (for_gen_inner_run (g0 :: tl) (g0 :: tl) (0, 0) s) as Hrun.
  rewrite (for_gen_inner_first_without_info g0 tl (g0 :: tl)) in Hrun;
    [by rewrite (bind_raise _ _ _ _ _ _ Hrun) | done |].
  unfold informed in *. cbn [List.filter]. by rewrite Hg0.
Qed.

(** X4.  A first candidate without usage information.  When the first
    candidate of the first prompt has no usage information and a later
    candidate of that prompt has, [on_llm_end] raises the [TypeError] of
    subscripting [None]; it stores nothing and does not read the clock. *)
Theorem on_llm_end_first_candidate_without_info E self response kwargs s
    g0 tl gens :
  generations response = (g0 :: tl) :: gens ->
  generation_info g0 = None ->
  informed tl <> 0 ->
  let o := on_llm_end E self response kwargs s in
  value_of o = Raise (TypeError "'NoneType' object is not subscriptable") /\
  final o = s.
Proof.
  intros Hgens Hg0 Htl o.
  destruct (on_llm_end_loop_raises E self response kwargs s
              (TypeError "'NoneType' object is not subscriptable"))
    as [t Hrun]; [|by subst o; rewrite Hrun].
  rewrite Hgens. by apply for_gen_first_without_info.
Qed.

(** X4 on a response whose first candidate has no information and whose second
    has counters. *)
Lemma on_llm_end_first_candidate_without_info_witness :
  let o := on_llm_end Sample.three_recipes 0%nat
             Sample.first_without_counters ∅ Sample.start in
  value_of o = Raise (TypeError "'NoneType' object is not subscriptable") /\
  final o = Sample.start.
Proof.
  apply (on_llm_end_first_candidate_without_info Sample.three_recipes 0%nat
           Sample.first_without_counters ∅ Sample.start
           (Sample.bare_candidate "three recipes")
           [Sample.candidate "three recipes" 10 20] []);
    [reflexivity | reflexivity | vm_compute; discriminate].
Defined.

(** X5.  A counter that is missing.  When the first candidate of the first
    prompt carries usage information that lacks [prompt_eval_count], or has
    it as an integer and lacks [eval_count], [on_llm_end] raises the
    [KeyError] of the missing key; it stores nothing and does not read the
    clock. *)
Theorem on_llm_end_missing_counter E self response kwargs s g0 tl gens
    (d : gmap string value) :
  generations response = (g0 :: tl) :: gens ->
  generation_info g0 = Some d ->
  let o := on_llm_end E self response kwargs s in
  (size d <> 0%nat -> d !! "prompt_eval_count" = None ->
   value_of o = Raise (KeyError "prompt_eval_count") /\ final o = s) /\
  (forall p, d !! "prompt_eval_count" = Some (VInt p) ->
     d !! "eval_count" = None ->
     value_of o = Raise (KeyError "eval_count") /\ final o = s).
Proof.
  intros Hgens Hg0 o.
  assert (forall k,
             value_of (for_gen_inner (g0 :: tl) (g0 :: tl) (0, 0) s)
               = Raise (KeyError k) ->
             value_of o = Raise (KeyError k) /\ final o = s) as Hraise.
  { intros k Hk.
    destruct (on_llm_end_loop_raises E self response kwargs s (KeyError k))
      as [t Hrun]; [|by subst o; rewrite Hrun].
    rewrite Hgens. cbn [for_gen].
    pose proof (for_gen_inner_run (g0 :: tl) (g0 :: tl) (0, 0) s) as Hrun.
    rewrite Hk in Hrun. by rewrite (bind_raise _ _ _ _ _ _ Hrun). }
  split.
  - intros Hsize Hp. apply Hraise.
    cbn [for_gen_inner]. rewrite Hg0. cbn [truthy].
    destruct (size d =? 0)%nat eqn:Hz; [by apply Nat.eqb_eq in Hz|].
    cbn [negb]. erewrite bind_raise; [done|].
    unfold bind, item0, ret, subscript. cbn. rewrite ?Hg0, Hp. reflexivity.
  - intros p Hp He. apply Hraise.
    cbn [for_gen_inner]. rewrite Hg0. cbn [truthy].
    destruct (size d =? 0)%nat eqn:Hz.
    { apply Nat.eqb_eq, map_size_empty_iff in Hz. subst d.
      by rewrite lookup_empty in Hp. }
    cbn [negb]. erewrite bind_raise; [done|].
    unfold bind, item0, ret, subscript, add_count. cbn.
    rewrite ?Hg0, Hp. cbn. rewrite ?Hg0, He. reflexivity.
Qed.

(** X5 on two responses, one without [prompt_eval_count] and one without
    [eval_count]. *)
Lemma on_llm_end_missing_counter_witness :
  let no_prompt : Generation :=
    {| text := "three recipes";
       generation_info := Some (<["eval_count" := VInt 20]> ∅) |} in
  let no_eval : Generation :=
    {| text := "three recipes";
       generation_info := Some (<["prompt_eval_count" := VInt 10]> ∅) |} in
  let o1 := on_llm_end Sample.three_recipes 0%nat
              {| generations := [[no_prompt]] |} ∅ Sample.start in
  let o2 := on_llm_end Sample.three_recipes 0%nat
              {| generations := [[no_eval]] |} ∅ Sample.start in
  (value_of o1 = Raise (KeyError "prompt_eval_count") /\
   final o1 = Sample.start) /\
  (value_of o2 = Raise (KeyError "eval_count") /\ final o2 = Sample.start).
Proof.
  intros no_prompt no_eval o1 o2. split.
  - destruct (on_llm_end_missing_counter Sample.three_recipes 0%nat
                {| generations := [[no_prompt]] |} ∅ Sample.start
                no_prompt [] [] (<["eval_count" := VInt 20]> ∅)
                eq_refl eq_refl) as [H _].
    apply H; [vm_compute; discriminate | vm_compute; reflexivity].
  - destruct (on_llm_end_missing_counter Sample.three_recipes 0%nat
                {| generations := [[no_eval]] |} ∅ Sample.start
                no_eval [] [] (<["prompt_eval_count" := VInt 10]> ∅)
                eq_refl eq_refl) as [_ H].
    apply (H 10); vm_compute; reflexivity.
Defined.

(** [on_llm_error] always completes: it stores [str(error)] under [error]. *)
Lemma on_llm_error_run self error kwargs s :
  exists t,
    on_llm_error self error kwargs s =
      (Ok tt,
       {| heap :=
            <[self := set_metadata (heap s !!! self)
                        (<["error" := VStr (exn_str error)]>
                           (metadata (heap s !!! self)))]> (heap s);
          next_loc := next_loc s; ticks := ticks s |}, t).
Proof.
  eexists. unfold on_llm_error. repeat run_step.
  unfold setitem. repeat heap_simpl. reflexivity.
Qed.

(** X6.  A failed call on a used extractor.  After [on_llm_start] and
    [on_llm_error], the extractor holds the new [start_time] and the error
    text, and still holds whatever [usage], [duration], [end_time] and
    [model] an earlier call left: a failure does not clear the results of
    the call before it. *)
Theorem failed_call_keeps_earlier_results E self ser prompts kwargs err s :
  let s1 := final (on_llm_start E self ser prompts kwargs s) in
  let s2 := final (on_llm_error self err kwargs s1) in
  let md := metadata (heap s !!! self) in
  let md2 := metadata (heap s2 !!! self) in
  md2 !! "start_time" = Some (VFloat (clock E (ticks s))) /\
  md2 !! "error" = Some (VStr (exn_str err)) /\
  md2 !! "usage" = md !! "usage" /\
  md2 !! "duration" = md !! "duration" /\
  md2 !! "end_time" = md !! "end_time" /\
  md2 !! "model" = md !! "model".
Proof.
  intros s1 s2 md md2. subst md2 s2 s1 md.
  destruct (on_llm_start_run E self ser prompts kwargs s) as (t & -> & _).
  cbn [final fst snd].
  match goal with
  | |- context [on_llm_error self err kwargs ?s1] =>
      destruct (on_llm_error_run self err kwargs s1) as (t' & ->)
  end.
  repeat heap_simpl.
  repeat split;
    repeat first [ rewrite lookup_insert_eq | rewrite lookup_insert_ne by done ];
    done.
Qed.

(** X7.  A successful call on a used extractor.  After [on_llm_start] and a
    completed [on_llm_end], the extractor still holds the [error] an
    earlier call left: a success does not clear an earlier error. *)
Theorem successful_call_keeps_earlier_error E self ser prompts kwargs
    response s s2 t :
  let s1 := final (on_llm_start E self ser prompts kwargs s) in
  on_llm_end E self response kwargs s1 = (Ok tt, s2, t) ->
  metadata (heap s2 !!! self) !! "error"
    = metadata (heap s !!! self) !! "error".
Proof.
  intros s1 Hend.
  apply on_llm_end_completed in Hend
    as (input & output & start & _ & _ & _ & ->).
  subst s1.
  destruct (on_llm_start_run E self ser prompts kwargs s) as (t' & -> & _).
  repeat heap_simpl. by rewrite !lookup_insert_ne.
Qed.

(** X7 on an extractor that recorded a refused connection before a call that
    succeeds. *)
Lemma successful_call_keeps_earlier_error_witness :
  let E := Sample.three_recipes in
  let failed := final (on_llm_error 0%nat (EndpointError "connection refused")
                         ∅ Sample.start) in
  let s1 := final (on_llm_start E 0%nat VNone [] ∅ failed) in
  let o := on_llm_end E 0%nat Sample.two_candidates ∅ s1 in
  value_of o = Ok tt /\
  metadata (heap (final o) !!! 0%nat) !! "error"
    = Some (VStr "connection refused").
Proof.
  intros E failed s1 o. split; [vm_compute; reflexivity|].
  rewrite (successful_call_keeps_earlier_error E 0%nat VNone [] ∅
             Sample.two_candidates failed (final o) (emitted o)).
  - reflexivity.
  - vm_compute. reflexivity.
Defined.



(* ===================================================================== *)
(** * What a call leaves alone *)
(* ===================================================================== *)

Section Frame.
Variable ls : list loc.

Lemma only_touches_refl s : only_touches ls s s.
Proof. split; [reflexivity|]. split; [reflexivity | reflexivity]. Qed.

Lemma only_touches_trans s1 s2 s3 :
  only_touches ls s1 s2 -> only_touches ls s2 s3 -> only_touches ls s1 s3.
Proof.
  intros (Hn1 & Ht1 & Hh1) (Hn2 & Ht2 & Hh2).
  split; [congruence|]. split; [lia|].
  intros l Hl. by rewrite Hh2, Hh1.
Qed.

Lemma framed_bind {A B} (m : M A) (k : A -> M B) :
  framed ls m -> (forall a, framed ls (k a)) -> framed ls (bind m k).
Proof.
  apply keeps_bind; [apply only_touches_trans | done].
Qed.

Lemma framed_try_except {A} (m : M A) (h : exn -> M A) :
  framed ls m -> (forall e, framed ls (h e)) -> framed ls (try_except m h).
Proof.
  apply keeps_try_except; [apply only_touches_trans | done].
Qed.

(** A computation that leaves the state as it is. *)
Lemma framed_pure {A} (m : M A) : (forall s, final (m s) = s) -> framed ls m.
Proof. intros H s. rewrite H. split; [apply only_touches_refl | done]. Qed.

Lemma framed_quiet {A} (m : M A) : quiet m -> framed ls m.
Proof. intros H. apply framed_pure. intros s. by destruct (H s) as [<- _]. Qed.

Lemma framed_time_time E : framed ls (time_time E).
Proof.
  intros s. split; [|done].
  split; [reflexivity|]. split; [cbn; lia | reflexivity].
Qed.

Lemma framed_getitem self k : framed ls (getitem self k).
Proof.
  apply framed_pure. intros s. unfold getitem.
  by destruct (metadata (heap s !!! self) !! k).
Qed.

Lemma framed_setitem self k v : self ∈ ls -> framed ls (setitem self k v).
Proof.
  intros Hin s. split; [|done].
  split; [reflexivity|]. split; [reflexivity|]. intros l Hl.
  cbn [final setitem heap fst snd]. apply lookup_insert_ne.
  by intros <-.
Qed.

Create HintDb framed.
#[local] Hint Resolve framed_time_time framed_getitem : framed.
#[local] Hint Extern 1 (keeps _ _ (print _)) =>
  apply framed_pure; reflexivity : framed.
#[local] Hint Extern 1 (keeps _ _ (ret _)) =>
  apply framed_pure; reflexivity : framed.
#[local] Hint Extern 1 (keeps _ _ (getattr_model _)) =>
  apply framed_pure; reflexivity : framed.
#[local] Hint Extern 2 (keeps _ _ (bind _ _)) =>
  apply framed_bind; [|intros ?] : framed.
#[local] Hint Extern 2 (keeps _ _ (setitem _ _ _)) =>
  apply framed_setitem; assumption : framed.

Lemma framed_py_sub a b : framed ls (py_sub a b).
Proof.
  apply framed_pure. intros s. unfold py_sub.
  destruct a, b; reflexivity.
Qed.

Lemma framed_on_llm_start E self ser prompts kwargs :
  self ∈ ls -> framed ls (on_llm_start E self ser prompts kwargs).
Proof. intros Hin. unfold on_llm_start. auto 20 with framed. Qed.

Lemma framed_on_llm_end E self response kwargs :
  self ∈ ls -> framed ls (on_llm_end E self response kwargs).
Proof.
  intros Hin. unfold on_llm_end.
  apply framed_bind; [auto with framed | intros _].
  apply framed_bind; [apply framed_quiet, quiet_for_gen | intros totals].
  apply framed_bind; [auto with framed | intros m].
  apply framed_bind; [auto with framed | intros _].
  apply framed_bind; [auto with framed | intros now].
  apply framed_bind; [auto with framed | intros _].
  apply framed_bind; [auto with framed | intros end_time].
  apply framed_bind; [auto with framed | intros start_time].
  apply framed_bind; [apply framed_py_sub | intros duration].
  auto with framed.
Qed.

Lemma framed_on_llm_error self error kwargs :
  self ∈ ls -> framed ls (on_llm_error self error kwargs).
Proof. intros Hin. unfold on_llm_error. auto 20 with framed. Qed.

Lemma framed_for_callbacks callbacks (hook : loc -> M unit) :
  (forall cb, cb ∈ callbacks -> framed ls (hook cb)) ->
  framed ls (for_callbacks callbacks hook).
Proof.
  induction callbacks as [|cb callbacks IH]; intros Hhook;
    cbn [for_callbacks].
  - by apply framed_pure.
  - apply framed_bind; [|intros _; apply IH].
    + apply framed_try_except; [apply Hhook, list_elem_of_here|].
      intros e. by apply framed_pure.
    + intros cb' Hcb'. by apply Hhook, list_elem_of_further.
Qed.

End Frame.

Lemma framed_chain_invoke E self ingredients_str instructions :
  framed (llm_callbacks self)
    (chain_invoke E self ingredients_str instructions).
Proof.
  unfold chain_invoke. cbv zeta.
  apply framed_bind; [|intros _].
  { apply framed_for_callbacks. intros cb Hcb. by apply framed_on_llm_start. }
  apply framed_bind; [by apply framed_pure | intros _].
  destruct (endpoint E _) as [response|msg].
  - apply framed_bind; [|intros _].
    { apply framed_for_callbacks. intros cb Hcb. by apply framed_on_llm_end. }
    apply framed_pure. intros s. by rewrite parse_reply_run.
  - apply framed_bind; [|intros _; by apply framed_pure].
    apply framed_for_callbacks. intros cb Hcb. by apply framed_on_llm_error.
Qed.

Lemma framed_generate E R self run_id ingredients me :
  framed (llm_callbacks self)
    (generate_structured_recipes E R self run_id ingredients me).
Proof.
  unfold generate_structured_recipes. cbv zeta.
  apply framed_bind; [apply framed_time_time | intros _].
  apply framed_bind; [apply framed_chain_invoke | intros rc].
  apply framed_bind; [apply framed_time_time | intros _].
  apply framed_bind; [|intros _; by apply framed_pure].
  apply framed_pure. intros s.
  by destruct (log_llm_exchange_run R run_id
                 (full_prompt (join ", " ingredients)
                    (format_instructions (lib E))) rc me s) as (t & -> & _).
Qed.

(** X8.  What a call of [generate_structured_recipes] leaves alone.  It
    creates no extractor, and an extractor that is not among the callbacks
    of the generator's model is after the call as it was before, whether the
    call returns or raises: in particular a generator built without an
    extractor changes none, also not the one handed to the call for
    logging. *)
Theorem generate_changes_only_the_callbacks E R self run_id ingredients
    me s l :
  l ∉ llm_callbacks self ->
  let o := generate_structured_recipes E R self run_id ingredients me s in
  heap (final o) !! l = heap s !! l /\
  next_loc (final o) = next_loc s.
Proof.
  intros Hl o.
  destruct (framed_generate E R self run_id ingredients me s)
    as [(Hn & _ & Hh) _].
  split; [by apply Hh | done].
Qed.

(** X8 on a generator built without an extractor, the extractor being handed
    to the call. *)
Lemma generate_changes_only_the_callbacks_witness :
  let E := Sample.three_recipes in
  let s0 := final (MetadataExtractor_init Sample.start) in
  let self := StructuredRecipeGenerator_init None None in
  let o := generate_structured_recipes E Sample.collector_up self
             "recipe-gen-0a1b2c3d" ["rice"] (Some 0%nat) s0 in
  heap (final o) !! 0%nat = heap s0 !! 0%nat /\
  next_loc (final o) = next_loc s0.
Proof.
  apply (generate_changes_only_the_callbacks Sample.three_recipes
           Sample.collector_up (StructuredRecipeGenerator_init None None)
           "recipe-gen-0a1b2c3d" ["rice"] (Some 0%nat)
           (final (MetadataExtractor_init Sample.start)) 0%nat).
  cbn. apply not_elem_of_nil.
Defined.

(* ===================================================================== *)
(** * From the model's response to the collector *)
(* ===================================================================== *)

(** With one callback registered, the hook runs once, and the state it
    leaves stays whether it returned or raised. *)
Lemma for_callbacks_one l (hook : loc -> M unit) s :
  exists t, for_callbacks [l] hook s = (Ok tt, final (hook l s), t).
Proof.
  cbn [for_callbacks]. unfold bind, try_except, ret.
  destruct (hook l s) as [[[[]|e] s1] t1]; by eexists.
Qed.

Lemma chain_invoke_final E self i instructions l s :
  llm_callbacks self = [l] ->
  let p := render i instructions in
  let s1 := final (on_llm_start E l (serialized E) [prompt_string p]
                     (callback_kwargs E) s) in
  final (chain_invoke E self i instructions s) =
    match endpoint E p with
    | Reply response =>
        final (on_llm_end E l response (callback_kwargs E) s1)
    | Failure msg =>
        final (on_llm_error l (EndpointError msg) (callback_kwargs E) s1)
    end.
Proof.
  intros Hcb p s1. unfold chain_invoke. cbv zeta. fold p. rewrite Hcb.
  destruct (for_callbacks_one l
              (fun cb => on_llm_start E cb (serialized E) [prompt_string p]
                           (callback_kwargs E)) s) as [t1 H1].
  rewrite (bind_ok _ _ _ _ _ _ H1). run_step. fold s1.
  destruct (endpoint E p) as [response|msg].
  - destruct (for_callbacks_one l
                (fun cb => on_llm_end E cb response (callback_kwargs E)) s1)
      as [t2 H2].
    rewrite (bind_ok _ _ _ _ _ _ H2), parse_reply_run. reflexivity.
  - destruct (for_callbacks_one l
                (fun cb => on_llm_error cb (EndpointError msg)
                             (callback_kwargs E)) s1) as [t2 H2].
    rewrite (bind_ok _ _ _ _ _ _ H2). reflexivity.
Qed.

(** The state [generate_structured_recipes] ends in is that of the chain,
    one clock reading later when the chain returned. *)
Lemma generate_final E R self run_id ingredients me s :
  let i := join ", " ingredients in
  let s1 := final (chain_invoke E self i (format_instructions (lib E))
                     (tick s)) in
  final (generate_structured_recipes E R self run_id ingredients me s) =
    match chain_outcome E i with
    | Ok _ => tick s1
    | Raise _ => s1
    end.
Proof.
  intros i s1. unfold generate_structured_recipes. cbv zeta. fold i.
  run_step. change (final (time_time E s)) with (tick s).
  destruct (chain_invoke_run E self i (tick s)) as (s2 & t2 & Hch & _).
  subst s1. rewrite Hch.
  destruct (chain_outcome E i) as [rc|e].
  - rewrite (bind_ok _ _ _ _ _ _ Hch). run_step.
    match goal with
    | |- context [bind (log_llm_exchange R run_id ?q rc me) _ ?s3] =>
        destruct (log_llm_exchange_run R run_id q rc me s3) as (t3 & Hex & _)
    end.
    rewrite (bind_ok _ _ _ _ _ _ Hex). reflexivity.
  - by rewrite (bind_raise _ _ _ _ _ _ Hch).
Qed.

Lemma usage_of_usage_dict md a b c :
  md !! "usage" = Some (VDict (usage_dict a b c)) ->
  usage_of md "input_tokens" = VInt a /\
  usage_of md "output_tokens" = VInt b /\
  usage_of md "total_tokens" = VInt c.
Proof. intros H. unfold usage_of. rewrite H. by vm_compute. Qed.

(** A call whose extractor is the callback of the model, on a response the
    counting loops get through. *)
Lemma generate_counted E R self run_id ingredients l s response rc :
  let i := join ", " ingredients in
  let c := prompt_logged run_id
             (full_prompt i (format_instructions (lib E))) in
  let totals := foldl add_share (0, 0) (generations response) in
  llm_callbacks self = [l] ->
  endpoint E (render i (format_instructions (lib E))) = Reply response ->
  Forall countable (generations response) ->
  reply_outcome E response = Ok rc ->
  R c = None ->
  let o := generate_structured_recipes E R self run_id ingredients
             (Some l) s in
  value_of o = Ok rc /\
  attempts (emitted o) =
    [c; log_llm_response run_id rc 1 1 (VInt (fst totals))
          (VInt (snd totals)) (VInt (fst totals + snd totals))] /\
  metadata (heap (final o) !!! l) !! "usage" =
    Some (VDict (usage_dict (fst totals) (snd totals)
                   (fst totals + snd totals))) /\
  ticks (final o) = (4 + ticks s)%nat /\
  metadata (heap (final o) !!! l) !! "model" =
    Some (VStr (model (heap s !!! l))).
Proof.
  intros i c totals Hcb Hep Hall Hrc HR o.
  assert (chain_outcome E i = Ok rc) as Hout
    by (unfold chain_outcome; by rewrite Hep).
  pose proof (generate_final E R self run_id ingredients (Some l) s) as Hfin.
  cbv zeta in Hfin. fold i in Hfin. rewrite Hout in Hfin.
  rewrite (chain_invoke_final E self i _ l (tick s) Hcb) in Hfin.
  rewrite Hep in Hfin.
  destruct (on_llm_start_then_end E l (serialized E)
              [prompt_string (render i (format_instructions (lib E)))]
              (callback_kwargs E) response (callback_kwargs E) (tick s) Hall)
    as (_ & Hticks & Hu & Hmodel).
  destruct (generate_run E R self run_id ingredients (Some l) s)
    as (s' & t' & Hrun & _ & _ & _ & Hcase).
  fold i in Hrun, Hcase. rewrite Hout in Hrun, Hcase.
  destruct Hcase as (_ & Hsome & _).
  subst o. rewrite Hrun in Hfin |- *.
  cbn [value_of final emitted fst snd] in *.
  split; [done|].
  assert (metadata (heap s' !!! l) !! "usage" =
            Some (VDict (usage_dict (fst totals) (snd totals)
                           (fst totals + snd totals)))) as Hu'
    by (subst s'; exact Hu).
  split; [|split; [exact Hu'|]].
  - rewrite attempts_key, (Hsome l eq_refl).
    + fold c. rewrite HR. unfold response_logged.
      destruct (usage_of_usage_dict _ _ _ _ Hu') as (-> & -> & ->).
      reflexivity.
    + unfold usage_wf. by rewrite Hu'.
  - subst s'. cbn [tick ticks heap]. rewrite Hticks. by split.
Qed.

(** X9.  The token counts that reach the collector.  When the extractor
    handed to [generate_structured_recipes] is the callback of the
    generator's model, the model answers with a response the counting loops
    get through, the reply parses and the prompt call returns, the response
    is logged with the totals [on_llm_end] stored during this call, whatever
    the extractor held before. *)
Theorem counted_tokens_reach_the_collector E R self run_id ingredients l s
    response rc :
  let i := join ", " ingredients in
  let c := prompt_logged run_id
             (full_prompt i (format_instructions (lib E))) in
  let totals := foldl add_share (0, 0) (generations response) in
  llm_callbacks self = [l] ->
  endpoint E (render i (format_instructions (lib E))) = Reply response ->
  Forall countable (generations response) ->
  reply_outcome E response = Ok rc ->
  R c = None ->
  let o := generate_structured_recipes E R self run_id ingredients
             (Some l) s in
  value_of o = Ok rc /\
  attempts (emitted o) =
    [c; log_llm_response run_id rc 1 1 (VInt (fst totals))
          (VInt (snd totals)) (VInt (fst totals + snd totals))].
Proof.
  intros i c totals Hcb Hep Hall Hrc HR o.
  destruct (generate_counted E R self run_id ingredients l s response rc
              Hcb Hep Hall Hrc HR) as (Hv & Ha & _).
  by split.
Qed.

(** X9 on the scenario of three recipes with usage 120 and 340. *)
Lemma counted_tokens_reach_the_collector_witness :
  let E := Sample.three_recipes in
  let s := final (MetadataExtractor_init Sample.start) in
  let o := generate_structured_recipes E Sample.collector_up
             (StructuredRecipeGenerator_init None (Some 0%nat))
             "recipe-gen-0a1b2c3d" ["chicken"; "rice"] (Some 0%nat) s in
  let c := prompt_logged "recipe-gen-0a1b2c3d"
             (full_prompt (join ", " ["chicken"; "rice"])
                (format_instructions (lib E))) in
  exists rc,
    length (recipes rc) = 3%nat /\
    value_of o = Ok rc /\
    attempts (emitted o) =
      [c; log_llm_response "recipe-gen-0a1b2c3d" rc 1 1
            (VInt 120) (VInt 340) (VInt 460)].
Proof.
  intros E s o c.
  set (response := {| generations :=
                        [[Sample.candidate "three recipes" 120 340]] |}).
  destruct (reply_outcome E response) as [rc|e] eqn:Hout;
    [|discriminate Hout].
  exists rc. split; [by injection Hout as <-|].
  apply (counted_tokens_reach_the_collector E Sample.collector_up
           (StructuredRecipeGenerator_init None (Some 0%nat))
           "recipe-gen-0a1b2c3d" ["chicken"; "rice"] 0%nat s response rc);
    [reflexivity | reflexivity | | exact Hout | reflexivity].
  apply List.Forall_cons; [|apply List.Forall_nil].
  right. eexists _, _. split; [reflexivity|]. by eexists.
Defined.

Lemma response_logged_usage run_id rc (md md' : gmap string value) :
  md !! "usage" = md' !! "usage" ->
  response_logged run_id rc md = response_logged run_id rc md'.
Proof. intros H. unfold response_logged, usage_of. by rewrite H. Qed.

(** X10.  An exception inside [on_llm_end].  When the extractor is the
    callback of the generator's model, its usage before the call is absent
    or a dictionary, the response has a first candidate without usage
    information before one that has it, and the reply parses, the
    [TypeError] of [on_llm_end] stays inside the chain: the call returns the
    parsed collection and the usage of the extractor is what it was before
    the call.  When the call that logs the prompt returns, the response is
    logged with that earlier usage ([None] for the three counts when there
    was none); when it raises, no response is logged. *)
Theorem failed_callback_loses_the_usage E R self run_id ingredients l s
    response g0 tl gens rc :
  let i := join ", " ingredients in
  let c := prompt_logged run_id
             (full_prompt i (format_instructions (lib E))) in
  llm_callbacks self = [l] ->
  endpoint E (render i (format_instructions (lib E))) = Reply response ->
  generations response = (g0 :: tl) :: gens ->
  generation_info g0 = None ->
  informed tl <> 0 ->
  reply_outcome E response = Ok rc ->
  usage_wf (heap s !!! l) ->
  let o := generate_structured_recipes E R self run_id ingredients
             (Some l) s in
  value_of o = Ok rc /\
  metadata (heap (final o) !!! l) !! "usage"
    = metadata (heap s !!! l) !! "usage" /\
  attempts (emitted o) =
    c :: match R c with
         | None => [response_logged run_id rc (metadata (heap s !!! l))]
         | Some _ => []
         end.
Proof.
  intros i c Hcb Hep Hgens Hg0 Htl Hrc Hwf o.
  assert (chain_outcome E i = Ok rc) as Hout
    by (unfold chain_outcome; by rewrite Hep).
  pose proof (generate_final E R self run_id ingredients (Some l) s) as Hfin.
  cbv zeta in Hfin. fold i in Hfin. rewrite Hout in Hfin.
  rewrite (chain_invoke_final E self i _ l (tick s) Hcb) in Hfin.
  rewrite Hep in Hfin.
  match type of Hfin with
  | _ = tick (final (on_llm_end E l response ?kw ?s1)) =>
      destruct (on_llm_end_loop_raises E l response kw s1
                  (TypeError "'NoneType' object is not subscriptable"))
        as [t Hend];
      [rewrite Hgens; by apply for_gen_first_without_info|]
  end.
  rewrite Hend in Hfin. cbn [final fst snd] in Hfin.
  destruct (on_llm_start_run E l (serialized E)
              [prompt_string (render i (format_instructions (lib E)))]
              (callback_kwargs E) (tick s)) as (t1 & Hstart & _).
  rewrite Hstart in Hfin. cbn [final fst snd] in Hfin.
  destruct (generate_run E R self run_id ingredients (Some l) s)
    as (s' & t' & Hrun & _ & _ & _ & Hcase).
  fold i in Hrun, Hcase. rewrite Hout in Hrun, Hcase.
  destruct Hcase as (_ & Hsome & _).
  subst o. rewrite Hrun in Hfin |- *.
  cbn [value_of final emitted fst snd] in *.
  assert (metadata (heap s' !!! l) !! "usage" =
            metadata (heap s !!! l) !! "usage") as Hu.
  { subst s'. unfold tick. repeat heap_simpl.
    by rewrite !lookup_insert_ne. }
  split; [done|]. split; [done|].
  rewrite attempts_key, (Hsome l eq_refl).
  - fold c. rewrite (response_logged_usage _ _ _ _ Hu).
    by destruct (R c).
  - unfold usage_wf in *. by rewrite Hu.
Qed.

(** X10 on a newly created extractor, with the collector up and with the
    collector down. *)
Lemma failed_callback_loses_the_usage_witness :
  let E := Sample.answering "0a1b2c3d" Sample.first_without_counters in
  let s := final (MetadataExtractor_init Sample.start) in
  let run R := generate_structured_recipes E R
                 (StructuredRecipeGenerator_init None (Some 0%nat))
                 "recipe-gen-0a1b2c3d" ["chicken"; "rice"] (Some 0%nat) s in
  let c := prompt_logged "recipe-gen-0a1b2c3d"
             (full_prompt (join ", " ["chicken"; "rice"])
                (format_instructions (lib E))) in
  exists rc,
    length (recipes rc) = 3%nat /\
    (value_of (run Sample.collector_up) = Ok rc /\
     metadata (heap (final (run Sample.collector_up)) !!! 0%nat) !! "usage"
       = None /\
     attempts (emitted (run Sample.collector_up)) =
       [c; log_llm_response "recipe-gen-0a1b2c3d" rc 1 1
             VNone VNone VNone]) /\
    (value_of (run Sample.collector_down) = Ok rc /\
     metadata (heap (final (run Sample.collector_down)) !!! 0%nat) !! "usage"
       = None /\
     attempts (emitted (run Sample.collector_down)) = [c]).
Proof.
  intros E s run c.
  destruct (reply_outcome E Sample.first_without_counters) as [rc|e] eqn:Hout;
    [|discriminate Hout].
  exists rc. split; [by injection Hout as <-|].
  split.
  - apply (failed_callback_loses_the_usage E Sample.collector_up
             (StructuredRecipeGenerator_init None (Some 0%nat))
             "recipe-gen-0a1b2c3d" ["chicken"; "rice"] 0%nat s
             Sample.first_without_counters
             (Sample.bare_candidate "three recipes")
             [Sample.candidate "three recipes" 10 20] [] rc);
      [reflexivity | reflexivity | reflexivity | reflexivity
      | vm_compute; discriminate | exact Hout | vm_compute; exact I].
  - apply (failed_callback_loses_the_usage E Sample.collector_down
             (StructuredRecipeGenerator_init None (Some 0%nat))
             "recipe-gen-0a1b2c3d" ["chicken"; "rice"] 0%nat s
             Sample.first_without_counters
             (Sample.bare_candidate "three recipes")
             [Sample.candidate "three recipes" 10 20] [] rc);
      [reflexivity | reflexivity | reflexivity | reflexivity
      | vm_compute; discriminate | exact Hout | vm_compute; exact I].
Defined.

(** X11.  A request that fails.  When the extractor is the callback of the
    generator's model and the request to the model fails,
    [generate_structured_recipes] raises the error of the request and
    attempts no telemetry call at all; the extractor holds the text of the
    error, and the usage it held before. *)
Theorem failed_request_is_recorded_and_not_logged E R self run_id
    ingredients me l s msg :
  let i := join ", " ingredients in
  llm_callbacks self = [l] ->
  endpoint E (render i (format_instructions (lib E))) = Failure msg ->
  let o := generate_structured_recipes E R self run_id ingredients me s in
  let md := metadata (heap s !!! l) in
  let md' := metadata (heap (final o) !!! l) in
  value_of o = Raise (EndpointError msg) /\
  attempts (emitted o) = [] /\
  md' !! "error" = Some (VStr msg) /\
  md' !! "usage" = md !! "usage".
Proof.
  intros i Hcb Hep o md md'.
  assert (chain_outcome E i = Raise (EndpointError msg)) as Hout
    by (unfold chain_outcome; by rewrite Hep).
  pose proof (generate_final E R self run_id ingredients me s) as Hfin.
  cbv zeta in Hfin. fold i in Hfin. rewrite Hout in Hfin.
  rewrite (chain_invoke_final E self i _ l (tick s) Hcb) in Hfin.
  rewrite Hep in Hfin.
  destruct (on_llm_start_run E l (serialized E)
              [prompt_string (render i (format_instructions (lib E)))]
              (callback_kwargs E) (tick s)) as (t1 & Hstart & _).
  rewrite Hstart in Hfin. cbn [final fst snd] in Hfin.
  match type of Hfin with
  | _ = final (on_llm_error l ?e ?kw ?s1) =>
      destruct (on_llm_error_run l e kw s1) as [t2 Herr]
  end.
  rewrite Herr in Hfin. cbn [final fst snd] in Hfin.
  destruct (generate_run E R self run_id ingredients me s)
    as (s' & t' & Hrun & _ & _ & _ & Hcase).
  fold i in Hrun, Hcase. rewrite Hout in Hrun, Hcase.
  subst md' md o. rewrite Hrun in Hfin |- *.
  cbn [value_of final emitted fst snd] in *.
  split; [done|]. split; [by rewrite attempts_key, Hcase|].
  subst s'. unfold tick. repeat heap_simpl.
  split; [apply lookup_insert_eq | by rewrite !lookup_insert_ne].
Qed.

(** X11 on the endpoint that cannot be reached. *)
Lemma failed_request_is_recorded_and_not_logged_witness :
  let E := Sample.unreachable in
  let s := final (MetadataExtractor_init Sample.start) in
  let o := generate_structured_recipes E Sample.collector_up
             (StructuredRecipeGenerator_init None (Some 0%nat))
             "recipe-gen-0a1b2c3d" ["chicken"; "rice"] (Some 0%nat) s in
  value_of o = Raise (EndpointError "connection refused") /\
  attempts (emitted o) = [] /\
  metadata (heap (final o) !!! 0%nat) !! "error"
    = Some (VStr "connection refused") /\
  metadata (heap (final o) !!! 0%nat) !! "usage" = None.
Proof.
  apply (failed_request_is_recorded_and_not_logged Sample.unreachable
           Sample.collector_up
           (StructuredRecipeGenerator_init None (Some 0%nat))
           "recipe-gen-0a1b2c3d" ["chicken"; "rice"] (Some 0%nat) 0%nat
           (final (MetadataExtractor_init Sample.start))
           "connection refused");
    reflexivity.
Defined.

(* ===================================================================== *)
(** * [main], step by step *)
(* ===================================================================== *)

Lemma attempts_app t1 t2 : attempts (t1 ++ t2) = attempts t1 ++ attempts t2.
Proof. apply omap_app. Qed.

Lemma file_writes_app t1 t2 :
  file_writes (t1 ++ t2) = file_writes t1 ++ file_writes t2.
Proof. apply omap_app. Qed.

Lemma attempts_no_key t : no_key t -> attempts t = [].
Proof. intros H. by rewrite attempts_key, H. Qed.

Lemma file_writes_no_key t : no_key t -> file_writes t = [].
Proof. intros H. by rewrite file_writes_key, H. Qed.

(** The body of the outer [try] of [main] in terms of the call of
    [generate_structured_recipes] it makes. *)
Lemma main_try_detail E R s :
  let run_id := run_id_of E in
  let g := main_generate E R s in
  let md := metadata (heap (final g) !!! next_loc s) in
  let logged := session_started run_id :: attempts (emitted g) in
  exists r s' t,
    main_try E R run_id s = (r, s', t) /\
    heap s' = heap (final g) /\
    match value_of g with
    | Raise e => r = Raise e /\ attempts t = logged /\ file_writes t = []
    | Ok rc =>
        match int_of_float ((clock E (ticks (final g)) - clock E (ticks s))
                            * 1000) with
        | Raise e => r = Raise e /\ attempts t = logged /\ file_writes t = []
        | Ok elapsed =>
            match write_file E "generated_recipes.json" with
            | Some msg =>
                r = Raise (OSError msg) /\ attempts t = logged /\
                file_writes t = []
            | None =>
                r = Ok tt /\
                attempts t =
                  logged ++ [session_succeeded run_id rc elapsed md] /\
                file_writes t = [("generated_recipes.json", rc, 2)]
            end
        end
    end.
Proof.
  intros run_id g md logged. subst run_id.
  destruct (main_try E R (run_id_of E) s) as [[r s'] t] eqn:Hrun.
  exists r, s', t. split; [done|].
  unfold main_try in Hrun. cbv zeta in Hrun.
  destruct (session_start_run R (run_id_of E) s) as (t0 & Hstart & Hk0).
  step_by Hrun Hstart.
  do 7 step_in Hrun.
  assert (attempts t0 = [session_started (run_id_of E)]) as Ha0
    by (by rewrite attempts_key, Hk0).
  assert (file_writes t0 = []) as Hf0 by (by rewrite file_writes_key, Hk0).
  destruct (generate_run E R
              (StructuredRecipeGenerator_init None (Some (next_loc s)))
              (run_id_of E)
              (Config.default_ingredients
                 (Config.recipes Config.default_config))
              (Some (next_loc s)) (tick (final (MetadataExtractor_init s))))
    as (s2 & t2 & Hgen & _ & _ & Hfw2 & _).
  subst md logged g. unfold main_generate. rewrite Hgen.
  cbn [value_of final emitted fst snd].
  destruct (chain_outcome E _) as [rc|e].
  2:{ destruct (bind_stop _ _ _ _ _ _ _ _ _ Hgen Hrun) as (-> & -> & ->).
      rewrite !attempts_app, !file_writes_app, Ha0, Hf0, Hfw2.
      by repeat split. }
  step_by Hrun Hgen. step_in Hrun.
  cbn [heap next_loc ticks] in Hrun.
  match type of Hrun with
  | context [int_of_float ?x] => destruct (int_of_float x) as [elapsed|e]
  end.
  2:{ apply (bind_stop _ _ _ _ _ _ _ _ _ eq_refl) in Hrun
        as (-> & -> & ->).
      rewrite !attempts_app, !file_writes_app, Ha0, Hf0, Hfw2.
      cbn. rewrite !app_nil_r. by repeat split. }
  do 3 step_in Hrun.
  destruct (print_recipes_run 1 (recipes rc)
              {| heap := heap s2; next_loc := next_loc s2;
                 ticks := S (ticks s2) |}) as (t5 & Hpr & Hq5).
  step_by Hrun Hpr.
  unfold dump_to_file in Hrun.
  destruct (write_file E "generated_recipes.json") as [msg|] eqn:Hfs.
  { apply (bind_stop _ _ _ _ _ _ _ _ _ eq_refl) in Hrun
      as (-> & -> & ->).
    rewrite !attempts_app, !file_writes_app, Ha0, Hf0, Hfw2,
      (attempts_no_key _ Hq5), (file_writes_no_key _ Hq5).
    cbn. rewrite !app_nil_r. by repeat split. }
  do 2 step_in Hrun.
  match type of Hrun with
  | try_except _ _ ?s3 = _ =>
      destruct (session_end_run R (run_id_of E)
                  ("Generated " +:+ pretty (length (recipes rc)) +:+
                   " recipes successfully") elapsed (next_loc s) s3)
        as (t6 & Hend & Hk6)
  end.
  rewrite Hend in Hrun. injection Hrun as <- <- <-.
  assert (attempts t6 =
            [session_succeeded (run_id_of E) rc elapsed
               (metadata (heap s2 !!! next_loc s))]) as Ha6
    by (by rewrite attempts_key, Hk6).
  assert (file_writes t6 = []) as Hf6 by (by rewrite file_writes_key, Hk6).
  rewrite !attempts_app, !file_writes_app, Ha0, Hf0, Hfw2, Ha6, Hf6,
    (attempts_no_key _ Hq5), (file_writes_no_key _ Hq5).
  cbn. rewrite ?app_nil_r. by repeat split.
Qed.

(** [main] around its [try] body: it returns, and reports the exception of
    the body as a failed session. *)
Lemma main_of_try E R s r s1 t1 :
  main_try E R (run_id_of E) s = (r, s1, t1) ->
  exists t,
    main E R s = (Ok tt, s1, t) /\
    attempts t =
      attempts t1 ++ match r with
                     | Ok _ => []
                     | Raise e => [session_failed (run_id_of E) e]
                     end /\
    file_writes t = file_writes t1 /\
    (forall e, r = Raise e -> Print (VStr ("Error: " +:+ exn_str e)) ∈ t).
Proof.
  intros Hrun.
  destruct (main E R s) as [[r' s'] t] eqn:Hmain.
  unfold main in Hmain. cbv zeta in Hmain. do 2 step_in Hmain.
  fold (run_id_of E) in Hmain.
  destruct r as [[]|e].
  - rewrite (try_ok _ _ _ _ _ _ Hrun) in Hmain. injection Hmain as <- <- <-.
    eexists. split; [reflexivity|].
    rewrite !attempts_app, !file_writes_app. cbn. rewrite app_nil_r.
    by repeat split.
  - destruct (main_except_run R (run_id_of E) e s1) as (t2 & Hex & Hk2 & Hpr).
    rewrite (try_raise _ _ _ _ _ _ Hrun), Hex in Hmain.
    cbn [value_of final emitted fst snd] in Hmain.
    injection Hmain as <- <- <-.
    eexists. split; [reflexivity|].
    rewrite !attempts_app, !file_writes_app.
    rewrite (attempts_key t2), (file_writes_key t2), Hk2. cbn.
    rewrite app_nil_r. repeat split.
    intros e' [= <-]. do 2 apply list_elem_of_further.
    apply elem_of_app. by right.
Qed.

(** X12.  A run of [main] from the response to the collector.  When the model
    answers the prompt of [main] with a response the counting loops get
    through, the reply parses, the prompt call returns, the elapsed time is
    a number and the file can be written, [main] attempts exactly four
    telemetry calls: the session start, the prompt, the response with the
    totals [on_llm_end] counted, and a session end that carries the
    milliseconds between the first and the sixth clock reading of the run
    and, as context, the metadata of the extractor with the same totals. *)
Theorem main_reports_the_counted_tokens E R s response rc elapsed :
  let totals := foldl add_share (0, 0) (generations response) in
  endpoint E (main_prompt E) = Reply response ->
  Forall countable (generations response) ->
  reply_outcome E response = Ok rc ->
  R (main_prompt_logged E) = None ->
  int_of_float ((clock E (5 + ticks s) - clock E (ticks s)) * 1000) =
    Ok elapsed ->
  write_file E "generated_recipes.json" = None ->
  let o := main E R s in
  exists md,
    md !! "usage" = Some (VDict (usage_dict (fst totals) (snd totals)
                                   (fst totals + snd totals))) /\
    attempts (emitted o) =
      [session_started (run_id_of E);
       main_prompt_logged E;
       log_llm_response (run_id_of E) rc 1 1 (VInt (fst totals))
         (VInt (snd totals)) (VInt (fst totals + snd totals));
       session_succeeded (run_id_of E) rc elapsed md] /\
    file_writes (emitted o) = [("generated_recipes.json", rc, 2)].
Proof.
  intros totals Hep Hall Hrc HR Hel Hfs o.
  destruct (generate_counted E R
              (StructuredRecipeGenerator_init None (Some (next_loc s)))
              (run_id_of E)
              (Config.default_ingredients
                 (Config.recipes Config.default_config))
              (next_loc s) (tick (final (MetadataExtractor_init s)))
              response rc eq_refl Hep Hall Hrc HR)
    as (Hv & Ha & Hu & Hticks & _).
  fold (main_generate E R s) in Hv, Ha, Hu, Hticks.
  destruct (main_try_detail E R s) as (r & s' & t & Hrun & _ & Hcase).
  cbv zeta in Hcase. rewrite Hv, Hticks in Hcase.
  cbn [tick ticks final MetadataExtractor_init fst snd] in Hcase.
  change (4 + S (ticks s))%nat with (5 + ticks s)%nat in Hcase.
  rewrite Hel, Hfs, Ha in Hcase. destruct Hcase as (-> & Hat & Hfw).
  destruct (main_of_try E R s _ _ _ Hrun) as (t' & Hmain & Hat' & Hfw' & _).
  subst o. rewrite Hmain. cbn [emitted snd].
  eexists. split; [exact Hu|].
  rewrite Hat', Hfw', Hat, Hfw, app_nil_r. by split.
Qed.

(** X12 on the scenario of three recipes: 2250 milliseconds between the
    readings 10.5 and 12.75. *)
Lemma main_reports_the_counted_tokens_witness :
  let E := Sample.three_recipes in
  let o := main E Sample.collector_up Sample.start in
  exists rc md,
    length (recipes rc) = 3%nat /\
    md !! "usage" = Some (VDict (usage_dict 120 340 460)) /\
    attempts (emitted o) =
      [session_started (run_id_of E);
       main_prompt_logged E;
       log_llm_response (run_id_of E) rc 1 1 (VInt 120) (VInt 340)
         (VInt 460);
       session_succeeded (run_id_of E) rc 2250 md] /\
    file_writes (emitted o) = [("generated_recipes.json", rc, 2)].
Proof.
  intros E o.
  set (response := {| generations :=
                        [[Sample.candidate "three recipes" 120 340]] |}).
  destruct (reply_outcome E response) as [rc|e] eqn:Hout;
    [|discriminate Hout].
  exists rc.
  destruct (main_reports_the_counted_tokens E Sample.collector_up
              Sample.start response rc 2250) as (md & Hmd);
    [reflexivity | | exact Hout | reflexivity | vm_compute; reflexivity
    | reflexivity |].
  - apply List.Forall_cons; [|apply List.Forall_nil].
    right. eexists _, _. split; [reflexivity|]. by eexists.
  - exists md. split; [by injection Hout as <-|]. exact Hmd.
Defined.

(** X13.  A file that cannot be written.  When the recipes were generated and
    the elapsed times of the clock are numbers, but writing
    [generated_recipes.json] fails, [main] still returns: no file is
    written, the [OSError] is printed and reported as the one session end
    of the run, a failed one, although the call and the response of the
    model were logged as for a successful run. *)
Theorem unwritable_file_fails_the_session E R s rc msg :
  main_outcome E = Ok rc ->
  write_file E "generated_recipes.json" = Some msg ->
  finite_clock E ->
  let o := main E R s in
  value_of o = Ok tt /\
  file_writes (emitted o) = [] /\
  Print (VStr ("Error: " +:+ msg)) ∈ emitted o /\
  main_prompt_logged E ∈ attempts (emitted o) /\
  List.filter is_session_end (attempts (emitted o)) =
    [session_failed (run_id_of E) (OSError msg)].
Proof.
  intros Hout Hfs Hclock o.
  destruct (generate_run E R
              (StructuredRecipeGenerator_init None (Some (next_loc s)))
              (run_id_of E)
              (Config.default_ingredients
                 (Config.recipes Config.default_config))
              (Some (next_loc s)) (tick (final (MetadataExtractor_init s))))
    as (s2 & t2 & Hgen & _).
  fold (main_generate E R s) in Hgen. fold main_items in Hgen.
  fold (main_outcome E) in Hgen. rewrite Hout in Hgen.
  destruct (main_try_detail E R s) as (r & s' & t & Hrun & _ & Hcase).
  cbv zeta in Hcase. rewrite Hgen in Hcase.
  cbn [value_of final emitted fst snd] in Hcase.
  destruct (Hclock (ticks s2) (ticks s)) as [elapsed Hel].
  rewrite Hel, Hfs in Hcase. destruct Hcase as (-> & _ & Hfw).
  destruct (main_of_try E R s _ _ _ Hrun) as (t' & Hmain & _ & Hfw' & Hpr).
  destruct (main_run E R s) as (s'' & t'' & Hmain' & Hshape).
  rewrite Hmain in Hmain'. injection Hmain' as <- <-.
  rewrite Hout, Hrun in Hshape. cbn [value_of fst] in Hshape.
  destruct Hshape as (md & [(e & [= <-] & Hkey)|(el & md' & [=] & _)]).
  subst o. rewrite Hmain. cbn [value_of emitted fst snd].
  split; [done|]. split; [by rewrite Hfw'|].
  split; [by apply (Hpr (OSError msg))|].
  rewrite attempts_key, Hkey. unfold attempts. rewrite !omap_app.
  fold (attempts (main_logged E R rc md)). split.
  - rewrite !elem_of_app. right; left. unfold main_logged.
    apply list_elem_of_here.
  - rewrite !List.filter_app, attempts_main_logged. reflexivity.
Qed.

Lemma finite_clock_answering uuid response :
  finite_clock (Sample.answering uuid response).
Proof.
  intros n m. cbn [clock Sample.answering].
  destruct n as [|[|n]], m as [|[|m]]; eexists; vm_compute; reflexivity.
Qed.

(** X13 on the scenario of three recipes in a directory that cannot be
    written. *)
Lemma unwritable_file_fails_the_session_witness :
  let E := read_only Sample.three_recipes "Permission denied" in
  let o := main E Sample.collector_up Sample.start in
  value_of o = Ok tt /\
  file_writes (emitted o) = [] /\
  Print (VStr "Error: Permission denied") ∈ emitted o /\
  main_prompt_logged E ∈ attempts (emitted o) /\
  List.filter is_session_end (attempts (emitted o)) =
    [session_failed (run_id_of E) (OSError "Permission denied")].
Proof.
  intros E o.
  destruct (main_outcome E) as [rc|e] eqn:Hout; [|discriminate Hout].
  apply (unwritable_file_fails_the_session E Sample.collector_up
           Sample.start rc "Permission denied" Hout eq_refl).
  apply (finite_clock_answering "0a1b2c3d"
           {| generations :=
                [[Sample.candidate "three recipes" 120 340]] |}).
Defined.

(** X14.  [main] and its run id.  Whatever the model, the parser, the file
    system, the clock and the collector do, [main] returns; and every
    telemetry call it attempts carries the run id drawn at the start. *)
Theorem main_returns_and_keeps_one_run_id E R s :
  let o := main E R s in
  value_of o = Ok tt /\
  Forall (fun c => session_of c = run_id_of E) (attempts (emitted o)).
Proof.
  intros o. subst o.
  destruct (main_run E R s) as (s' & t & -> & Hshape).
  cbn [value_of emitted fst snd]. split; [done|].
  rewrite attempts_key.
  destruct (main_outcome E) as [rc|e].
  - destruct Hshape
      as (md & [(e & _ & ->)|(elapsed & md' & _ & _ & ->)]);
      unfold main_logged; destruct (R (main_prompt_logged E));
      cbn; repeat constructor.
  - destruct Hshape as (_ & _ & ->). cbn. repeat constructor.
Qed.

(* ===================================================================== *)
(** * What the parser accepts *)
(* ===================================================================== *)

Section ValidatorInversion.
Variable L : parser_lib.

Lemma validate_all_inv {A} (f : value -> checked A) l rs :
  validate_all f l = Valid rs <-> Forall2 (fun v a => f v = Valid a) l rs.
Proof.
  split.
  - revert rs. induction l as [|v l IH]; intros rs; cbn [validate_all].
    + intros [= <-]. constructor.
    + destruct (f v) as [a|why] eqn:Hv; cbn [and_then]; [|discriminate].
      destruct (validate_all f l) as [r|why]; cbn [and_then]; [|discriminate].
      intros [= <-]. constructor; [done | by apply IH].
  - induction 1 as [|v a l rs Hv _ IH]; cbn [validate_all]; [done|].
    by rewrite Hv, IH.
Qed.

Lemma validate_all_str_inv loc l ss :
  validate_all (validate_str loc) l = Valid ss -> l = VStr <$> ss.
Proof.
  intros H. apply validate_all_inv in H.
  induction H as [|v s l ss Hv _ IH]; [done|].
  destruct v; try discriminate Hv. injection Hv as ->.
  cbn. by rewrite IH.
Qed.

Lemma validate_str_list_inv loc v ss :
  validate_list loc (validate_str loc) v = Valid ss ->
  v = VList (VStr <$> ss).
Proof.
  destruct v; try discriminate. cbn [validate_list].
  intros H. by rewrite (validate_all_str_inv _ _ _ H).
Qed.

Lemma validate_Recipe_read v r :
  validate_Recipe L v = Valid r <-> read_as L v r.
Proof.
  split.
  - destruct v as [| | | | | |o]; try discriminate.
    unfold validate_Recipe, required, validate_int.
    destruct (o !! "name") as [vn|] eqn:Hn; [|discriminate].
    destruct vn as [| | | |n| |]; try discriminate. cbn [validate_str and_then].
    destruct (o !! "ingredients") as [ving|] eqn:Hing; [|discriminate].
    destruct (validate_list "ingredients" (validate_str "ingredients") ving)
      as [ing|] eqn:Hving; [|discriminate].
    apply validate_str_list_inv in Hving as ->. cbn [and_then].
    destruct (o !! "instructions") as [vins|] eqn:Hins; [|discriminate].
    destruct (validate_list "instructions" (validate_str "instructions") vins)
      as [ins|] eqn:Hvins; [|discriminate].
    apply validate_str_list_inv in Hvins as ->. cbn [and_then].
    destruct (o !! "prep_time_minutes") as [vp|] eqn:Hp; [|discriminate].
    destruct (lax_int L vp) as [p|] eqn:Hvp; [|discriminate].
    cbn [and_then].
    destruct (o !! "cook_time_minutes") as [vc|] eqn:Hc; [|discriminate].
    destruct (lax_int L vc) as [c|] eqn:Hvc; [|discriminate].
    cbn [and_then].
    destruct (o !! "servings") as [vs|] eqn:Hs; [|discriminate].
    destruct (lax_int L vs) as [s|] eqn:Hvs; [|discriminate].
    cbn [and_then]. intros [= <-].
    by exists o, vp, vc, vs.
  - intros (o & vp & vc & vs & -> & Hn & Hing & Hins & Hp & Hvp & Hc & Hvc
            & Hs & Hvs).
    unfold validate_Recipe, required, validate_int.
    rewrite Hn, Hing, Hins, Hp, Hc, Hs, Hvp, Hvc, Hvs.
    cbn [validate_str validate_list and_then].
    rewrite !validate_all_strs. cbn [and_then]. by destruct r.
Qed.

End ValidatorInversion.

(** A reply that reads as the records of a collection is accepted. *)
Lemma parse_accepts L reply_text rc (d : gmap string value) rs :
  parse_json L reply_text = Some (VDict d) ->
  d !! "recipes" = Some (VList rs) ->
  Forall2 (read_as L) rs (recipes rc) ->
  parse L reply_text = inl rc.
Proof.
  intros Hjson Hr Hall. unfold parse. rewrite Hjson.
  unfold validate_RecipeCollection, required. rewrite Hr.
  cbn [validate_list].
  assert (validate_all (validate_Recipe L) rs = Valid (recipes rc)) as ->.
  { apply validate_all_inv. eapply Forall2_impl; [exact Hall|].
    intros v r. apply validate_Recipe_read. }
  cbn [and_then]. by destruct rc.
Qed.

(** X15.  What the parser accepts, exactly.  [parser.parse] returns a
    collection if and only if the reply reads as a JSON object whose
    [recipes] is a list that has, record for record and in the same order,
    an object holding the name, the ingredients and the instructions of the
    result as texts and, for the three times and servings, values that
    coerce to the integers of the result.  Other keys of the reply, and the
    number of records, play no part. *)
Theorem parse_accepts_exactly L reply_text rc :
  parse L reply_text = inl rc <->
  exists (d : gmap string value) rs,
    parse_json L reply_text = Some (VDict d) /\
    d !! "recipes" = Some (VList rs) /\
    Forall2 (read_as L) rs (recipes rc).
Proof.
  split.
  - unfold parse.
    destruct (parse_json L reply_text) as [v|]; [|discriminate].
    destruct v as [| | | | | |d]; try discriminate.
    unfold validate_RecipeCollection, required.
    destruct (d !! "recipes") as [vr|] eqn:Hr; [|discriminate].
    destruct vr as [| | | | |rs|]; try discriminate.
    cbn [validate_list].
    destruct (validate_all (validate_Recipe L) rs) as [l|] eqn:Hall;
      [|discriminate].
    cbn [and_then]. intros [= <-]. exists d, rs.
    split; [done|]. split; [done|]. cbn [recipes].
    apply validate_all_inv in Hall.
    eapply Forall2_impl; [exact Hall|].
    intros v r. apply validate_Recipe_read.
  - intros (d & rs & Hjson & Hr & Hall). by eapply parse_accepts.
Qed.

Lemma read_as_model_dump L r :
  (forall z, lax_int L (VInt z) = Some z) ->
  read_as L (Recipe_model_dump r) r.
Proof.
  intros Hint.
  eexists _, (VInt (prep_time_minutes r)), (VInt (cook_time_minutes r)),
    (VInt (servings r)).
  split; [reflexivity|]. by rewrite !Hint.
Qed.

(** X16.  The file read back.  When the JSON reader reads a text as the
    dictionary [main] dumps for a collection
    ([recipe_collection.model_dump()]), and integers coerce to themselves,
    [parser.parse] accepts the text and returns that collection: what a run
    writes is a reply the schema accepts. *)
Theorem dumped_collection_parses_back L reply_text rc :
  (forall z, lax_int L (VInt z) = Some z) ->
  parse_json L reply_text = Some (model_dump rc) ->
  parse L reply_text = inl rc.
Proof.
  intros Hint Hjson.
  eapply parse_accepts; [exact Hjson | apply lookup_insert_eq |].
  induction (recipes rc) as [|r l IH]; [constructor|].
  cbn. constructor; [by apply read_as_model_dump | exact IH].
Qed.

(** X16 on the reply of one recipe. *)
Lemma dumped_collection_parses_back_witness :
  let pilaf := {| name := "pilaf"; ingredients := ["rice"; "chicken"];
                  instructions := ["boil"; "serve"]; prep_time_minutes := 5;
                  cook_time_minutes := 20; servings := 2 |} in
  parse Sample.the_lib "one recipe" = inl {| recipes := [pilaf] |}.
Proof.
  intros pilaf.
  apply (dumped_collection_parses_back Sample.the_lib "one recipe"
           {| recipes := [pilaf] |}).
  - intros z. reflexivity.
  - vm_compute. reflexivity.
Defined.

(* ===================================================================== *)
(** * The logging block, the listing and the two prompts *)
(* ===================================================================== *)

Lemma log_llm_exchange_prompt_fails R run_id prompt rc me s msg :
  R (prompt_logged run_id prompt) = Some msg ->
  log_llm_exchange R run_id prompt rc me s =
    (Ok tt, s,
     [Telemetry (prompt_logged run_id prompt);
      Print (VStr ("Warning: Failed to log LLM call: " +:+ msg))]).
Proof.
  intros H. unfold log_llm_exchange. fold (prompt_logged run_id prompt).
  run_unfold. rewrite H. reflexivity.
Qed.

(** The events of a call whose chain returned: those of the chain, then
    those of the logging block. *)
Lemma generate_logging E R self run_id ingredients me s rc :
  let i := join ", " ingredients in
  chain_outcome E i = Ok rc ->
  let o := generate_structured_recipes E R self run_id ingredients me s in
  exists t2 s2,
    value_of o = Ok rc /\
    key t2 = [ModelCall (render i (format_instructions (lib E)))] /\
    emitted o =
      t2 ++ emitted (log_llm_exchange R run_id
                       (full_prompt i (format_instructions (lib E)))
                       rc me s2).
Proof.
  intros i Hout o. subst o.
  unfold generate_structured_recipes. cbv zeta. fold i.
  run_step.
  match goal with
  | |- context [bind (chain_invoke E self i _) _ ?s1] =>
      destruct (chain_invoke_run E self i s1) as (s2 & t2 & Hch & _ & Hkey)
  end.
  rewrite Hout in Hch. rewrite (bind_ok _ _ _ _ _ _ Hch). run_step.
  match goal with
  | |- context [bind (log_llm_exchange R run_id ?q rc me) _ ?s3] =>
      destruct (log_llm_exchange_run R run_id q rc me s3) as (t3 & Hex & _);
      exists t2, s3
  end.
  rewrite (bind_ok _ _ _ _ _ _ Hex), Hex.
  cbn [ret value_of final emitted fst snd app].
  by rewrite !app_nil_r.
Qed.

(** X17.  A prompt call that fails.  When the chain has returned and the call
    that logs the prompt raises, [generate_structured_recipes] does not
    attempt the call that logs the response: the prompt call is its only
    telemetry attempt, the text of the failure is printed as a warning, and
    the collection is returned. *)
Theorem failed_prompt_call_skips_the_response E R self run_id ingredients
    me s rc msg :
  let i := join ", " ingredients in
  let c := prompt_logged run_id
             (full_prompt i (format_instructions (lib E))) in
  chain_outcome E i = Ok rc ->
  R c = Some msg ->
  let o := generate_structured_recipes E R self run_id ingredients me s in
  value_of o = Ok rc /\
  attempts (emitted o) = [c] /\
  Print (VStr ("Warning: Failed to log LLM call: " +:+ msg)) ∈ emitted o.
Proof.
  intros i c Hout HR o.
  destruct (generate_logging E R self run_id ingredients me s rc Hout)
    as (t2 & s2 & Hv & Hkey & Hem).
  fold i in Hem, Hkey. fold o in Hv, Hem. fold c in Hem.
  rewrite (log_llm_exchange_prompt_fails R run_id _ rc me s2 msg HR) in Hem.
  cbn [emitted snd] in Hem. rewrite Hem.
  split; [done|]. split.
  - unfold attempts. rewrite omap_app. fold (attempts t2).
    by rewrite (attempts_key t2), Hkey.
  - apply elem_of_app. right.
    apply list_elem_of_further, list_elem_of_here.
Qed.

(** X17 on the scenario of three recipes with the collector down. *)
Lemma failed_prompt_call_skips_the_response_witness :
  let E := Sample.three_recipes in
  let o := generate_structured_recipes E Sample.collector_down
             (StructuredRecipeGenerator_init None (Some 0%nat))
             "recipe-gen-0a1b2c3d" ["chicken"; "rice"] (Some 0%nat)
             (final (MetadataExtractor_init Sample.start)) in
  let c := prompt_logged "recipe-gen-0a1b2c3d"
             (full_prompt (join ", " ["chicken"; "rice"])
                (format_instructions (lib E))) in
  exists rc,
    length (recipes rc) = 3%nat /\
    value_of o = Ok rc /\
    attempts (emitted o) = [c] /\
    Print (VStr "Warning: Failed to log LLM call: connection refused")
      ∈ emitted o.
Proof.
  intros E o c.
  destruct (chain_outcome E (join ", " ["chicken"; "rice"]))
    as [rc|e] eqn:Hout; [|discriminate Hout].
  exists rc. split; [by injection Hout as <-|].
  apply (failed_prompt_call_skips_the_response E Sample.collector_down
           (StructuredRecipeGenerator_init None (Some 0%nat))
           "recipe-gen-0a1b2c3d" ["chicken"; "rice"] (Some 0%nat)
           (final (MetadataExtractor_init Sample.start)) rc
           "connection refused" Hout eq_refl).
Defined.

(** ** The listing of [main] *)

Lemma print_instructions_numbered j l s k ins :
  l !! k = Some ins ->
  Print (VStr ("   " +:+ pretty (j + k)%nat +:+ ". " +:+ ins))
    ∈ emitted (print_instructions j l s).
Proof.
  revert j k s. induction l as [|x l IH]; intros j k s Hk; [done|].
  cbn [print_instructions]. run_step. cbn [emitted snd].
  destruct k as [|k].
  - injection Hk as ->. rewrite Nat.add_0_r. apply list_elem_of_here.
  - apply list_elem_of_further.
    replace (j + S k)%nat with (S j + k)%nat by lia. by apply IH.
Qed.

Lemma print_recipes_cons i r rest s :
  emitted (print_recipes i (r :: rest) s) =
    [Print (VStr (LF +:+ "Recipe " +:+ pretty i +:+ ": " +:+ name r))] ++
    [Print (VStr ("Prep: " +:+ pretty (prep_time_minutes r) +:+
                  " min | Cook: " +:+ pretty (cook_time_minutes r) +:+
                  " min | Serves: " +:+ pretty (servings r)))] ++
    [Print (VStr (LF +:+ "Ingredients:"))] ++
    emitted (print_ingredients (ingredients r) s) ++
    [Print (VStr (LF +:+ "Instructions:"))] ++
    emitted (print_instructions 1 (instructions r) s) ++
    [Print (VStr (repeat_str "-" 40))] ++
    emitted (print_recipes (S i) rest s).
Proof.
  cbn [print_recipes]. do 3 run_step.
  destruct (quiet_print_ingredients (ingredients r) s) as [Hs1 _].
  pose proof (print_ingredients_ok (ingredients r) s) as Hv1.
  rewrite (bind_ok _ _ s tt s (emitted (print_ingredients (ingredients r) s)));
    [|by rewrite (run_eta (print_ingredients _ _)), Hv1, <- Hs1].
  run_step.
  destruct (quiet_print_instructions 1 (instructions r) s) as [Hs2 _].
  pose proof (print_instructions_ok 1 (instructions r) s) as Hv2.
  rewrite (bind_ok _ _ s tt s
             (emitted (print_instructions 1 (instructions r) s)));
    [|by rewrite (run_eta (print_instructions _ _ _)), Hv2, <- Hs2].
  run_step. reflexivity.
Qed.

(** X18.  The listing is numbered from one.  For the [k]-th record of the
    collection (counting from zero) the listing of [main] prints the header
    [Recipe k+1: name], and for the [j]-th instruction of that record the
    line numbered [j+1]: the numbering of the instructions starts again
    with every record.  The listing only prints. *)
Theorem listing_is_numbered_from_one (l : list Recipe) s k r :
  l !! k = Some r ->
  let o := print_recipes 1 l s in
  value_of o = Ok tt /\ final o = s /\ key (emitted o) = [] /\
  Print (VStr (LF +:+ "Recipe " +:+ pretty (S k) +:+ ": " +:+ name r))
    ∈ emitted o /\
  (forall j ins, instructions r !! j = Some ins ->
     Print (VStr ("   " +:+ pretty (S j) +:+ ". " +:+ ins)) ∈ emitted o).
Proof.
  intros Hk o. subst o.
  destruct (print_recipes_run 1 l s) as (t & Hrun & Hq).
  split; [by rewrite Hrun|]. split; [by rewrite Hrun|].
  split; [by rewrite Hrun|]. clear t Hrun Hq.
  change (S k) with (1 + k)%nat. generalize 1%nat as i.
  revert k Hk. induction l as [|r0 l IH]; intros k Hk i; [done|].
  rewrite print_recipes_cons.
  destruct k as [|k].
  - injection Hk as ->. rewrite Nat.add_0_r.
    split; [apply list_elem_of_here|].
    intros j ins Hj. rewrite !elem_of_app. do 5 right. left.
    by apply (print_instructions_numbered 1).
  - replace (i + S k)%nat with (S i + k)%nat by lia.
    destruct (IH k Hk (S i)) as [Hhead Hins].
    split; [|intros j ins Hj; specialize (Hins j ins Hj)];
      rewrite !elem_of_app; by do 7 right.
Qed.

(** X18 on two records: the second record and its second instruction. *)
Lemma listing_is_numbered_from_one_witness :
  let pilaf := {| name := "pilaf"; ingredients := ["rice"];
                  instructions := ["boil"]; prep_time_minutes := 5;
                  cook_time_minutes := 20; servings := 2 |} in
  let paella := {| name := "paella"; ingredients := ["rice"; "chicken"];
                   instructions := ["fry"; "simmer"]; prep_time_minutes := 15;
                   cook_time_minutes := 40; servings := 4 |} in
  let o := print_recipes 1 [pilaf; paella] Sample.start in
  Print (VStr (LF +:+ "Recipe 2: paella")) ∈ emitted o /\
  Print (VStr "   2. simmer") ∈ emitted o.
Proof.
  intros pilaf paella o.
  destruct (listing_is_numbered_from_one [pilaf; paella] Sample.start
              1%nat paella eq_refl) as (_ & _ & _ & Hhead & Hins).
  split; [exact Hhead | exact (Hins 1%nat "simmer" eq_refl)].
Defined.

(** ** The prompt that is sent and the prompt that is logged *)

Lemma length_append (a b : string) :
  String.length (a +:+ b) = (String.length a + String.length b)%nat.
Proof.
  induction a as [|c a IH]; [done|].
  change (S (String.length (a +:+ b)) =
            S (String.length a + String.length b)).
  by rewrite IH.
Qed.

(** X19.  The logged prompt is not the prompt sent.  For every item list and
    every text of format instructions, the human message rendered for the
    model is 28 characters longer than the prompt handed to the collector
    (seven continuation lines, indented by twelve blanks in the template
    and by eight in the logged text), so the two differ; and the system
    prompt handed to the collector is the first line only of the system
    message sent to the model. *)
Theorem logged_prompt_differs_from_the_prompt_sent E R self run_id
    ingredients me s :
  let i := join ", " ingredients in
  let fi := format_instructions (lib E) in
  let o := generate_structured_recipes E R self run_id ingredients me s in
  model_calls (emitted o) = [render i fi] /\
  String.length (human_text (render i fi)) =
    (String.length (full_prompt i fi) + 28)%nat /\
  human_text (render i fi) <> full_prompt i fi /\
  String.prefix "You are a professional chef and cooking assistant."
    (system_text (render i fi)) = true /\
  system_text (render i fi) <>
    "You are a professional chef and cooking assistant.".
Proof.
  intros i fi o.
  destruct (generate_run E R self run_id ingredients me s)
    as (s' & t & Hrun & _ & Hmc & _).
  fold i fi in Hmc. subst o. rewrite Hrun. cbn [emitted snd].
  split; [exact Hmc|].
  assert (String.length (human_text (render i fi)) =
            (String.length (full_prompt i fi) + 28)%nat) as Hlen.
  { cbn [human_text render]. unfold human_message, full_prompt, prompt_text,
      prompt_tail, prompt_head.
    rewrite !length_append. cbn [String.length LF]. lia. }
  split; [exact Hlen|]. split; [|split; [reflexivity|]].
  - intros Heq. rewrite Heq in Hlen. lia.
  - intros Heq. apply (f_equal String.length) in Heq.
    vm_compute in Heq. discriminate Heq.
Qed.

(** X20.  The model name an extractor records.  An extractor takes its model
    name from the configuration when it is created, and [on_llm_end] stores
    that name: a generator built with another model name around the same
    extractor still leaves the configured default in the metadata. *)
Theorem recorded_model_is_the_configured_default E R m run_id ingredients s
    response :
  let i := join ", " ingredients in
  let l := next_loc s in
  let self := StructuredRecipeGenerator_init (Some m) (Some l) in
  endpoint E (render i (format_instructions (lib E))) = Reply response ->
  Forall countable (generations response) ->
  let o := generate_structured_recipes E R self run_id ingredients (Some l)
             (final (MetadataExtractor_init s)) in
  llm_model self = m /\
  metadata (heap (final o) !!! l) !! "model" =
    Some (VStr (Config.model_name (Config.ollama Config.default_config))).
Proof.
  intros i l self Hep Hall o. split; [reflexivity|].
  pose proof (generate_final E R self run_id ingredients (Some l)
                (final (MetadataExtractor_init s))) as Hfin.
  cbv zeta in Hfin. fold i in Hfin.
  rewrite (chain_invoke_final E self i _ l _ eq_refl) in Hfin.
  rewrite Hep in Hfin.
  destruct (on_llm_start_then_end E l (serialized E)
              [prompt_string (render i (format_instructions (lib E)))]
              (callback_kwargs E) response (callback_kwargs E)
              (tick (final (MetadataExtractor_init s))) Hall)
    as (_ & _ & _ & Hmodel).
  cbn [final fst snd MetadataExtractor_init tick heap] in Hmodel.
  rewrite lookup_total_insert_eq in Hmodel.
  cbn [model] in Hmodel.
  subst o. fold self in Hfin. rewrite Hfin.
  destruct (chain_outcome E i); exact Hmodel.
Qed.

(** X20 on a generator built for [llama2]. *)
Lemma recorded_model_is_the_configured_default_witness :
  let E := Sample.three_recipes in
  let self := StructuredRecipeGenerator_init (Some "llama2") (Some 0%nat) in
  let o := generate_structured_recipes E Sample.collector_up self
             "recipe-gen-0a1b2c3d" ["chicken"; "rice"] (Some 0%nat)
             (final (MetadataExtractor_init Sample.start)) in
  llm_model self = "llama2" /\
  metadata (heap (final o) !!! 0%nat) !! "model" = Some (VStr "qwen3:8b").
Proof.
  apply (recorded_model_is_the_configured_default Sample.three_recipes
           Sample.collector_up "llama2" "recipe-gen-0a1b2c3d"
           ["chicken"; "rice"] Sample.start
           {| generations :=
                [[Sample.candidate "three recipes" 120 340]] |});
    [reflexivity|].
  apply List.Forall_cons; [|apply List.Forall_nil].
  right. eexists _, _. split; [reflexivity|]. by eexists.
Defined.

